(** * LCA tool: impact calculation, enrichment and fallback pipeline

    A shallow embedding of the back-end routes of the LCA tool
    ([backend/routes/lca.js], [backend/routes/data.js],
    [backend/routes/ai.js] and the seeding code of
    [backend/utils/database.js]) together with the properties the
    specification states about them.

    Modelling conventions.
    - JavaScript numbers are modelled by exact rationals ([Q]); IEEE-754
      rounding error, [NaN] and the infinities are outside the model.  A
      value that would be [NaN] is written [None] where the code can
      produce one ([parseFloat], a division by a zero total).  Because
      binary64 addition is not associative, the properties word every
      sum as the running total the code accumulates, one addition per
      element in the code's order ([accumulate]), and otherwise rest on
      comparisons and monotonicity only.
    - Strings are [string]; [toLowerCase] and SQLite's [LOWER] act on the
      ASCII letters.
    - A JavaScript object used as a map in insertion order
      ([categoryBreakdown]) is an association list; category names are
      assumed not to be array indices or inherited property names.
    - The SQLite tables are lists of rows in rowid order.  A write
      ([database.run]) can throw; the outcome of each successive write is
      scripted in the database state.  Reads of the emission factors
      ([database.get]) are taken to succeed, and every material is taken
      to carry a string [material_type]; the status 500 of the outer
      [catch] of [POST /calculate], which takes a [null] element, a type
      that cannot be bound or a failing read, is therefore outside the
      model of that route. *)

From Stdlib Require Import QArith Qround ZArith List String Ascii Bool.
From Stdlib Require Import Lia Lqa Permutation Sorted DecimalString.
Import ListNotations.

Local Open Scope Q_scope.

(** ** JavaScript primitives *)

Module Js.

(** [Math.round]: the nearest integer, halves rounded towards +infinity. *)
Definition round (x : Q) : Z := Qfloor (x + (1 # 2)).

(** [Math.round(x * 100) / 100]. *)
Definition round2 (x : Q) : Q := inject_Z (round (x * 100)) / 100.

(** [Math.max(a, b)]. *)
Definition max (a b : Q) : Q := if Qle_bool a b then b else a.

(** [a > b] on numbers. *)
Definition gt (a b : Q) : bool := negb (Qle_bool a b).

(** [a >= b] on numbers. *)
Definition ge (a b : Q) : bool := Qle_bool b a.

(** Truthiness of a number that may be absent: [undefined], [NaN] and
    [0] are falsy. *)
Definition truthy_num (v : option Q) : bool :=
  match v with
  | Some q => negb (Qeq_bool q 0)
  | None => false
  end.

(** [parseFloat(v) || 0] for a numeric or absent field. *)
Definition parseFloat_or_0 (v : option Q) : Q :=
  match v with
  | Some q => q
  | None => 0
  end.

(** Truthiness of a string that may be absent. *)
Definition truthy_str (v : option string) : bool :=
  match v with
  | Some EmptyString => false
  | Some _ => true
  | None => false
  end.

(** [v || d] on strings. *)
Definition str_or (v : option string) (d : string) : string :=
  if truthy_str v then match v with Some s => s | None => d end else d.

(** Lower-casing of one character (ASCII letters). *)
Definition lower_ascii (c : ascii) : ascii :=
  let n := nat_of_ascii c in
  if (Nat.leb 65 n && Nat.leb n 90)%bool then ascii_of_nat (n + 32) else c.

(** [s.toLowerCase()]. *)
Fixpoint toLowerCase (s : string) : string :=
  match s with
  | EmptyString => EmptyString
  | String c s' => String (lower_ascii c) (toLowerCase s')
  end.

(** [s.includes(k)]: [k] occurs in [s] as a contiguous substring. *)
Fixpoint includes (s k : string) : bool :=
  (String.prefix k s ||
   match s with
   | EmptyString => false
   | String _ s' => includes s' k
   end)%bool.

(** Decimal rendering of an integer inside a template string. *)
Definition string_of_Z (z : Z) : string := NilZero.string_of_int (Z.to_int z).

Definition string_of_nat (n : nat) : string := string_of_Z (Z.of_nat n).

(** The one-character string holding a double quote. *)
Definition dquote : string := String (ascii_of_nat 34) EmptyString.

End Js.

(** ** Stable sorting

    [Array.prototype.sort] with a consistent comparator and SQLite's
    [ORDER BY] on one key are both modelled by a stable insertion sort:
    [before x y] says that [x] may stay in front of [y]. *)

Section StableSort.
Context {A : Type} (before : A -> A -> bool).

Fixpoint insert (x : A) (l : list A) : list A :=
  match l with
  | [] => [x]
  | y :: ys => if before x y then x :: y :: ys else y :: insert x ys
  end.

Fixpoint stable_sort (l : list A) : list A :=
  match l with
  | [] => []
  | x :: xs => insert x (stable_sort xs)
  end.
End StableSort.

(** ** The database ([backend/utils/database.js]) *)

Module EmissionFactor.
Record t := mk {
  material_type : string;
  category : string;
  co2_factor : Q;
  energy_factor : Q;
  transport_factor : Q;
  unit : string;
  source : string
}.
End EmissionFactor.

Module AssessmentRow.
Record t := mk {
  id : Z;
  name : string;
  description : string;
  total_co2 : Q;
  total_energy : Q;
  total_materials : Q
}.
End AssessmentRow.

Module MaterialRow.
Record t := mk {
  id : Z;
  assessment_id : Z;
  material_type : string;
  quantity : Q;
  unit : string;
  energy_consumption : Q;
  transport_distance : Q;
  co2_impact : Q;
  energy_impact : Q;
  category : string
}.
End MaterialRow.

Module Database.

(** The three tables, the AUTOINCREMENT counters of the two written
    tables, and the script of the coming writes: [true] makes the next
    [database.run] throw, an exhausted script means success. *)
Record t := mk {
  emission_factors : list EmissionFactor.t;
  lca_assessments : list AssessmentRow.t;
  assessment_materials : list MaterialRow.t;
  seq_assessments : Z;
  seq_materials : Z;
  faults : list bool
}.

(** Result of an awaited database call. *)
Inductive outcome (A : Type) : Type :=
| Returned (a : A)
| Thrown.
Arguments Returned {A} a.
Arguments Thrown {A}.

(** A database action: state in, outcome and state out. *)
Definition M (A : Type) : Type := t -> outcome A * t.

Definition ret {A} (a : A) : M A := fun db => (Returned a, db).

Definition bind {A B} (m : M A) (k : A -> M B) : M B :=
  fun db =>
    match m db with
    | (Returned a, db') => k a db'
    | (Thrown, db') => (Thrown, db')
    end.

(** Consumes the outcome scripted for the next write. *)
Definition next_fault (db : t) : bool * t :=
  match faults db with
  | [] => (false, db)
  | f :: fs =>
      (f, mk (emission_factors db) (lca_assessments db)
             (assessment_materials db) (seq_assessments db)
             (seq_materials db) fs)
  end.

(** [database.run('INSERT INTO lca_assessments ...')]: returns the new
    row id. *)
Definition insert_assessment
    (name description : string) (total_co2 total_energy total_materials : Q)
    : M Z :=
  fun db =>
    let (f, db1) := next_fault db in
    if f then (Thrown, db1)
    else
      let i := (seq_assessments db1 + 1)%Z in
      (Returned i,
       mk (emission_factors db1)
          (lca_assessments db1 ++
             [AssessmentRow.mk i name description
                total_co2 total_energy total_materials])
          (assessment_materials db1) i (seq_materials db1) (faults db1)).

(** [database.run('INSERT INTO assessment_materials ...')]. *)
Definition insert_material
    (assessment_id : Z) (material_type : string) (quantity : Q)
    (unit : string) (energy_consumption transport_distance : Q)
    (co2_impact energy_impact : Q) (category : string) : M Z :=
  fun db =>
    let (f, db1) := next_fault db in
    if f then (Thrown, db1)
    else
      let i := (seq_materials db1 + 1)%Z in
      (Returned i,
       mk (emission_factors db1) (lca_assessments db1)
          (assessment_materials db1 ++
             [MaterialRow.mk i assessment_id material_type quantity unit
                energy_consumption transport_distance
                co2_impact energy_impact category])
          (seq_assessments db1) i (faults db1)).

(** SQLite's [LOWER]. *)
Definition LOWER : string -> string := Js.toLowerCase.

(** SQLite's [LIKE]: [%] matches any run of characters, [_] any one
    character, every other character itself up to ASCII case. *)
Fixpoint LIKE (pattern : string) : string -> bool :=
  match pattern with
  | EmptyString =>
      fun text => match text with EmptyString => true | _ => false end
  | String p pattern' =>
      if Ascii.eqb p "%" then
        fix star (text : string) : bool :=
          (LIKE pattern' text ||
           match text with
           | EmptyString => false
           | String _ text' => star text'
           end)%bool
      else if Ascii.eqb p "_" then
        fun text =>
          match text with
          | EmptyString => false
          | String _ text' => LIKE pattern' text'
          end
      else
        fun text =>
          match text with
          | EmptyString => false
          | String c text' =>
              (Ascii.eqb (Js.lower_ascii p) (Js.lower_ascii c)
               && LIKE pattern' text')%bool
          end
  end.

(** [SELECT * FROM emission_factors
     WHERE LOWER(material_type) = LOWER(?)], first row. *)
Definition get_factor_exact (db : t) (material_type : string)
    : option EmissionFactor.t :=
  find (fun r => String.eqb (LOWER (EmissionFactor.material_type r))
                            (LOWER material_type))
       (emission_factors db).

(** [SELECT * FROM emission_factors
     WHERE LOWER(material_type) LIKE LOWER(?)
     ORDER BY material_type LIMIT 1], the parameter being the pattern. *)
Definition get_factor_like (db : t) (pattern : string)
    : option EmissionFactor.t :=
  hd_error
    (stable_sort
       (fun a b => String.leb (EmissionFactor.material_type a)
                              (EmissionFactor.material_type b))
       (filter (fun r => LIKE (LOWER pattern)
                              (LOWER (EmissionFactor.material_type r)))
               (emission_factors db))).

(** The seed rows of [insertDefaultEmissionFactors]. *)
Definition defaultFactors : list EmissionFactor.t :=
  [ EmissionFactor.mk "Steel" "Metals" 1.85 24.0 0.1 "kg" "Industry Average";
    EmissionFactor.mk "Aluminum" "Metals" 8.24 154.0 0.1 "kg" "Industry Average";
    EmissionFactor.mk "Copper" "Metals" 2.95 42.0 0.1 "kg" "Industry Average";
    EmissionFactor.mk "PET Plastic" "Plastics" 2.25 76.0 0.05 "kg" "PlasticsEurope";
    EmissionFactor.mk "HDPE" "Plastics" 1.95 76.7 0.05 "kg" "PlasticsEurope";
    EmissionFactor.mk "PVC" "Plastics" 2.41 57.5 0.05 "kg" "PlasticsEurope";
    EmissionFactor.mk "Concrete" "Construction" 0.13 1.0 0.02 "kg" "Cement Association";
    EmissionFactor.mk "Brick" "Construction" 0.24 3.0 0.03 "kg" "Building Research";
    EmissionFactor.mk "Wood" "Construction" (-0.9) 2.5 0.04 "kg" "Forest Products";
    EmissionFactor.mk "Glass" "Glass" 0.85 15.0 0.08 "kg" "Glass Manufacturing";
    EmissionFactor.mk "Ceramic" "Ceramics" 0.64 12.0 0.06 "kg" "Ceramic Industry";
    EmissionFactor.mk "Cotton" "Textiles" 5.89 55.0 0.03 "kg" "Textile Exchange";
    EmissionFactor.mk "Polyester" "Textiles" 9.52 125.0 0.03 "kg" "Textile Exchange";
    EmissionFactor.mk "Silicon" "Electronics" 1.3 230.0 0.1 "kg" "Semiconductor Industry";
    EmissionFactor.mk "Gold" "Electronics" 12800.0 240000.0 0.2 "kg" "Mining Industry";
    EmissionFactor.mk "Paper" "Paper" 0.93 20.0 0.04 "kg" "Paper Industry";
    EmissionFactor.mk "Cardboard" "Paper" 0.7 15.0 0.04 "kg" "Paper Industry" ]%string.

(** [insertDefaultEmissionFactors]: a seed row is inserted unless a row
    with its material type and category exists. *)
Definition insertDefaultEmissionFactors (table : list EmissionFactor.t)
    : list EmissionFactor.t :=
  fold_left
    (fun tbl factor =>
       if existsb
            (fun r =>
               (String.eqb (EmissionFactor.material_type r)
                           (EmissionFactor.material_type factor)
                && String.eqb (EmissionFactor.category r)
                              (EmissionFactor.category factor))%bool)
            tbl
       then tbl else tbl ++ [factor])
    defaultFactors table.

(** The database after [initializeDatabase] on an empty file, with a
    given script of write outcomes. *)
Definition seeded (script : list bool) : t :=
  mk (insertDefaultEmissionFactors []) [] [] 0%Z 0%Z script.

End Database.

(** ** The LCA routes ([backend/routes/lca.js]) *)

Module MaterialInput.
(** One element of [req.body.materials].  A numeric field is [None]
    when it is missing or does not parse as a number. *)
Record t := mk {
  material_type : string;
  quantity : option Q;
  unit : option string;
  energy_consumption : option Q;
  transport_distance : option Q
}.
End MaterialInput.

Module MaterialImpact.
(** One element of [materialBreakdown]. *)
Record t := mk {
  material_type : string;
  category : string;
  quantity : Q;
  unit : string;
  co2_impact : Q;
  energy_impact : Q;
  transport_impact : Q;
  total_impact : Q
}.
End MaterialImpact.

Module CategoryData.
(** One value of the [categoryBreakdown] object. *)
Record t := mk {
  co2 : Q;
  energy : Q;
  materials : Q;
  count : nat
}.
End CategoryData.

Module CategoryAggregate.
(** One element of [category_breakdown] in the response; a percentage
    that is not a finite number is serialised as [null] ([None]). *)
Record t := mk {
  category : string;
  co2 : Q;
  energy : Q;
  materials : Q;
  count : nat;
  percentage : option Q
}.
End CategoryAggregate.

Module Recommendation.
Record t := mk {
  type : string;
  priority : string;
  title : string;
  description : string;
  action : string
}.
End Recommendation.

Module Scores.
Record t := mk {
  overall : Z;
  co2 : Z;
  energy : Z;
  materials : Z;
  grade : string
}.
End Scores.

Module Summary.
Record t := mk {
  total_co2_kg : Q;
  total_energy_mj : Q;
  total_materials_kg : Q;
  material_count : nat
}.
End Summary.

Module AssessmentResult.
Record t := mk {
  assessment_id : option Z;
  summary : Summary.t;
  scores : Scores.t;
  material_breakdown : list MaterialImpact.t;
  category_breakdown : list CategoryAggregate.t;
  recommendations : list Recommendation.t;
  warnings : list string
}.
End AssessmentResult.

Module Lca.

Local Open Scope string_scope.

(** [req.body] of [POST /calculate]; [materials] is [None] when it is
    not an array. *)
Record Request := mkRequest {
  materials : option (list MaterialInput.t);
  assessment_name : option string;
  description : option string
}.

Inductive Response :=
| Status400 (error : string)
| Status200 (result : AssessmentResult.t).

(** The local variables of the handler that the loop over the
    materials updates. *)
Record Acc := mkAcc {
  totalCO2 : Q;
  totalEnergy : Q;
  totalMaterials : Q;
  materialBreakdown : list MaterialImpact.t;
  categoryBreakdown : list (string * CategoryData.t);
  warnings : list string
}.

Definition start : Acc := mkAcc 0 0 0 [] [] [].

(** Lines 29-43: the emission factor of a material and the warning
    pushed when the default factors are used. *)
Definition lookup (db : Database.t) (material_type : string)
    : EmissionFactor.t * option string :=
  match Database.get_factor_exact db material_type with
  | Some emissionFactor => (emissionFactor, None)
  | None =>
      (EmissionFactor.mk EmptyString "Unknown" 1.0 10.0 0.05 EmptyString EmptyString,
       Some ("Unknown material: " ++ material_type
               ++ ". Using estimated factors."))
  end.

(** Lines 68-79: the entry of the category is created on first use and
    then incremented. *)
Fixpoint add_to_category (cb : list (string * CategoryData.t))
    (category : string) (co2Impact energyImpact quantity : Q)
    : list (string * CategoryData.t) :=
  match cb with
  | [] =>
      [(category,
        CategoryData.mk (0 + co2Impact) (0 + energyImpact) (0 + quantity)
                        (0 + 1)%nat)]
  | (k, d) :: rest =>
      if String.eqb k category then
        (k, CategoryData.mk (CategoryData.co2 d + co2Impact)
              (CategoryData.energy d + energyImpact)
              (CategoryData.materials d + quantity)
              (CategoryData.count d + 1)%nat) :: rest
      else (k, d) :: add_to_category rest category
                       co2Impact energyImpact quantity
  end.

(** Lines 46-65: the breakdown entry of one material under a factor. *)
Definition impact_of (emissionFactor : EmissionFactor.t)
    (material : MaterialInput.t) : MaterialImpact.t :=
  let quantity := Js.parseFloat_or_0 (MaterialInput.quantity material) in
  let energyConsumption :=
    Js.parseFloat_or_0 (MaterialInput.energy_consumption material) in
  let transportDistance :=
    Js.parseFloat_or_0 (MaterialInput.transport_distance material) in
  let co2Impact := quantity * EmissionFactor.co2_factor emissionFactor in
  let energyImpact :=
    quantity * EmissionFactor.energy_factor emissionFactor
    + energyConsumption in
  let transportImpact :=
    transportDistance * EmissionFactor.transport_factor emissionFactor
    * quantity in
  MaterialImpact.mk
    (MaterialInput.material_type material)
    (EmissionFactor.category emissionFactor)
    quantity
    (Js.str_or (MaterialInput.unit material) "kg")
    co2Impact energyImpact transportImpact
    (co2Impact + energyImpact + transportImpact).

(** Lines 23-80: one iteration of the loop over the materials. *)
Definition step (db : Database.t) (acc : Acc) (material : MaterialInput.t)
    : Acc :=
  let (emissionFactor, warning) :=
    lookup db (MaterialInput.material_type material) in
  let m := impact_of emissionFactor material in
  mkAcc
    (totalCO2 acc
     + (MaterialImpact.co2_impact m
        + MaterialImpact.transport_impact m * 0.1))
    (totalEnergy acc + MaterialImpact.energy_impact m)
    (totalMaterials acc + MaterialImpact.quantity m)
    (materialBreakdown acc ++ [m])%list
    (add_to_category (categoryBreakdown acc)
       (EmissionFactor.category emissionFactor)
       (MaterialImpact.co2_impact m) (MaterialImpact.energy_impact m)
       (MaterialImpact.quantity m))
    (warnings acc ++ match warning with Some w => [w] | None => [] end)%list.

Definition loop (db : Database.t) (materials : list MaterialInput.t) : Acc :=
  fold_left (step db) materials start.

(** The comparator [(a, b) => b.total_impact - a.total_impact]: [a]
    stays in front of [b] when the difference is not positive. *)
Definition by_total_impact_desc (a b : MaterialImpact.t) : bool :=
  Qle_bool (MaterialImpact.total_impact b - MaterialImpact.total_impact a) 0.

(** The comparator [(a, b) => b[1].co2 - a[1].co2]. *)
Definition by_co2_desc (a b : string * CategoryData.t) : bool :=
  Qle_bool (CategoryData.co2 (snd b) - CategoryData.co2 (snd a)) 0.

(** [generateRecommendations].  [materialBreakdown.sort(...)] sorts the
    caller's array in place and returns it, so the function yields,
    next to the recommendations, the array as it leaves it. *)
Definition generateRecommendations
    (materialBreakdown : list MaterialImpact.t)
    (categoryBreakdown : list (string * CategoryData.t))
    : list Recommendation.t * list MaterialImpact.t :=
  let sortedMaterials := stable_sort by_total_impact_desc materialBreakdown in
  let materialBreakdown := sortedMaterials in
  let r1 :=
    match sortedMaterials with
    | highestImpact :: _ =>
        if Js.gt (MaterialImpact.total_impact highestImpact) 100 then
          [Recommendation.mk "high_impact" "high"
             ("Optimize " ++ MaterialImpact.material_type highestImpact
                ++ " usage")
             (MaterialImpact.material_type highestImpact ++ " contributes "
                ++ Js.string_of_Z
                     (Js.round (MaterialImpact.total_impact highestImpact))
                ++ " units to total impact. Consider alternatives or reduce quantity.")
             "material_substitution"]
        else []
    | [] => []
    end in
  let sortedCategories := stable_sort by_co2_desc categoryBreakdown in
  let r2 :=
    match sortedCategories with
    | (topCategory, topCategoryData) :: _ =>
        if Js.gt (CategoryData.co2 topCategoryData) 50 then
          [Recommendation.mk "category_optimization" "medium"
             ("Focus on " ++ topCategory ++ " materials")
             (topCategory ++ " category accounts for "
                ++ Js.string_of_Z (Js.round (CategoryData.co2 topCategoryData))
                ++ " kg CO2. This category has the highest environmental impact.")
             "category_review"]
        else []
    | [] => []
    end in
  let totalEnergy :=
    fold_left (fun sum m => sum + MaterialImpact.energy_impact m)
              materialBreakdown 0 in
  let r3 :=
    if Js.gt totalEnergy 1000 then
      [Recommendation.mk "energy_efficiency" "medium"
         "Improve energy efficiency"
         ("Total energy consumption is "
            ++ Js.string_of_Z (Js.round totalEnergy)
            ++ " MJ. Consider renewable energy sources or more efficient processes.")
         "energy_optimization"]
    else [] in
  let highTransportMaterials :=
    filter (fun m => Js.gt (MaterialImpact.transport_impact m) 10)
           materialBreakdown in
  let r4 :=
    if Nat.ltb 0 (List.length highTransportMaterials) then
      [Recommendation.mk "transport_optimization" "low"
         "Optimize transportation"
         (Js.string_of_nat (List.length highTransportMaterials)
            ++ " materials have high transport impact. Consider local sourcing or more efficient logistics.")
         "transport_optimization"]
    else [] in
  let r5 :=
    [Recommendation.mk "general" "low"
       "Consider circular economy principles"
       "Explore recycling, reuse, and sustainable material alternatives to reduce overall environmental impact."
       "circular_economy"] in
  ((r1 ++ r2 ++ r3 ++ r4 ++ r5)%list, materialBreakdown).

Definition getEnvironmentalGrade (score : Q) : string :=
  if Js.ge score 90 then "A+"
  else if Js.ge score 80 then "A"
  else if Js.ge score 70 then "B"
  else if Js.ge score 60 then "C"
  else if Js.ge score 50 then "D"
  else "F".

Definition co2Score (co2 : Q) : Q := Js.max 0 (100 - co2 / 10).
Definition energyScore (energy : Q) : Q := Js.max 0 (100 - energy / 100).
Definition materialScore (materials : Q) : Q :=
  Js.max 0 (100 - materials / 50).
Definition overallScore (co2 energy materials : Q) : Q :=
  (co2Score co2 + energyScore energy + materialScore materials) / 3.

(** [calculateEnvironmentalScores], documented in the source as
    "Calculate environmental scores (0-100 scale)". *)
Definition calculateEnvironmentalScores (co2 energy materials : Q)
    : Scores.t :=
  Scores.mk
    (Js.round (overallScore co2 energy materials))
    (Js.round (co2Score co2))
    (Js.round (energyScore energy))
    (Js.round (materialScore materials))
    (getEnvironmentalGrade (overallScore co2 energy materials)).

(** Lines 100-116: one row per element of [materialBreakdown], in the
    order the array has by then; the first write that throws ends the
    loop. *)
Fixpoint insert_materials (assessmentId : Z)
    (materialBreakdown : list MaterialImpact.t) : Database.M unit :=
  match materialBreakdown with
  | [] => Database.ret tt
  | material :: rest =>
      Database.bind
        (Database.insert_material assessmentId
           (MaterialImpact.material_type material)
           (MaterialImpact.quantity material)
           (MaterialImpact.unit material)
           0 0
           (MaterialImpact.co2_impact material)
           (MaterialImpact.energy_impact material)
           (MaterialImpact.category material))
        (fun _ => insert_materials assessmentId rest)
  end.

Definition not_saved : string :=
  "Assessment calculated but not saved to database.".

(** Lines 89-121: the value of [assessmentId] and the warnings pushed
    when the [try] block is left, normally or through [catch].
    [assessmentId] is assigned as soon as the first insert returns. *)
Definition save (assessment_name : option string)
    (description : option string) (acc : Acc)
    (materialBreakdown : list MaterialImpact.t)
    (db : Database.t) : (option Z * list string) * Database.t :=
  if Js.truthy_str assessment_name then
    match
      Database.insert_assessment (Js.str_or assessment_name EmptyString)
        (Js.str_or description EmptyString)
        (totalCO2 acc) (totalEnergy acc) (totalMaterials acc) db
    with
    | (Database.Thrown, db1) => ((None, [not_saved]), db1)
    | (Database.Returned id, db1) =>
        match insert_materials id materialBreakdown db1 with
        | (Database.Returned _, db2) => ((Some id, []), db2)
        | (Database.Thrown, db2) => ((Some id, [not_saved]), db2)
        end
    end
  else ((None, []), db).

(** Lines 133-137: the entries of [categoryBreakdown] in key order,
    each with its share of [totalCO2]. *)
Definition category_entry (totalCO2 : Q) (e : string * CategoryData.t)
    : CategoryAggregate.t :=
  let (category, d) := e in
  CategoryAggregate.mk category
    (CategoryData.co2 d) (CategoryData.energy d)
    (CategoryData.materials d) (CategoryData.count d)
    (if Qeq_bool totalCO2 0 then None
     else Some (Js.round2 (CategoryData.co2 d / totalCO2 * 100))).

(** [router.post('/calculate')]. *)
Definition calculate (req : Request) (db : Database.t)
    : Response * Database.t :=
  match materials req with
  | None => (Status400 "Materials array is required", db)
  | Some [] => (Status400 "Materials array is required", db)
  | Some materials =>
      let acc := loop db materials in
      let (recommendations, materialBreakdown) :=
        generateRecommendations (materialBreakdown acc)
                                (categoryBreakdown acc) in
      let scores :=
        calculateEnvironmentalScores
          (totalCO2 acc) (totalEnergy acc) (totalMaterials acc) in
      let '((assessmentId, saveWarnings), db') :=
        save (assessment_name req) (description req) acc
             materialBreakdown db in
      (Status200
         (AssessmentResult.mk
            assessmentId
            (Summary.mk (Js.round2 (totalCO2 acc))
               (Js.round2 (totalEnergy acc))
               (Js.round2 (totalMaterials acc))
               (List.length materials))
            scores
            materialBreakdown
            (map (category_entry (totalCO2 acc)) (categoryBreakdown acc))
            recommendations
            (warnings acc ++ saveWarnings)%list),
       db')
  end.

End Lca.

(** ** The data routes ([backend/routes/data.js]) *)

Module EnrichedMaterial.
(** One element of the array [enrichMaterialData] returns.  The numeric
    inputs are the results of [parseFloat], [None] standing for [NaN],
    which the arithmetic propagates. *)
Record t := mk {
  material : MaterialInput.t;
  estimated : bool;
  warning : option string;
  category : string;
  emission_factor : Q * Q * Q;
  co2_impact : option Q;
  energy_impact : option Q;
  transport_impact : option Q
}.
End EnrichedMaterial.

Module Data.

Local Open Scope string_scope.

(** Lines 163-188: the emission factor of a material, whether it is an
    estimate, and the warning attached to the material then. *)
Definition lookup (db : Database.t) (material_type : string)
    : EmissionFactor.t * bool * option string :=
  match Database.get_factor_exact db material_type with
  | Some emissionFactor => (emissionFactor, false, None)
  | None =>
      match Database.get_factor_like db ("%" ++ material_type ++ "%") with
      | Some emissionFactor => (emissionFactor, false, None)
      | None =>
          (EmissionFactor.mk EmptyString "Unknown" 1.0 10.0 0.05 "kg" EmptyString,
           true,
           Some ("No emission factor found for " ++ Js.dquote
                   ++ material_type ++ Js.dquote
                   ++ ". Using estimated values."))
      end
  end.

(** [x || 0] on a number that may be [NaN]. *)
Definition or_0 (v : option Q) : Q :=
  if Js.truthy_num v then Js.parseFloat_or_0 v else 0.

(** [enrichMaterialData].  The [catch] branch answers a database read
    that throws, which the table model does not do. *)
Definition enrichMaterialData (db : Database.t)
    (materials : list MaterialInput.t) : list EnrichedMaterial.t :=
  map
    (fun material =>
       let '(emissionFactor, estimated, warning) :=
         lookup db (MaterialInput.material_type material) in
       let quantity := MaterialInput.quantity material in
       EnrichedMaterial.mk material estimated warning
         (EmissionFactor.category emissionFactor)
         (EmissionFactor.co2_factor emissionFactor,
          EmissionFactor.energy_factor emissionFactor,
          EmissionFactor.transport_factor emissionFactor)
         (option_map
            (fun q => q * EmissionFactor.co2_factor emissionFactor)
            quantity)
         (option_map
            (fun q => q * EmissionFactor.energy_factor emissionFactor
                      + or_0 (MaterialInput.energy_consumption material))
            quantity)
         (option_map
            (fun q => or_0 (MaterialInput.transport_distance material)
                      * EmissionFactor.transport_factor emissionFactor * q)
            quantity))
    materials.

End Data.

(** ** The fallback processing ([backend/routes/ai.js]) *)

Module Processed.
(** The object [basicDataProcessing] builds for one material: the copied
    input fields and the advisory fields it may add. *)
Record t := mk {
  material_type : string;
  quantity : option Q;
  unit : option string;
  energy_consumption : option Q;
  transport_distance : option Q;
  ai_imputed : bool;
  imputation_note : option string;
  category : string;
  ai_categorized : bool;
  outlier_flag : bool;
  outlier_reason : option string
}.
End Processed.

Module Ai.

Local Open Scope string_scope.

(** The entries of [energyEstimates] in insertion order. *)
Definition energyEstimates : list (string * Q) :=
  [ ("steel", 24.0); ("aluminum", 154.0); ("plastic", 76.0);
    ("glass", 15.0); ("concrete", 1.0); ("wood", 2.5); ("paper", 20.0) ].

(** The loop of [estimateEnergyConsumption] over a list of entries. *)
Fixpoint first_estimate (lowerMaterial : string) (entries : list (string * Q))
    : Q :=
  match entries with
  | [] => 10.0
  | (key, value) :: rest =>
      if Js.includes lowerMaterial key then value
      else first_estimate lowerMaterial rest
  end.

Definition estimateEnergyConsumption (materialType : string) : Q :=
  first_estimate (Js.toLowerCase materialType) energyEstimates.

Definition categorizeMaterial (materialType : string) : string :=
  let lowerMaterial := Js.toLowerCase materialType in
  let has := Js.includes lowerMaterial in
  if (has "steel" || has "aluminum" || has "copper" || has "iron")%bool
  then "Metals"
  else if (has "plastic" || has "polymer" || has "pet" || has "hdpe")%bool
  then "Plastics"
  else if (has "concrete" || has "cement" || has "brick" || has "stone")%bool
  then "Construction"
  else if has "glass" then "Glass"
  else if (has "wood" || has "timber")%bool then "Construction"
  else if (has "paper" || has "cardboard")%bool then "Paper"
  else if (has "cotton" || has "polyester" || has "fabric")%bool
  then "Textiles"
  else "Unknown".

(** [!material.quantity || material.quantity === 0]. *)
Definition quantity_missing (material : MaterialInput.t) : bool :=
  (negb (Js.truthy_num (MaterialInput.quantity material))
   || match MaterialInput.quantity material with
      | Some q => Qeq_bool q 0
      | None => false
      end)%bool.

Definition energy_missing (material : MaterialInput.t) : bool :=
  negb (Js.truthy_num (MaterialInput.energy_consumption material)).

Definition transport_missing (material : MaterialInput.t) : bool :=
  negb (Js.truthy_num (MaterialInput.transport_distance material)).

(** [(processed.imputation_note || '') + text]. *)
Definition append_note (note : option string) (text : string)
    : option string :=
  Some (Js.str_or note EmptyString ++ text).

(** The body of the [map] callback of [basicDataProcessing]. *)
Definition process (material : MaterialInput.t) : Processed.t :=
  let quantity1 :=
    if quantity_missing material then Some 1.0
    else MaterialInput.quantity material in
  let imputed1 := quantity_missing material in
  let note1 :=
    if quantity_missing material
    then Some "Quantity imputed with default value" else None in
  let energy2 :=
    if energy_missing material
    then Some (estimateEnergyConsumption
                 (MaterialInput.material_type material))
    else MaterialInput.energy_consumption material in
  let imputed2 := (imputed1 || energy_missing material)%bool in
  let note2 :=
    if energy_missing material
    then append_note note1 " Energy consumption estimated" else note1 in
  let transport3 :=
    if transport_missing material then Some 100
    else MaterialInput.transport_distance material in
  let imputed3 := (imputed2 || transport_missing material)%bool in
  let note3 :=
    if transport_missing material
    then append_note note2 " Transport distance estimated" else note2 in
  let category := categorizeMaterial (MaterialInput.material_type material) in
  let outlier :=
    (Js.truthy_num (MaterialInput.quantity material)
     && Js.gt (Js.parseFloat_or_0 (MaterialInput.quantity material)) 10000)%bool in
  Processed.mk
    (MaterialInput.material_type material)
    quantity1
    (MaterialInput.unit material)
    energy2
    transport3
    imputed3
    note3
    category
    (String.eqb category "Unknown")
    outlier
    (if outlier then Some "Unusually high quantity detected" else None).

Definition basicDataProcessing (materials : list MaterialInput.t)
    : list Processed.t :=
  map process materials.

End Ai.

(** ** The fallback processing on whole objects

    [basicDataProcessing] starts from a copy of its argument
    ([{ ...material }]) and only ever sets the advisory fields, so an
    object that arrives with them keeps them; the input page sends
    processed records back.  [Incoming.t] is such an object: the five
    input fields, [material_type] being [None] when the object has no
    string there, and the truthiness or text of the advisory fields it
    carries.  [Ai.process] above is the case of an object with a string
    type and no advisory field. *)

Module Incoming.
Record t := mk {
  material_type : option string;
  quantity : option Q;
  unit : option string;
  energy_consumption : option Q;
  transport_distance : option Q;
  ai_imputed : bool;
  imputation_note : option string;
  ai_categorized : bool;
  outlier_flag : bool;
  outlier_reason : option string
}.

(** The five input fields of an object whose type is the given string. *)
Definition fields (material : t) (material_type : string) : MaterialInput.t :=
  MaterialInput.mk material_type (quantity material) (unit material)
    (energy_consumption material) (transport_distance material).
End Incoming.

Module AiObject.

Local Open Scope string_scope.

(** The body of the [map] callback of [basicDataProcessing]; [None] is
    the [TypeError] of [materialType.toLowerCase()] on an object without
    a string [material_type], thrown by [estimateEnergyConsumption] or,
    at the latest, by [categorizeMaterial]. *)
Definition process (material : Incoming.t) : option Processed.t :=
  match Incoming.material_type material with
  | None => None
  | Some material_type =>
      let five := Incoming.fields material material_type in
      let quantity1 :=
        if Ai.quantity_missing five then Some 1.0
        else Incoming.quantity material in
      let imputed1 :=
        if Ai.quantity_missing five then true
        else Incoming.ai_imputed material in
      let note1 :=
        if Ai.quantity_missing five
        then Some "Quantity imputed with default value"
        else Incoming.imputation_note material in
      let energy2 :=
        if Ai.energy_missing five
        then Some (Ai.estimateEnergyConsumption material_type)
        else Incoming.energy_consumption material in
      let imputed2 := if Ai.energy_missing five then true else imputed1 in
      let note2 :=
        if Ai.energy_missing five
        then Ai.append_note note1 " Energy consumption estimated"
        else note1 in
      let transport3 :=
        if Ai.transport_missing five then Some 100
        else Incoming.transport_distance material in
      let imputed3 := if Ai.transport_missing five then true else imputed2 in
      let note3 :=
        if Ai.transport_missing five
        then Ai.append_note note2 " Transport distance estimated"
        else note2 in
      let category := Ai.categorizeMaterial material_type in
      let categorized :=
        if String.eqb category "Unknown" then true
        else Incoming.ai_categorized material in
      let outlier :=
        (Js.truthy_num (Incoming.quantity material)
         && Js.gt (Js.parseFloat_or_0 (Incoming.quantity material)) 10000)%bool in
      Some
        (Processed.mk material_type quantity1 (Incoming.unit material)
           energy2 transport3 imputed3 note3 category categorized
           (if outlier then true else Incoming.outlier_flag material)
           (if outlier then Some "Unusually high quantity detected"
            else Incoming.outlier_reason material))
  end.

(** [materials.map(...)]: the first callback that throws ends the call. *)
Fixpoint basicDataProcessing (materials : list Incoming.t)
    : option (list Processed.t) :=
  match materials with
  | [] => Some []
  | material :: rest =>
      match process material with
      | None => None
      | Some processed =>
          match basicDataProcessing rest with
          | None => None
          | Some others => Some (processed :: others)
          end
      end
  end.

End AiObject.

(** ** The lookup as the specification words it *)

Module Spec.

Local Open Scope string_scope.

(** Stage (b) of the specified lookup: the table entry contains the
    input or is contained by it, case-insensitively. *)
Definition substring_match (material_type : string) (r : EmissionFactor.t)
    : bool :=
  let entry := Js.toLowerCase (EmissionFactor.material_type r) in
  let input := Js.toLowerCase material_type in
  (Js.includes entry input || Js.includes input entry)%bool.

(** The three specified stages: exact match, substring match taking the
    lexicographically first entry, default factors with a warning. *)
Definition lookup (table : list EmissionFactor.t) (material_type : string)
    : EmissionFactor.t * option string :=
  match
    find (fun r => String.eqb (Js.toLowerCase (EmissionFactor.material_type r))
                              (Js.toLowerCase material_type)) table
  with
  | Some r => (r, None)
  | None =>
      match
        stable_sort
          (fun a b => String.leb (EmissionFactor.material_type a)
                                 (EmissionFactor.material_type b))
          (filter (substring_match material_type) table)
      with
      | r :: _ => (r, None)
      | [] =>
          (EmissionFactor.mk EmptyString "Unknown" 1.0 10.0 0.05 EmptyString EmptyString,
           Some ("Unknown material: " ++ material_type
                   ++ ". Using estimated factors."))
      end
  end.

End Spec.

(** ** The assessment routes ([backend/routes/lca.js], lines 163-205)

    The [:id] parameter is modelled by the integer it denotes; a
    parameter that is no integer matches no row. *)

Module Assessments.

(** [database.run('DELETE FROM assessment_materials
     WHERE assessment_id = ?')]. *)
Definition delete_materials (id : Z) : Database.M unit :=
  fun db =>
    let (f, db1) := Database.next_fault db in
    if f then (Database.Thrown, db1)
    else
      (Database.Returned tt,
       Database.mk (Database.emission_factors db1)
         (Database.lca_assessments db1)
         (filter (fun r => negb (Z.eqb (MaterialRow.assessment_id r) id))
                 (Database.assessment_materials db1))
         (Database.seq_assessments db1) (Database.seq_materials db1)
         (Database.faults db1)).

(** [database.run('DELETE FROM lca_assessments WHERE id = ?')]. *)
Definition delete_assessment (id : Z) : Database.M unit :=
  fun db =>
    let (f, db1) := Database.next_fault db in
    if f then (Database.Thrown, db1)
    else
      (Database.Returned tt,
       Database.mk (Database.emission_factors db1)
         (filter (fun r => negb (Z.eqb (AssessmentRow.id r) id))
                 (Database.lca_assessments db1))
         (Database.assessment_materials db1)
         (Database.seq_assessments db1) (Database.seq_materials db1)
         (Database.faults db1)).

Inductive GetResponse :=
| Get200 (assessment : AssessmentRow.t) (materials : list MaterialRow.t)
| Get404 (error : string).

(** [router.get('/assessments/:id')]. *)
Definition get (id : Z) (db : Database.t) : GetResponse :=
  match find (fun r => Z.eqb (AssessmentRow.id r) id)
             (Database.lca_assessments db) with
  | None => Get404 "Assessment not found"
  | Some assessment =>
      Get200 assessment
        (filter (fun r => Z.eqb (MaterialRow.assessment_id r) id)
                (Database.assessment_materials db))
  end.

Inductive DeleteResponse :=
| Delete200 (message : string)
| Delete500 (error : string).

(** [router.delete('/assessments/:id')]: the material rows first, then
    the assessment row; a write that throws ends the handler with
    status 500. *)
Definition delete (id : Z) (db : Database.t) : DeleteResponse * Database.t :=
  match Database.bind (delete_materials id)
                      (fun _ => delete_assessment id) db with
  | (Database.Returned _, db') =>
      (Delete200 "Assessment deleted successfully", db')
  | (Database.Thrown, db') => (Delete500 "Error deleting assessment", db')
  end.

End Assessments.

(** ** The manual entry route ([backend/routes/data.js], lines 81-117) *)

Module RawMaterial.
(** One element of [req.body.materials] before validation. *)
Record t := mk {
  material_type : option string;
  quantity : option Q;
  unit : option string;
  energy_consumption : option Q;
  transport_distance : option Q
}.
End RawMaterial.

Module Manual.

Local Open Scope string_scope.

(** The ASCII characters [String.prototype.trim] removes. *)
Definition is_whitespace (c : ascii) : bool :=
  let n := nat_of_ascii c in
  ((Nat.leb 9 n && Nat.leb n 13) || Nat.eqb n 32)%bool.

Fixpoint trim_start (s : string) : string :=
  match s with
  | EmptyString => EmptyString
  | String c s' => if is_whitespace c then trim_start s' else s
  end.

Fixpoint trim_end (s : string) : string :=
  match s with
  | EmptyString => EmptyString
  | String c s' =>
      match trim_end s' with
      | EmptyString => if is_whitespace c then EmptyString
                       else String c EmptyString
      | t => String c t
      end
  end.

(** [s.trim()]. *)
Definition trim (s : string) : string := trim_end (trim_start s).

(** The callback of [materials.map]: [None] when it throws
    'Material type and quantity are required'. *)
Definition validate (material : RawMaterial.t) : option MaterialInput.t :=
  if (negb (Js.truthy_str (RawMaterial.material_type material))
      || negb (Js.truthy_num (RawMaterial.quantity material)))%bool
  then None
  else
    Some (MaterialInput.mk
            (trim (Js.str_or (RawMaterial.material_type material) EmptyString))
            (RawMaterial.quantity material)
            (Some (Js.str_or (RawMaterial.unit material) "kg"))
            (Some (Data.or_0 (RawMaterial.energy_consumption material)))
            (Some (Data.or_0 (RawMaterial.transport_distance material)))).

(** [materials.map(...)]: the first callback that throws ends the map. *)
Fixpoint validate_all (materials : list RawMaterial.t)
    : option (list MaterialInput.t) :=
  match materials with
  | [] => Some []
  | material :: rest =>
      match validate material with
      | None => None
      | Some v =>
          match validate_all rest with
          | None => None
          | Some vs => Some (v :: vs)
          end
      end
  end.

Inductive Response :=
| Status400 (error : string)
| Status200 (message : string) (data : list EnrichedMaterial.t)
            (total_records : nat).

(** [router.post('/manual')]. *)
Definition manual (materials : option (list RawMaterial.t))
    (db : Database.t) : Response :=
  match materials with
  | None => Status400 "Materials array is required"
  | Some [] => Status400 "Materials array is required"
  | Some materials =>
      match validate_all materials with
      | None => Status400 "Material type and quantity are required"
      | Some validatedMaterials =>
          let enrichedData := Data.enrichMaterialData db validatedMaterials in
          Status200 "Data processed successfully" enrichedData
                    (List.length enrichedData)
      end
  end.

End Manual.

(** ** The manual entry route on the values as they arrive

    The route tests the truthiness of [material_type] and [quantity]
    as the JSON body has them and parses afterwards, so what it accepts
    depends on the kind of value a field holds.  [Manual] above is the
    view of this route on fields that hold a string, a number or
    nothing.  Strings are sequences of UTF-8 bytes.  The [unit], which
    the route only copies, is taken to be a string or absent, and
    [parseFloat] on a text is left open. *)

Module Json.
(** A JSON value as far as the route tells values apart; [Compound] is
    an array or an object, given with the text [String(value)] that
    [parseFloat] reads. *)
Inductive value :=
| Null
| Bool (b : bool)
| Number (q : Q)
| Text (s : string)
| Compound (text : string).

(** Truthiness of a field, [None] being a field that is absent. *)
Definition truthy (v : option value) : bool :=
  match v with
  | Some (Bool b) => b
  | Some (Number q) => negb (Qeq_bool q 0)
  | Some (Text EmptyString) => false
  | Some (Text _) => true
  | Some (Compound _) => true
  | Some Null => false
  | None => false
  end.
End Json.

Module RawObject.
(** One element of [req.body.materials] that is an object; an element
    that is a number, a string, a boolean or an array has none of the
    fields. *)
Record t := mk {
  material_type : option Json.value;
  quantity : option Json.value;
  unit : option string;
  energy_consumption : option Json.value;
  transport_distance : option Json.value
}.
End RawObject.

Module ManualJson.

Local Open Scope string_scope.

(** The characters [String.prototype.trim] removes that take two or
    three bytes: U+00A0, and U+1680, U+2000 to U+200A, U+2028, U+2029,
    U+202F, U+205F, U+3000 and U+FEFF. *)
Definition is_space2 (a b : ascii) : bool :=
  (Nat.eqb (nat_of_ascii a) 194 && Nat.eqb (nat_of_ascii b) 160)%bool.

Definition is_space3 (a b c : ascii) : bool :=
  let x := nat_of_ascii a in
  let y := nat_of_ascii b in
  let z := nat_of_ascii c in
  ((Nat.eqb x 225 && Nat.eqb y 154 && Nat.eqb z 128)
   || (Nat.eqb x 226 && Nat.eqb y 128
       && ((Nat.leb 128 z && Nat.leb z 138)
           || Nat.eqb z 168 || Nat.eqb z 169 || Nat.eqb z 175))
   || (Nat.eqb x 226 && Nat.eqb y 129 && Nat.eqb z 159)
   || (Nat.eqb x 227 && Nat.eqb y 128 && Nat.eqb z 128)
   || (Nat.eqb x 239 && Nat.eqb y 187 && Nat.eqb z 191))%bool.

(** Removal of the leading white space; [two] and [three] recognise the
    longer characters in the order their bytes appear. *)
Fixpoint strip (two : ascii -> ascii -> bool)
    (three : ascii -> ascii -> ascii -> bool) (s : string) : string :=
  match s with
  | EmptyString => EmptyString
  | String a rest =>
      if Manual.is_whitespace a then strip two three rest
      else
        match rest with
        | EmptyString => s
        | String b rest2 =>
            if two a b then strip two three rest2
            else
              match rest2 with
              | EmptyString => s
              | String c rest3 =>
                  if three a b c then strip two three rest3 else s
              end
        end
  end.

Fixpoint reverse (s acc : string) : string :=
  match s with
  | EmptyString => acc
  | String c s' => reverse s' (String c acc)
  end.

(** [s.trim()]: the white space is removed at the start and, read
    backwards, at the end. *)
Definition trim (s : string) : string :=
  reverse
    (strip (fun b a => is_space2 a b) (fun c b a => is_space3 a b c)
       (reverse (strip is_space2 is_space3 s) EmptyString))
    EmptyString.

(** What the callback of [materials.map] does with one element: it
    throws the error of the route, it throws a [TypeError] of the
    engine, or it returns the validated material. *)
Inductive Validation :=
| Required
| TypeError
| Valid (material : MaterialInput.t).

Inductive Failure :=
| MaterialsRequired
| FieldsRequired
| EngineTypeError.

(** [error.message] for the errors the route creates itself. *)
Definition message (failure : Failure) : option string :=
  match failure with
  | MaterialsRequired => Some "Materials array is required"
  | FieldsRequired => Some "Material type and quantity are required"
  | EngineTypeError => None
  end.

Inductive Response :=
| Status400 (error : Failure)
| Status200 (message : string) (data : list EnrichedMaterial.t)
            (total_records : nat).

Section Parsing.

(** [parseFloat] on a text; [None] is [NaN]. *)
Variable parseFloat_text : string -> option Q.

(** [parseFloat(v)]. *)
Definition parseFloat (v : option Json.value) : option Q :=
  match v with
  | Some (Json.Number q) => Some q
  | Some (Json.Text s) => parseFloat_text s
  | Some (Json.Compound text) => parseFloat_text text
  | Some (Json.Bool _) => None
  | Some Json.Null => None
  | None => None
  end.

(** [parseFloat(v || 0)]. *)
Definition parseFloat_or_0 (v : option Json.value) : option Q :=
  if Json.truthy v then parseFloat v else Some 0.

(** The callback of [materials.map]; [None] is a [null] element, on
    which reading [material_type] throws, and [trim] is a function on
    strings only. *)
Definition validate (material : option RawObject.t) : Validation :=
  match material with
  | None => TypeError
  | Some material =>
      if (negb (Json.truthy (RawObject.material_type material))
          || negb (Json.truthy (RawObject.quantity material)))%bool
      then Required
      else
        match RawObject.material_type material with
        | Some (Json.Text material_type) =>
            Valid (MaterialInput.mk
                     (trim material_type)
                     (parseFloat (RawObject.quantity material))
                     (Some (Js.str_or (RawObject.unit material) "kg"))
                     (parseFloat_or_0 (RawObject.energy_consumption material))
                     (parseFloat_or_0 (RawObject.transport_distance material)))
        | _ => TypeError
        end
  end.

(** [materials.map(...)]: the first callback that throws ends the map. *)
Fixpoint validate_all (materials : list (option RawObject.t))
    : Failure + list MaterialInput.t :=
  match materials with
  | [] => inr []
  | material :: rest =>
      match validate material with
      | Required => inl FieldsRequired
      | TypeError => inl EngineTypeError
      | Valid v =>
          match validate_all rest with
          | inl failure => inl failure
          | inr vs => inr (v :: vs)
          end
      end
  end.

(** [router.post('/manual')]; the [catch] answers every throw with
    status 400 and the message of the error. *)
Definition manual (materials : option (list (option RawObject.t)))
    (db : Database.t) : Response :=
  match materials with
  | None => Status400 MaterialsRequired
  | Some [] => Status400 MaterialsRequired
  | Some materials =>
      match validate_all materials with
      | inl failure => Status400 failure
      | inr validatedMaterials =>
          let enrichedData := Data.enrichMaterialData db validatedMaterials in
          Status200 "Data processed successfully" enrichedData
                    (List.length enrichedData)
      end
  end.

End Parsing.

End ManualJson.

(** ** The AI routes ([backend/routes/ai.js], lines 9-76 and 240-330)

    The external AI processor is an oracle: its answer to a request, or
    [None] when the request fails or times out. *)

Module BasicRecommendation.
Record t := mk {
  type : string;
  priority : string;
  title : string;
  description : string;
  actions : list string;
  potential_reduction : string
}.
End BasicRecommendation.

Module LcaResults.
(** The fields [generateBasicRecommendations] reads of [lca_results];
    [None] is a field that is absent. *)
Record t := mk {
  summary : option Summary.t;
  total_co2_kg : option Q;
  total_energy_mj : option Q;
  material_breakdown : option (list MaterialImpact.t)
}.
End LcaResults.

Module AiRoutes.

Local Open Scope string_scope.

(** [x.toFixed(1)]: of the two nearest tenths the larger in magnitude. *)
Definition toFixed1 (x : Q) : string :=
  let negative := negb (Qle_bool 0 x) in
  let a := if negative then - x else x in
  let n := Qfloor (a * 10 + (1 # 2)) in
  (if negative then "-" else EmptyString)
    ++ Js.string_of_Z (n / 10) ++ "." ++ Js.string_of_Z (n mod 10).

(** [v > bound] for a field that may be absent. *)
Definition exceeds (v : option Q) (bound : Q) : bool :=
  match v with
  | Some q => Js.gt q bound
  | None => false
  end.

(** The callback of [material_breakdown.reduce]. *)
Definition higher (prev current : MaterialImpact.t) : MaterialImpact.t :=
  if Js.gt (MaterialImpact.total_impact prev)
           (MaterialImpact.total_impact current)
  then prev else current.

(** [generateBasicRecommendations]. *)
Definition generateBasicRecommendations (lcaResults : LcaResults.t)
    : list BasicRecommendation.t :=
  match LcaResults.summary lcaResults with
  | None => []
  | Some _ =>
      let total_co2_kg := LcaResults.total_co2_kg lcaResults in
      let total_energy_mj := LcaResults.total_energy_mj lcaResults in
      let r1 :=
        if exceeds total_co2_kg 100 then
          [BasicRecommendation.mk "carbon_reduction" "high"
             "High Carbon Footprint Detected"
             ("Your assessment shows "
                ++ toFixed1 (Js.parseFloat_or_0 total_co2_kg)
                ++ " kg CO2 emissions. Consider low-carbon alternatives.")
             ["Switch to renewable energy sources";
              "Use recycled materials where possible";
              "Optimize transportation routes"]
             "20-40%"]
        else [] in
      let r2 :=
        if exceeds total_energy_mj 1000 then
          [BasicRecommendation.mk "energy_efficiency" "medium"
             "Energy Optimization Opportunity"
             ("Total energy consumption is "
                ++ toFixed1 (Js.parseFloat_or_0 total_energy_mj)
                ++ " MJ. Energy efficiency improvements possible.")
             ["Implement energy-efficient processes";
              "Consider solar or wind power";
              "Upgrade to efficient equipment"]
             "15-30%"]
        else [] in
      let r3 :=
        match LcaResults.material_breakdown lcaResults with
        | Some (first :: rest) =>
            let highestImpactMaterial := fold_left higher rest first in
            [BasicRecommendation.mk "material_substitution" "medium"
               ("Optimize "
                  ++ MaterialImpact.material_type highestImpactMaterial
                  ++ " Usage")
               (MaterialImpact.material_type highestImpactMaterial
                  ++ " has the highest environmental impact in your assessment.")
               ["Research sustainable alternatives";
                "Reduce quantity if possible";
                "Source from eco-certified suppliers"]
               "10-25%"]
        | _ => []
        end in
      let r4 :=
        [BasicRecommendation.mk "general_sustainability" "low"
           "Circular Economy Principles"
           "Implement circular economy strategies to minimize waste and maximize resource efficiency."
           ["Design for recyclability";
            "Implement take-back programs";
            "Use bio-based materials when possible"]
           "5-15%"] in
      (r1 ++ r2 ++ r3 ++ r4)%list
  end.

(** [generateAIRecommendations]: the answer of the processor, or the
    rule-based recommendations when the call fails. *)
Definition generateAIRecommendations
    (ai : option (list BasicRecommendation.t)) (lcaResults : LcaResults.t)
    : list BasicRecommendation.t :=
  match ai with
  | Some recommendations => recommendations
  | None => generateBasicRecommendations lcaResults
  end.

Inductive RecommendationsResponse :=
| Recommendations400 (error : string)
| Recommendations200 (recommendations : list BasicRecommendation.t)
                     (confidence_score : Q) (fallback : bool).

(** [router.post('/recommendations')].  The [catch] of the handler
    answers a throw of [generateAIRecommendations]; that function
    catches the failure of the external call itself, and the rule-based
    generator does not throw on results of this shape. *)
Definition recommendations (lca_results : option LcaResults.t)
    (ai : option (list BasicRecommendation.t)) : RecommendationsResponse :=
  match lca_results with
  | None => Recommendations400 "LCA results are required"
  | Some lcaResults =>
      Recommendations200 (generateAIRecommendations ai lcaResults) 0.85 false
  end.

(** What the external processor does with a [/process] request: the
    call fails, or it answers, with a [processed_materials] array or
    without one. *)
Inductive Processor :=
| Unavailable
| Answered (processed_materials : option (list Processed.t)).

(** [processDataWithAI]: a value, [undefined] being [Returned None], or
    the exception [basicDataProcessing] throws inside the [catch]. *)
Definition processDataWithAI (ai : Processor) (materials : list Incoming.t)
    : Database.outcome (option (list Processed.t)) :=
  match ai with
  | Answered processed_materials => Database.Returned processed_materials
  | Unavailable =>
      match AiObject.basicDataProcessing materials with
      | Some processed => Database.Returned (Some processed)
      | None => Database.Thrown
      end
  end.

Record ProcessingSummary := mkSummary {
  missing_data_detected : nat;
  categories_assigned : nat;
  outliers_detected : nat
}.

(** The answers of [POST /process]: the two [res.json] calls, the 400,
    and no answer at all when the [catch] block itself throws. *)
Inductive ProcessResponse :=
| Process400 (error : string)
| Process200 (message : string) (original_count processed_count : nat)
             (data : list Processed.t) (processing_summary : ProcessingSummary)
| ProcessFallback (message : string) (data : list Processed.t)
| ProcessUnanswered.

(** [router.post('/process')].  The [catch] of the handler is entered
    when [processDataWithAI] throws and when [processedData.length]
    fails on a missing array; it runs [basicDataProcessing] on the
    request once more, outside any [try]. *)
Definition process (materials : option (list Incoming.t)) (ai : Processor)
    : ProcessResponse :=
  match materials with
  | None => Process400 "Materials array is required"
  | Some [] => Process400 "Materials array is required"
  | Some materials =>
      match processDataWithAI ai materials with
      | Database.Returned (Some processedData) =>
          Process200 "Data processed successfully"
            (List.length materials) (List.length processedData) processedData
            (mkSummary
               (List.length (filter Processed.ai_imputed processedData))
               (List.length (filter Processed.ai_categorized processedData))
               (List.length (filter Processed.outlier_flag processedData)))
      | _ =>
          match AiObject.basicDataProcessing materials with
          | Some basicProcessedData =>
              ProcessFallback
                "Data processed with basic methods (AI service unavailable)"
                basicProcessedData
          | None => ProcessUnanswered
          end
      end
  end.

(** The [lca_results] the results page sends: the response of
    [POST /calculate] as it is, whose totals are fields of [summary]. *)
Definition of_result (r : AssessmentResult.t) : LcaResults.t :=
  LcaResults.mk (Some (AssessmentResult.summary r)) None None
                (Some (AssessmentResult.material_breakdown r)).

End AiRoutes.

(** ** Notions used to state the properties *)

(** The sum of a list of numbers. *)
Fixpoint Qsum (l : list Q) : Q :=
  match l with
  | [] => 0
  | x :: l' => x + Qsum l'
  end.

(** The breakdown entry the loop computes for one input material. *)
Definition enrich (db : Database.t) (material : MaterialInput.t)
    : MaterialImpact.t :=
  Lca.impact_of (fst (Lca.lookup db (MaterialInput.material_type material)))
                material.

(** The result of a request the handler answers with status 200. *)
Definition result_of (resp : Lca.Response) : option AssessmentResult.t :=
  match resp with
  | Lca.Status200 r => Some r
  | Lca.Status400 _ => None
  end.

(** A running total as the code accumulates it: it starts from 0 and
    takes one addition per element, in the order of the list. *)
Definition accumulate {A : Type} (f : A -> Q) (l : list A) : Q :=
  fold_left (fun total x => total + f x) l 0.

(** What one material adds to the CO2 total: its CO2 impact and a tenth
    of its transport impact. *)
Definition co2_share (m : MaterialImpact.t) : Q :=
  MaterialImpact.co2_impact m + MaterialImpact.transport_impact m * 0.1.

(** The materials and requests of the scenarios: a material given with
    all its fields, the unit being kg. *)
Definition material (type : string) (quantity energy distance : Q)
    : MaterialInput.t :=
  MaterialInput.mk type (Some quantity) (Some "kg"%string)
                   (Some energy) (Some distance).

Definition steel_100 : MaterialInput.t := material "Steel" 100 0 0.

Definition concrete_1 : MaterialInput.t := material "Concrete" 1 0 0.

Definition wood_1000 : MaterialInput.t := material "Wood" 1000 0 0.

Definition unnamed (materials : list MaterialInput.t) : Lca.Request :=
  Lca.mkRequest (Some materials) None None.

Definition named (materials : list MaterialInput.t) : Lca.Request :=
  Lca.mkRequest (Some materials) (Some "run"%string) None.

(** The conditions of the four conditional recommendation rules, worded
    on the whole breakdowns; the energy impacts are added up over the
    materials in descending order of total impact, the order the array
    has when the rule is evaluated. *)
Definition high_impact_fires (mb : list MaterialImpact.t) : bool :=
  existsb (fun m => Js.gt (MaterialImpact.total_impact m) 100) mb.

Definition category_fires (cb : list (string * CategoryData.t)) : bool :=
  existsb (fun e => Js.gt (CategoryData.co2 (snd e)) 50) cb.

Definition energy_fires (mb : list MaterialImpact.t) : bool :=
  Js.gt (accumulate MaterialImpact.energy_impact
           (stable_sort Lca.by_total_impact_desc mb))
        1000.

Definition transport_fires (mb : list MaterialImpact.t) : bool :=
  existsb (fun m => Js.gt (MaterialImpact.transport_impact m) 10) mb.

Definition general_recommendation : Recommendation.t :=
  Recommendation.mk "general" "low"
    "Consider circular economy principles"
    "Explore recycling, reuse, and sustainable material alternatives to reduce overall environmental impact."
    "circular_economy".

(** Some write among the first [n] scripted ones throws. *)
Definition throws_within (n : nat) (db : Database.t) : bool :=
  existsb (fun f => f) (firstn n (Database.faults db)).

(** The first scripted write throws. *)
Definition first_write_throws (db : Database.t) : bool :=
  hd false (Database.faults db).

(** The columns of [assessment_materials] that are meant to hold the
    caller's energy and transport inputs are both 0. *)
Definition zero_inputs (row : MaterialRow.t) : Prop :=
  MaterialRow.energy_consumption row = 0
  /\ MaterialRow.transport_distance row = 0.

(** The same request without a name: the calculation alone. *)
Definition without_name (req : Lca.Request) : Lca.Request :=
  Lca.mkRequest (Lca.materials req) None (Lca.description req).

(** The parts of a result the calculation determines. *)
Definition computed (r : AssessmentResult.t) :=
  (AssessmentResult.summary r, AssessmentResult.scores r,
   AssessmentResult.material_breakdown r,
   AssessmentResult.category_breakdown r,
   AssessmentResult.recommendations r).

(** Three materials of two categories, with energy and transport
    inputs. *)
Definition inputs_a : list MaterialInput.t :=
  [ material "Steel" 100 7 10; material "Steel" 100 90 10;
    material "Copper" 100 0 30 ].

(** Two requests for the same two lots of Steel with the same energy
    inputs; they differ only in which lot travels 10 km and which
    30 km. *)
Definition haul_near_far : list MaterialInput.t :=
  [ material "Steel" 100 7 10; material "Steel" 100 900 30 ].

Definition haul_far_near : list MaterialInput.t :=
  [ material "Steel" 100 7 30; material "Steel" 100 900 10 ].

(** The inputs of a material apart from its transport distance. *)
Definition without_distance (m : MaterialInput.t) :=
  (MaterialInput.material_type m, MaterialInput.quantity m,
   MaterialInput.unit m, MaterialInput.energy_consumption m).

(** Two metals with energy inputs 7 and 900. *)
Definition two_metals : list MaterialInput.t :=
  [ material "Steel" 100 7 10; material "Copper" 100 900 30 ].

(** The energy input read back from a persisted row: the stored energy
    impact less the part the quantity accounts for. *)
Definition recovered_energy (db : Database.t) (row : MaterialRow.t) : Q :=
  MaterialRow.energy_impact row
  - MaterialRow.quantity row
    * EmissionFactor.energy_factor
        (fst (Lca.lookup db (MaterialRow.material_type row))).

(** The percentages the response reports, a [null] counting as 0. *)
Definition reported (cs : list CategoryAggregate.t) : list Q :=
  map (fun c => match CategoryAggregate.percentage c with
                | Some p => p
                | None => 0
                end) cs.

(** 100 kg of Steel carried over a tenth of a metre, and two metals of
    which one is entered with a negative distance. *)
Definition short_haul : list MaterialInput.t :=
  [ material "Steel" 100 0 0.0001 ].

Definition negative_haul : list MaterialInput.t :=
  [ material "Steel" 100 0 10; material "Copper" 100 0 (-20) ].

(** Steel and Concrete, both carried some way. *)
Definition mixed_haul : list MaterialInput.t :=
  [ material "Steel" 100 0 10; material "Concrete" 1000 0 5 ].

(** A material entered with a negative quantity and both other fields. *)
Definition negative_quantity : MaterialInput.t := material "Steel" (-5) 1 1.

(** A material with nothing but its name. *)
Definition bare (type : string) : MaterialInput.t :=
  MaterialInput.mk type None None None None.

(** A string without the wildcard characters of [LIKE]. *)
Fixpoint no_wildcard (s : string) : bool :=
  match s with
  | EmptyString => true
  | String c s' =>
      (negb (Ascii.eqb c "%" || Ascii.eqb c "_") && no_wildcard s')%bool
  end.

(** [f] holds of some suffix of [t]. *)
Fixpoint any_suffix (f : string -> bool) (t : string) : bool :=
  (f t ||
   match t with
   | EmptyString => false
   | String _ t' => any_suffix f t'
   end)%bool.

(** The two matching conditions of the lookups and the hardcoded default
    factors, the [unit] being the one the object literal carries. *)
Definition exact_match (input : string) (r : EmissionFactor.t) : bool :=
  String.eqb (Js.toLowerCase (EmissionFactor.material_type r))
             (Js.toLowerCase input).

Definition contains_input (input : string) (r : EmissionFactor.t) : bool :=
  Js.includes (Js.toLowerCase (EmissionFactor.material_type r))
              (Js.toLowerCase input).



(** The comparator [(a, b) => key(b) - key(a)] of a descending sort. *)
Definition descending {A : Type} (key : A -> Q) (a b : A) : bool :=
  Qle_bool (key b - key a) 0.

(** A table row stands for a seed row: same material type and category. *)
Definition same_factor (factor r : EmissionFactor.t) : bool :=
  (String.eqb (EmissionFactor.material_type r)
              (EmissionFactor.material_type factor)
   && String.eqb (EmissionFactor.category r)
                 (EmissionFactor.category factor))%bool.

(** One iteration of the seeding loop. *)
Definition seed_step (tbl : list EmissionFactor.t) (factor : EmissionFactor.t)
    : list EmissionFactor.t :=
  if existsb (same_factor factor) tbl then tbl else tbl ++ [factor].

(** The rows the persistence loop writes for a breakdown: ids count on
    from [after], the two input columns are 0. *)
Fixpoint material_rows (assessment_id after : Z)
    (materialBreakdown : list MaterialImpact.t) : list MaterialRow.t :=
  match materialBreakdown with
  | [] => []
  | m :: rest =>
      MaterialRow.mk (after + 1) assessment_id
        (MaterialImpact.material_type m) (MaterialImpact.quantity m)
        (MaterialImpact.unit m) 0 0
        (MaterialImpact.co2_impact m) (MaterialImpact.energy_impact m)
        (MaterialImpact.category m)
      :: material_rows assessment_id (after + 1) rest
  end.

(** What SQLite guarantees of the two written tables: primary keys are
    distinct and not above the AUTOINCREMENT counter; and what the code
    keeps: material rows refer to assessment ids that were handed out. *)
Definition well_formed (db : Database.t) : Prop :=
  NoDup (map AssessmentRow.id (Database.lca_assessments db))
  /\ Forall (fun r => (AssessmentRow.id r <= Database.seq_assessments db)%Z)
            (Database.lca_assessments db)
  /\ NoDup (map MaterialRow.id (Database.assessment_materials db))
  /\ Forall (fun r => (MaterialRow.id r <= Database.seq_materials db)%Z)
            (Database.assessment_materials db)
  /\ Forall (fun r => (MaterialRow.assessment_id r
                       <= Database.seq_assessments db)%Z)
            (Database.assessment_materials db).

(** The assessment row a named calculation writes: the totals are
    stored as accumulated, before rounding. *)
Definition assessment_row (req : Lca.Request) (db : Database.t)
    (ms : list MaterialInput.t) : AssessmentRow.t :=
  AssessmentRow.mk (Database.seq_assessments db + 1)
    (Js.str_or (Lca.assessment_name req) EmptyString)
    (Js.str_or (Lca.description req) EmptyString)
    (Lca.totalCO2 (Lca.loop db ms)) (Lca.totalEnergy (Lca.loop db ms))
    (Lca.totalMaterials (Lca.loop db ms)).

(** The order of the grades, F lowest and A+ highest. *)
Definition grade_rank (grade : string) : nat :=
  if String.eqb grade "A+" then 5
  else if String.eqb grade "A" then 4
  else if String.eqb grade "B" then 3
  else if String.eqb grade "C" then 2
  else if String.eqb grade "D" then 1
  else 0.

(** A material for which [POST /calculate] finds no emission factor,
    and the warning it pushes for it. *)
Definition is_unknown (db : Database.t) (m : MaterialInput.t) : bool :=
  negb (existsb (exact_match (MaterialInput.material_type m))
                (Database.emission_factors db)).

Definition unknown_warning (m : MaterialInput.t) : string :=
  ("Unknown material: " ++ MaterialInput.material_type m
     ++ ". Using estimated factors.")%string.

(** The breakdown entries of one category, and the value the
    [categoryBreakdown] object holds under a key. *)
Definition in_category (k : string) (m : MaterialImpact.t) : bool :=
  String.eqb (MaterialImpact.category m) k.

Definition assoc (k : string) (cb : list (string * CategoryData.t))
    : option CategoryData.t :=
  option_map snd (find (fun e => String.eqb (fst e) k) cb).

(** The value an entry of [categoryBreakdown] takes when a material is
    added to it, [None] being the entry that does not exist yet. *)
Definition bump (d : option CategoryData.t) (c e q : Q) : CategoryData.t :=
  match d with
  | Some d => CategoryData.mk (CategoryData.co2 d + c)
                (CategoryData.energy d + e) (CategoryData.materials d + q)
                (CategoryData.count d + 1)
  | None => CategoryData.mk (0 + c) (0 + e) (0 + q) (0 + 1)
  end.

(** The entry of a category aggregates exactly the breakdown entries of
    that category: it counts them and holds their running totals, the
    members being taken in input order. *)
Definition aggregates (d : CategoryData.t) (members : list MaterialImpact.t)
    : Prop :=
  CategoryData.count d = List.length members
  /\ (1 <= CategoryData.count d)%nat
  /\ CategoryData.co2 d = accumulate MaterialImpact.co2_impact members
  /\ CategoryData.energy d = accumulate MaterialImpact.energy_impact members
  /\ CategoryData.materials d = accumulate MaterialImpact.quantity members.

Definition grouped (cb : list (string * CategoryData.t))
    (mb : list MaterialImpact.t) : Prop :=
  NoDup (map fst cb)
  /\ forall k, match assoc k cb with
               | Some d => aggregates d (filter (in_category k) mb)
               | None => filter (in_category k) mb = []
               end.

(** A processed material sent back as input. *)
Definition to_input (p : Processed.t) : MaterialInput.t :=
  MaterialInput.mk (Processed.material_type p) (Processed.quantity p)
    (Processed.unit p) (Processed.energy_consumption p)
    (Processed.transport_distance p).

(** The three conditions the processing summary of the fallback counts. *)
Definition has_missing_field (m : MaterialInput.t) : bool :=
  negb (Js.truthy_num (MaterialInput.quantity m)
        && Js.truthy_num (MaterialInput.energy_consumption m)
        && Js.truthy_num (MaterialInput.transport_distance m)).

Definition is_uncategorized (m : MaterialInput.t) : bool :=
  String.eqb (Ai.categorizeMaterial (MaterialInput.material_type m)) "Unknown".

Definition is_outlier (m : MaterialInput.t) : bool :=
  match MaterialInput.quantity m with
  | Some q => Js.gt q 10000
  | None => false
  end.


(** What [POST /manual] requires of an element: an object whose
    [material_type] is a non-empty string and whose [quantity] is
    truthy; and the type and quantity the element is given with. *)
Definition acceptable (material : option RawObject.t) : bool :=
  match material with
  | Some material =>
      (match RawObject.material_type material with
       | Some (Json.Text (String _ _)) => true
       | _ => false
       end
       && Json.truthy (RawObject.quantity material))%bool
  | None => false
  end.

(** An element that is an object whose [material_type], if it has one,
    is a string or [null]. *)
Definition plain (material : option RawObject.t) : bool :=
  match material with
  | Some material =>
      match RawObject.material_type material with
      | Some (Json.Text _) => true
      | Some Json.Null => true
      | None => true
      | _ => false
      end
  | None => false
  end.

Definition given_type (material : option RawObject.t) : string :=
  match material with
  | Some material =>
      match RawObject.material_type material with
      | Some (Json.Text material_type) => material_type
      | _ => EmptyString
      end
  | None => EmptyString
  end.

Definition given_quantity (material : option RawObject.t)
    : option Json.value :=
  match material with
  | Some material => RawObject.quantity material
  | None => None
  end.

(** An element with a type and a quantity and nothing else. *)
Definition entry (material_type quantity : Json.value) : option RawObject.t :=
  Some (RawObject.mk (Some material_type) (Some quantity) None None None).

(** A [parseFloat] that reads the text 0 and nothing else. *)
Definition reads_zero (text : string) : option Q :=
  if String.eqb text "0" then Some 0 else None.

(** The two bytes of a no-break space (U+00A0). *)
Definition nbsp : string :=
  String (ascii_of_nat 194) (String (ascii_of_nat 160) EmptyString).

(** An object as the input page first sends it: the five fields and no
    advisory field. *)
Definition fresh (m : MaterialInput.t) : Incoming.t :=
  Incoming.mk (Some (MaterialInput.material_type m))
    (MaterialInput.quantity m) (MaterialInput.unit m)
    (MaterialInput.energy_consumption m) (MaterialInput.transport_distance m)
    false None false false None.

(** An object that has a string [material_type], and the five input
    fields of an object, an absent type read as the empty string. *)
Definition typed (m : Incoming.t) : bool :=
  match Incoming.material_type m with
  | Some _ => true
  | None => false
  end.

Definition five_fields (m : Incoming.t) : MaterialInput.t :=
  Incoming.fields m
    match Incoming.material_type m with
    | Some material_type => material_type
    | None => EmptyString
    end.

(** The marks a processed object carries: each is set by its condition
    or was there on arrival. *)
Definition imputed_after (m : Incoming.t) : bool :=
  (Incoming.ai_imputed m || has_missing_field (five_fields m))%bool.

Definition categorized_after (m : Incoming.t) : bool :=
  (Incoming.ai_categorized m || is_uncategorized (five_fields m))%bool.

Definition flagged_after (m : Incoming.t) : bool :=
  (Incoming.outlier_flag m || is_outlier (five_fields m))%bool.

(** A record processed in an earlier pass, flagged as an outlier then,
    whose quantity was edited to 50 since; and an object without a
    type. *)
Definition edited_outlier : Incoming.t :=
  Incoming.mk (Some "Steel"%string) (Some 50) (Some "kg"%string)
    (Some 24) (Some 100) false None false true
    (Some "Unusually high quantity detected"%string).

Definition untyped : Incoming.t :=
  Incoming.mk None (Some 5) None None None false None false false None.

Fixpoint all_whitespace (s : string) : bool :=
  match s with
  | EmptyString => true
  | String c s' => (Manual.is_whitespace c && all_whitespace s')%bool
  end.


(** * Properties *)

(** ** Sanity checks of the embedding on concrete inputs *)

Example round_half_up : Js.round (5 # 2) = 3%Z /\ Js.round (- (5 # 2)) = (-2)%Z.
Proof. split; reflexivity. Qed.

Example includes_ex :
  Js.includes (Js.toLowerCase "Stainless Steel") "steel" = true
  /\ Js.includes "steel" "stainless steel" = false
  /\ Js.string_of_Z 2585 = "2585"%string.
Proof. repeat split; reflexivity. Qed.

Example seeded_table :
  Database.emission_factors (Database.seeded []) = Database.defaultFactors.
Proof. reflexivity. Qed.

Example LIKE_ex :
  Database.LIKE "%pet%" "pet plastic" = true
  /\ Database.LIKE "%stainless steel%" "steel" = false
  /\ Database.LIKE "%p_c%" "pvc" = true.
Proof. repeat split; reflexivity. Qed.

Example calculate_steel_100 :
  match fst (Lca.calculate
               (Lca.mkRequest (Some [steel_100]) None None)
               (Database.seeded [])) with
  | Lca.Status200 r =>
      map MaterialImpact.category (AssessmentResult.material_breakdown r)
      = ["Metals"%string]
      /\ AssessmentResult.warnings r = []
      /\ map Recommendation.type (AssessmentResult.recommendations r)
         = ["high_impact"; "category_optimization"; "energy_efficiency";
            "general"]%string
  | _ => False
  end.
Proof. vm_compute. repeat split. Qed.

Example estimate_ex :
  Ai.estimateEnergyConsumption "Stainless STEEL" == 24
  /\ Ai.estimateEnergyConsumption "Plywood" == 2.5
  /\ Ai.estimateEnergyConsumption "Unobtainium" == 10
  /\ Ai.categorizeMaterial "Carpet" = "Plastics"%string.
Proof. repeat split; reflexivity. Qed.

(** ** Rational arithmetic helpers *)

Lemma Qle_bool_false_lt (a b : Q) : Qle_bool a b = false <-> b < a.
Proof.
  split; intro H.
  - apply Qnot_le_lt. intro Hle. apply Qle_bool_iff in Hle. congruence.
  - destruct (Qle_bool a b) eqn:E; [|reflexivity].
    apply Qle_bool_iff in E. exfalso. exact (Qlt_not_le _ _ H E).
Qed.

Lemma gt_iff (a b : Q) : Js.gt a b = true <-> b < a.
Proof.
  unfold Js.gt. rewrite negb_true_iff. apply Qle_bool_false_lt.
Qed.

Lemma ge_iff (a b : Q) : Js.ge a b = true <-> b <= a.
Proof. unfold Js.ge. apply Qle_bool_iff. Qed.

Lemma max_spec (a b : Q) : a <= Js.max a b /\ b <= Js.max a b.
Proof.
  unfold Js.max. destruct (Qle_bool a b) eqn:E.
  - apply Qle_bool_iff in E. split; [exact E | apply Qle_refl].
  - apply Qle_bool_false_lt in E. split; [apply Qle_refl | apply Qlt_le_weak, E].
Qed.

Lemma max_cases (a b : Q) : Js.max a b = a \/ Js.max a b = b.
Proof. unfold Js.max. destruct (Qle_bool a b); auto. Qed.

Lemma fold_left_sum {A} (f : A -> Q) (l : list A) (a : Q) :
  fold_left (fun sum m => sum + f m) l a == a + Qsum (map f l).
Proof.
  revert a. induction l as [|x l IH]; intro a; simpl.
  - ring.
  - rewrite IH. ring.
Qed.

(** ** The stable sort *)

Section StableSortFacts.
Context {A : Type} (before : A -> A -> bool).

Lemma insert_perm (x : A) (l : list A) :
  Permutation (x :: l) (insert before x l).
Proof.
  induction l as [|y ys IH]; simpl.
  - apply Permutation_refl.
  - destruct (before x y).
    + apply Permutation_refl.
    + eapply perm_trans; [apply perm_swap|]. apply perm_skip, IH.
Qed.

Lemma stable_sort_perm (l : list A) : Permutation l (stable_sort before l).
Proof.
  induction l as [|x xs IH]; simpl.
  - constructor.
  - eapply perm_trans; [apply perm_skip, IH | apply insert_perm].
Qed.

Lemma stable_sort_length (l : list A) :
  List.length (stable_sort before l) = List.length l.
Proof. symmetry. apply Permutation_length, stable_sort_perm. Qed.

(** With a total and transitive order the head of the sorted list may
    stay in front of every element. *)
Hypothesis before_total : forall x y, before x y = true \/ before y x = true.
Hypothesis before_trans :
  forall x y z, before x y = true -> before y z = true -> before x z = true.

Lemma insert_head (x : A) (l : list A) :
  match l with
  | [] => True
  | h :: _ => forall y, In y l -> before h y = true
  end ->
  match insert before x l with
  | [] => False
  | h :: _ => forall y, In y (x :: l) -> before h y = true
  end.
Proof.
  destruct l as [|h t]; simpl.
  - intros _ y [<-|[]]. destruct (before_total x x); assumption.
  - intros Hh. destruct (before x h) eqn:E.
    + intros y [<-|Hy].
      * destruct (before_total x x); assumption.
      * eapply before_trans; [exact E | apply Hh, Hy].
    + intros y [<-|Hy].
      * destruct (before_total x h) as [H|H]; [congruence | exact H].
      * apply Hh, Hy.
Qed.

Lemma stable_sort_head (l : list A) :
  match stable_sort before l with
  | [] => l = []
  | h :: _ => forall y, In y l -> before h y = true
  end.
Proof.
  induction l as [|x xs IH]; simpl.
  - reflexivity.
  - pose proof (insert_head x (stable_sort before xs)) as H.
    destruct (stable_sort before xs) as [|h t] eqn:E.
    + subst xs. simpl in *. exact (H I).
    + assert (Hpre : forall y, In y (h :: t) -> before h y = true).
      { intros y Hy. apply IH. rewrite <- E in Hy.
        eapply Permutation_in; [apply Permutation_sym, stable_sort_perm|].
        exact Hy. }
      specialize (H Hpre).
      destruct (insert before x (h :: t)) as [|h' t'] eqn:E'; [contradiction|].
      intros y [<-|Hy].
      * apply H. left. reflexivity.
      * apply H. right. rewrite <- E.
        eapply Permutation_in; [apply stable_sort_perm | exact Hy].
Qed.
End StableSortFacts.

(** ** The loop over the materials *)

Lemma step_breakdown db acc m :
  Lca.materialBreakdown (Lca.step db acc m)
  = Lca.materialBreakdown acc ++ [enrich db m].
Proof.
  unfold Lca.step, enrich.
  destruct (Lca.lookup db (MaterialInput.material_type m)); reflexivity.
Qed.

Lemma step_totals db acc m :
  Lca.totalCO2 (Lca.step db acc m)
  = Lca.totalCO2 acc
    + (MaterialImpact.co2_impact (enrich db m)
       + MaterialImpact.transport_impact (enrich db m) * 0.1)
  /\ Lca.totalEnergy (Lca.step db acc m)
     = Lca.totalEnergy acc + MaterialImpact.energy_impact (enrich db m)
  /\ Lca.totalMaterials (Lca.step db acc m)
     = Lca.totalMaterials acc + MaterialImpact.quantity (enrich db m).
Proof.
  unfold Lca.step, enrich.
  destruct (Lca.lookup db (MaterialInput.material_type m)); repeat split.
Qed.

Lemma step_categories db acc m :
  Lca.categoryBreakdown (Lca.step db acc m)
  = Lca.add_to_category (Lca.categoryBreakdown acc)
      (MaterialImpact.category (enrich db m))
      (MaterialImpact.co2_impact (enrich db m))
      (MaterialImpact.energy_impact (enrich db m))
      (MaterialImpact.quantity (enrich db m)).
Proof.
  unfold Lca.step, enrich.
  destruct (Lca.lookup db (MaterialInput.material_type m)); reflexivity.
Qed.

Lemma fold_breakdown db ms acc :
  Lca.materialBreakdown (fold_left (Lca.step db) ms acc)
  = Lca.materialBreakdown acc ++ map (enrich db) ms.
Proof.
  revert acc. induction ms as [|m ms IH]; intro acc; simpl.
  - rewrite app_nil_r. reflexivity.
  - rewrite IH, step_breakdown, <- app_assoc. reflexivity.
Qed.

Lemma loop_breakdown db ms :
  Lca.materialBreakdown (Lca.loop db ms) = map (enrich db) ms.
Proof. unfold Lca.loop. rewrite fold_breakdown. reflexivity. Qed.

Lemma fold_totals db ms acc :
  Lca.totalCO2 (fold_left (Lca.step db) ms acc)
  = fold_left (fun total m => total + co2_share m) (map (enrich db) ms)
      (Lca.totalCO2 acc)
  /\ Lca.totalEnergy (fold_left (Lca.step db) ms acc)
     = fold_left (fun total m => total + MaterialImpact.energy_impact m)
         (map (enrich db) ms) (Lca.totalEnergy acc)
  /\ Lca.totalMaterials (fold_left (Lca.step db) ms acc)
     = fold_left (fun total m => total + MaterialImpact.quantity m)
         (map (enrich db) ms) (Lca.totalMaterials acc).
Proof.
  revert acc.
  induction ms as [|m ms IH]; intro acc; cbn [fold_left map].
  - split; [|split]; reflexivity.
  - destruct (IH (Lca.step db acc m)) as (H1 & H2 & H3).
    destruct (step_totals db acc m) as (E1 & E2 & E3).
    rewrite H1, H2, H3, E1, E2, E3. split; [|split]; reflexivity.
Qed.

Lemma loop_totals db ms :
  Lca.totalCO2 (Lca.loop db ms) = accumulate co2_share (map (enrich db) ms)
  /\ Lca.totalEnergy (Lca.loop db ms)
     = accumulate MaterialImpact.energy_impact (map (enrich db) ms)
  /\ Lca.totalMaterials (Lca.loop db ms)
     = accumulate MaterialImpact.quantity (map (enrich db) ms).
Proof. exact (fold_totals db ms Lca.start). Qed.

(** ** The shape of a successful response *)

Lemma generateRecommendations_array mb cb :
  snd (Lca.generateRecommendations mb cb)
  = stable_sort Lca.by_total_impact_desc mb.
Proof. reflexivity. Qed.

Lemma calculate_200 req db ms :
  Lca.materials req = Some ms -> ms <> [] ->
  let acc := Lca.loop db ms in
  let mb := stable_sort Lca.by_total_impact_desc (map (enrich db) ms) in
  let sv := Lca.save (Lca.assessment_name req) (Lca.description req)
                     acc mb db in
  Lca.calculate req db
  = (Lca.Status200
       (AssessmentResult.mk
          (fst (fst sv))
          (Summary.mk (Js.round2 (Lca.totalCO2 acc))
             (Js.round2 (Lca.totalEnergy acc))
             (Js.round2 (Lca.totalMaterials acc))
             (List.length ms))
          (Lca.calculateEnvironmentalScores (Lca.totalCO2 acc)
             (Lca.totalEnergy acc) (Lca.totalMaterials acc))
          mb
          (map (Lca.category_entry (Lca.totalCO2 acc))
               (Lca.categoryBreakdown acc))
          (fst (Lca.generateRecommendations (map (enrich db) ms)
                  (Lca.categoryBreakdown acc)))
          (Lca.warnings acc ++ snd (fst sv))),
     snd sv).
Proof.
  intros Hm Hne. cbv zeta. unfold Lca.calculate. rewrite Hm.
  destruct ms as [|m ms']; [contradiction|].
  rewrite (loop_breakdown db (m :: ms')).
  destruct (Lca.generateRecommendations (map (enrich db) (m :: ms'))
              (Lca.categoryBreakdown (Lca.loop db (m :: ms'))))
    as [recs mb'] eqn:G.
  apply (f_equal snd) in G. rewrite generateRecommendations_array in G.
  simpl snd in G. subst mb'. simpl fst.
  destruct (Lca.save _ _ _ _ _) as [[aid ws] db']. reflexivity.
Qed.

(** ** Order of the material breakdown *)

Lemma material_breakdown_is_sorted_input req db ms :
  Lca.materials req = Some ms -> ms <> [] ->
  exists r,
    result_of (fst (Lca.calculate req db)) = Some r
    /\ AssessmentResult.material_breakdown r
       = stable_sort Lca.by_total_impact_desc (map (enrich db) ms).
Proof.
  intros Hm Hne. rewrite (calculate_200 req db ms Hm Hne).
  eexists. split; reflexivity.
Qed.

Lemma material_breakdown_length req db ms :
  Lca.materials req = Some ms -> ms <> [] ->
  exists r,
    result_of (fst (Lca.calculate req db)) = Some r
    /\ List.length (AssessmentResult.material_breakdown r) = List.length ms
    /\ Permutation (map MaterialImpact.material_type
                      (AssessmentResult.material_breakdown r))
                   (map MaterialInput.material_type ms).
Proof.
  intros Hm Hne.
  destruct (material_breakdown_is_sorted_input req db ms Hm Hne) as (r & Hr & E).
  exists r. split; [exact Hr|]. rewrite E. split.
  - rewrite stable_sort_length, length_map. reflexivity.
  - eapply perm_trans.
    + apply Permutation_map, Permutation_sym, stable_sort_perm.
    + rewrite map_map. apply Permutation_refl.
Qed.

(** C1, the code at the failing input: for the materials Concrete (1 kg)
    and Steel (100 kg), in this order, the response lists Steel before
    Concrete.  [generateRecommendations] sorts the caller's array in
    place by descending total impact, so [material_breakdown] does not
    keep the input order. *)
Theorem material_breakdown_reordered :
  option_map
    (fun r => map MaterialImpact.material_type
                  (AssessmentResult.material_breakdown r))
    (result_of (fst (Lca.calculate (unnamed [concrete_1; steel_100])
                                   (Database.seeded []))))
  = Some ["Steel"; "Concrete"]%string.
Proof. vm_compute. reflexivity. Qed.

(** ** Aggregate totals *)

(** C3: the totals of a calculation are the running totals, over the
    enriched materials in input order, of [co2_impact] plus a tenth of
    [transport_impact], of [energy_impact] and of [quantity]; the
    enriched materials are those of the response, whose summary reports
    the totals rounded to two decimals.  100 kg of Steel against the
    seeded table give CO2 impact 185, energy impact 2400, transport
    impact 0, a total of 185 kg CO2 and the category Metals. *)
Theorem aggregate_totals :
  (forall req db ms,
      Lca.materials req = Some ms -> ms <> [] ->
      exists r,
        result_of (fst (Lca.calculate req db)) = Some r
        /\ let acc := Lca.loop db ms in
           let enriched := map (enrich db) ms in
           Permutation enriched (AssessmentResult.material_breakdown r)
           /\ Lca.totalCO2 acc
              = accumulate
                  (fun m => MaterialImpact.co2_impact m
                            + MaterialImpact.transport_impact m * 0.1)
                  enriched
           /\ Lca.totalEnergy acc
              = accumulate MaterialImpact.energy_impact enriched
           /\ Lca.totalMaterials acc
              = accumulate MaterialImpact.quantity enriched
           /\ AssessmentResult.summary r
              = Summary.mk (Js.round2 (Lca.totalCO2 acc))
                  (Js.round2 (Lca.totalEnergy acc))
                  (Js.round2 (Lca.totalMaterials acc))
                  (List.length ms))
  /\ (exists r m,
        result_of (fst (Lca.calculate (unnamed [steel_100])
                                      (Database.seeded []))) = Some r
        /\ AssessmentResult.material_breakdown r = [m]
        /\ MaterialImpact.co2_impact m == 185
        /\ MaterialImpact.energy_impact m == 2400
        /\ MaterialImpact.transport_impact m == 0
        /\ MaterialImpact.category m = "Metals"%string
        /\ Summary.total_co2_kg (AssessmentResult.summary r) == 185).
Proof.
  split.
  - intros req db ms Hm Hne. rewrite (calculate_200 req db ms Hm Hne).
    eexists. split; [reflexivity|].
    cbn [fst AssessmentResult.material_breakdown AssessmentResult.summary].
    destruct (loop_totals db ms) as (H1 & H2 & H3).
    split; [apply stable_sort_perm|].
    split; [exact H1|]. split; [exact H2|]. split; [exact H3|]. reflexivity.
  - vm_compute. do 2 eexists.
    repeat match goal with |- _ /\ _ => split end; reflexivity.
Qed.

Lemma aggregate_totals_witness :
  (exists r,
      result_of (fst (Lca.calculate (unnamed mixed_haul)
                                    (Database.seeded []))) = Some r
      /\ let acc := Lca.loop (Database.seeded []) mixed_haul in
         let enriched := map (enrich (Database.seeded [])) mixed_haul in
         Permutation enriched (AssessmentResult.material_breakdown r)
         /\ Lca.totalCO2 acc
            = accumulate
                (fun m => MaterialImpact.co2_impact m
                          + MaterialImpact.transport_impact m * 0.1)
                enriched
         /\ Lca.totalEnergy acc
            = accumulate MaterialImpact.energy_impact enriched
         /\ Lca.totalMaterials acc
            = accumulate MaterialImpact.quantity enriched
         /\ AssessmentResult.summary r
            = Summary.mk (Js.round2 (Lca.totalCO2 acc))
                (Js.round2 (Lca.totalEnergy acc))
                (Js.round2 (Lca.totalMaterials acc))
                2)
  /\ map (fun m => Qred (MaterialImpact.transport_impact m))
         (map (enrich (Database.seeded [])) mixed_haul)
     = [100; 100]
  /\ Lca.totalCO2 (Lca.loop (Database.seeded []) mixed_haul) == 335.
Proof.
  split; [|split].
  - apply (proj1 aggregate_totals (unnamed mixed_haul)
             (Database.seeded []) mixed_haul).
    + reflexivity.
    + discriminate.
  - vm_compute. reflexivity.
  - vm_compute. reflexivity.
Defined.

(** ** Scores and grades *)

Lemma ge_false_iff (a b : Q) : Js.ge a b = false <-> a < b.
Proof. unfold Js.ge. apply Qle_bool_false_lt. Qed.

Lemma round_nonneg (x : Q) : 0 <= x -> (0 <= Js.round x)%Z.
Proof.
  intro H. unfold Js.round.
  change 0%Z with (Qfloor 0). apply Qfloor_resp_le. lra.
Qed.

Lemma round_le_100 (x : Q) : x <= 100 -> (Js.round x <= 100)%Z.
Proof.
  intro H. unfold Js.round.
  change 100%Z with (Qfloor (100 + (1 # 2))). apply Qfloor_resp_le. lra.
Qed.

Lemma div_nonneg (x c : Q) : 0 <= x -> 0 < c -> 0 <= x / c.
Proof. intros Hx Hc. apply Qle_shift_div_l; [exact Hc | lra]. Qed.

Lemma score_floor (x : Q) : 0 <= Js.max 0 (100 - x).
Proof. apply max_spec. Qed.

Lemma score_ceiling (x : Q) : 0 <= x -> Js.max 0 (100 - x) <= 100.
Proof.
  intro H. destruct (max_cases 0 (100 - x)) as [E|E]; rewrite E; lra.
Qed.

(** Every score is at least 0, whatever the totals. *)
Lemma scores_nonnegative (co2 energy materials : Q) :
  let sc := Lca.calculateEnvironmentalScores co2 energy materials in
  (0 <= Scores.overall sc)%Z /\ (0 <= Scores.co2 sc)%Z
  /\ (0 <= Scores.energy sc)%Z /\ (0 <= Scores.materials sc)%Z.
Proof.
  cbv zeta. unfold Lca.calculateEnvironmentalScores. cbn [Scores.overall
    Scores.co2 Scores.energy Scores.materials].
  assert (H1 := score_floor (co2 / 10)).
  assert (H2 := score_floor (energy / 100)).
  assert (H3 := score_floor (materials / 50)).
  fold (Lca.co2Score co2) in H1. fold (Lca.energyScore energy) in H2.
  fold (Lca.materialScore materials) in H3.
  split; [|split; [|split]]; apply round_nonneg; try assumption.
  unfold Lca.overallScore. apply Qle_shift_div_l; lra.
Qed.

(** For totals that are not negative every score is at most 100. *)
Lemma scores_at_most_100 (co2 energy materials : Q) :
  0 <= co2 -> 0 <= energy -> 0 <= materials ->
  let sc := Lca.calculateEnvironmentalScores co2 energy materials in
  (Scores.overall sc <= 100)%Z /\ (Scores.co2 sc <= 100)%Z
  /\ (Scores.energy sc <= 100)%Z /\ (Scores.materials sc <= 100)%Z.
Proof.
  intros Hc He Hm. cbv zeta. unfold Lca.calculateEnvironmentalScores.
  cbn [Scores.overall Scores.co2 Scores.energy Scores.materials].
  assert (H1 : Lca.co2Score co2 <= 100) by (apply score_ceiling, div_nonneg; lra).
  assert (H2 : Lca.energyScore energy <= 100) by (apply score_ceiling, div_nonneg; lra).
  assert (H3 : Lca.materialScore materials <= 100)
    by (apply score_ceiling, div_nonneg; lra).
  split; [|split; [|split]]; apply round_le_100; try assumption.
  unfold Lca.overallScore. apply Qle_shift_div_r; lra.
Qed.

(** C4, the code at the failing input: 1000 kg of Wood, whose seeded CO2
    factor is -0.9, give a CO2 score of 190 and an overall score of 115.
    The scores are clipped at 0 only, not at 100. *)
Theorem scores_exceed_100_for_wood :
  option_map AssessmentResult.scores
    (result_of (fst (Lca.calculate (unnamed [wood_1000])
                                   (Database.seeded []))))
  = Some (Scores.mk 115 190 75 80 "A+").
Proof. vm_compute. reflexivity. Qed.

Ltac grade_cases :=
  unfold Lca.getEnvironmentalGrade;
  repeat match goal with
    | |- context [Js.ge ?a ?b] =>
        let E := fresh "E" in
        destruct (Js.ge a b) eqn:E;
        [apply ge_iff in E | apply ge_false_iff in E]
    end;
  try reflexivity; exfalso; lra.

(** C5: the grade is computed from the overall score before rounding,
    with inclusive lower bounds 90, 80, 70, 60 and 50 for A+, A, B, C
    and D, and F below 50; zero totals give overall 100 and grade A+;
    an overall score of 89.5 is reported as 90 and graded A. *)
Theorem grade_bands :
  (forall co2 energy materials,
      Scores.grade (Lca.calculateEnvironmentalScores co2 energy materials)
      = Lca.getEnvironmentalGrade (Lca.overallScore co2 energy materials))
  /\ (forall s : Q,
        (90 <= s -> Lca.getEnvironmentalGrade s = "A+"%string)
        /\ (80 <= s -> s < 90 -> Lca.getEnvironmentalGrade s = "A"%string)
        /\ (70 <= s -> s < 80 -> Lca.getEnvironmentalGrade s = "B"%string)
        /\ (60 <= s -> s < 70 -> Lca.getEnvironmentalGrade s = "C"%string)
        /\ (50 <= s -> s < 60 -> Lca.getEnvironmentalGrade s = "D"%string)
        /\ (s < 50 -> Lca.getEnvironmentalGrade s = "F"%string))
  /\ Lca.calculateEnvironmentalScores 0 0 0
     = Scores.mk 100 100 100 100 "A+"
  /\ (Lca.overallScore 315 0 0 == 89.5
      /\ Lca.calculateEnvironmentalScores 315 0 0
         = Scores.mk 90 69 100 100 "A").
Proof.
  split; [reflexivity|]. split.
  - intro s. repeat split; intros; grade_cases.
  - split; [reflexivity|]. split; reflexivity.
Qed.

Lemma grade_bands_witness :
  Lca.getEnvironmentalGrade 90 = "A+"%string
  /\ Lca.getEnvironmentalGrade 80 = "A"%string
  /\ Lca.getEnvironmentalGrade (4999 # 100) = "F"%string.
Proof.
  split; [|split].
  - apply (proj1 (proj1 (proj2 grade_bands) 90)). lra.
  - apply (proj1 (proj2 (proj1 (proj2 grade_bands) 80))); lra.
  - apply (proj2 (proj2 (proj2 (proj2 (proj2
             (proj1 (proj2 grade_bands) (4999 # 100))))))). lra.
Defined.

(** ** Recommendations *)

Section SortedHead.
Context {A : Type} (key : A -> Q).

Lemma desc_total x y :
  descending key x y = true \/ descending key y x = true.
Proof.
  unfold descending. rewrite !Qle_bool_iff.
  destruct (Qlt_le_dec (key x) (key y)); [right | left]; lra.
Qed.

Lemma desc_trans x y z :
  descending key x y = true -> descending key y z = true ->
  descending key x z = true.
Proof. unfold descending. rewrite !Qle_bool_iff. lra. Qed.

(** The head of the list sorted by descending key exceeds a threshold
    exactly when some element does. *)
Lemma head_exceeds (threshold : Q) (l : list A) :
  match stable_sort (descending key) l with
  | [] => false
  | h :: _ => Js.gt (key h) threshold
  end
  = existsb (fun x => Js.gt (key x) threshold) l.
Proof.
  pose proof (stable_sort_head (descending key) desc_total desc_trans l) as Hh.
  pose proof (stable_sort_perm (descending key) l) as Hp.
  destruct (stable_sort (descending key) l) as [|h t].
  - subst l. reflexivity.
  - destruct (Js.gt (key h) threshold) eqn:E; symmetry.
    + apply existsb_exists. exists h. split; [|exact E].
      eapply Permutation_in; [apply Permutation_sym, Hp | left; reflexivity].
    + destruct (existsb _ l) eqn:X; [|reflexivity].
      apply existsb_exists in X. destruct X as (y & Hy & Gy).
      specialize (Hh y Hy). unfold descending in Hh.
      apply Qle_bool_iff in Hh. apply gt_iff in Gy.
      assert (F : Js.gt (key h) threshold = true) by (apply gt_iff; lra).
      congruence.
Qed.
End SortedHead.

Lemma existsb_perm {A} (p : A -> bool) (l l' : list A) :
  Permutation l l' -> existsb p l = existsb p l'.
Proof.
  intro H. apply eq_true_iff_eq. rewrite !existsb_exists.
  split; intros (x & Hx & Px); exists x; split; try exact Px.
  - eapply Permutation_in; eassumption.
  - eapply Permutation_in; [apply Permutation_sym|]; eassumption.
Qed.

Lemma filter_nonempty {A} (p : A -> bool) (l : list A) :
  Nat.ltb 0 (List.length (filter p l)) = existsb p l.
Proof.
  induction l as [|x l IH]; simpl; [reflexivity|].
  destruct (p x); simpl; [reflexivity | exact IH].
Qed.

(** C8: the types of the recommendations are, in this order,
    [high_impact] if some material has a total impact above 100,
    [category_optimization] if some category has more than 50 kg CO2,
    [energy_efficiency] if the energy impacts, added up over the
    materials in descending order of total impact, exceed 1000,
    [transport_optimization] if some material has a transport impact
    above 10, and [general]; each rule fires on its own condition, and
    the general recommendation is always the last element. *)
Theorem recommendation_rules (mb : list MaterialImpact.t)
    (cb : list (string * CategoryData.t)) :
  let recs := fst (Lca.generateRecommendations mb cb) in
  map Recommendation.type recs
  = (if high_impact_fires mb then ["high_impact"%string] else [])
    ++ (if category_fires cb then ["category_optimization"%string] else [])
    ++ (if energy_fires mb then ["energy_efficiency"%string] else [])
    ++ (if transport_fires mb then ["transport_optimization"%string] else [])
    ++ ["general"%string]
  /\ exists front, recs = front ++ [general_recommendation].
Proof.
  cbv zeta. unfold Lca.generateRecommendations. cbv zeta. cbn [fst]. split.
  - rewrite !map_app. f_equal; [|f_equal; [|f_equal; [|f_equal]]].
    + unfold high_impact_fires.
      rewrite <- (head_exceeds MaterialImpact.total_impact 100 mb).
      change (descending MaterialImpact.total_impact)
        with Lca.by_total_impact_desc.
      destruct (stable_sort Lca.by_total_impact_desc mb) as [|h t];
        [reflexivity|].
      destruct (Js.gt (MaterialImpact.total_impact h) 100); reflexivity.
    + unfold category_fires.
      rewrite <- (head_exceeds (fun e => CategoryData.co2 (snd e)) 50 cb).
      change (descending (fun e : string * CategoryData.t =>
                            CategoryData.co2 (snd e)))
        with Lca.by_co2_desc.
      destruct (stable_sort Lca.by_co2_desc cb) as [|[k d] t]; [reflexivity|].
      cbn [snd]. destruct (Js.gt (CategoryData.co2 d) 50); reflexivity.
    + unfold energy_fires, accumulate.
      destruct (Js.gt _ 1000); reflexivity.
    + unfold transport_fires. rewrite filter_nonempty.
      rewrite <- (existsb_perm _ mb (stable_sort Lca.by_total_impact_desc mb))
        by apply stable_sort_perm.
      destruct (existsb _ mb); reflexivity.
  - eexists. rewrite !app_assoc. reflexivity.
Qed.

(** ** Persistence *)

Lemma insert_materials_outcome id rows db :
  fst (Lca.insert_materials id rows db)
  = if throws_within (List.length rows) db
    then Database.Thrown else Database.Returned tt.
Proof.
  revert db. induction rows as [|m rows IH]; intro db.
  - reflexivity.
  - cbn [Lca.insert_materials]. unfold Database.bind, Database.insert_material,
      Database.next_fault, throws_within.
    destruct (Database.faults db) as [|f fs] eqn:F.
    + rewrite IH. unfold throws_within. cbn [Database.faults]. rewrite F.
      cbn [List.length]. rewrite !firstn_nil. reflexivity.
    + destruct f; [reflexivity|]. rewrite IH. unfold throws_within.
      reflexivity.
Qed.

Lemma insert_materials_rows id rows db :
  exists new,
    Database.assessment_materials (snd (Lca.insert_materials id rows db))
    = Database.assessment_materials db ++ new
    /\ Forall zero_inputs new
    /\ (fst (Lca.insert_materials id rows db) = Database.Returned tt ->
        List.length new = List.length rows).
Proof.
  revert db. induction rows as [|m rows IH]; intro db.
  - exists []. cbn. rewrite app_nil_r. repeat split. constructor.
  - cbn [Lca.insert_materials]. unfold Database.bind, Database.insert_material,
      Database.next_fault.
    destruct (Database.faults db) as [|f fs] eqn:F; [|destruct f].
    + match goal with
      | |- context [Lca.insert_materials id rows ?d] =>
          destruct (IH d) as (new & E & Z & L)
      end.
      eexists (_ :: new). rewrite E. cbn [Database.assessment_materials].
      rewrite <- app_assoc. split; [reflexivity|]. split.
      * constructor; [split; reflexivity | exact Z].
      * intro R. cbn [List.length]. f_equal. apply L, R.
    + exists []. cbn. rewrite app_nil_r. repeat split; try constructor.
      discriminate.
    + match goal with
      | |- context [Lca.insert_materials id rows ?d] =>
          destruct (IH d) as (new & E & Z & L)
      end.
      eexists (_ :: new). rewrite E. cbn [Database.assessment_materials].
      rewrite <- app_assoc. split; [reflexivity|]. split.
      * constructor; [split; reflexivity | exact Z].
      * intro R. cbn [List.length]. f_equal. apply L, R.
Qed.

Lemma save_outcome name desc acc mb db :
  Js.truthy_str name = true ->
  fst (Lca.save name desc acc mb db)
  = if first_write_throws db then (None, [Lca.not_saved])
    else if throws_within (S (List.length mb)) db
         then (Some (Database.seq_assessments db + 1)%Z, [Lca.not_saved])
         else (Some (Database.seq_assessments db + 1)%Z, []).
Proof.
  intro Hn. unfold Lca.save. rewrite Hn.
  unfold Database.insert_assessment, Database.next_fault, first_write_throws,
    throws_within.
  destruct (Database.faults db) as [|f fs] eqn:F.
  - cbn [hd firstn existsb].
    match goal with
    | |- context [Lca.insert_materials ?i mb ?d] =>
        pose proof (insert_materials_outcome i mb d) as O;
        destruct (Lca.insert_materials i mb d) as [[u|] d2]
    end; cbn [fst] in O; unfold throws_within in O;
      cbn [Database.faults] in O; rewrite F, firstn_nil in O; cbn in O.
    + reflexivity.
    + discriminate.
  - destruct f; cbn [hd firstn existsb orb]; [reflexivity|].
    match goal with
    | |- context [Lca.insert_materials ?i mb ?d] =>
        pose proof (insert_materials_outcome i mb d) as O;
        destruct (Lca.insert_materials i mb d) as [[u|] d2]
    end; cbn [fst] in O; unfold throws_within in O;
      cbn [Database.faults] in O;
      destruct (existsb (fun f => f) (firstn (List.length mb) fs));
      try discriminate; reflexivity.
Qed.

(** What the code does when a write of the persistence step throws
    during a named calculation: the response still carries the computed
    summary, scores, breakdowns and recommendations, and the warnings
    are those of the calculation followed by the one that says the
    assessment was not saved; the assessment id is null when the insert
    of the assessment row threw, but the id of the inserted assessment
    row when a later insert of a material row threw. *)
Lemma persistence_failure_is_a_warning req db ms :
  Lca.materials req = Some ms -> ms <> [] ->
  Js.truthy_str (Lca.assessment_name req) = true ->
  throws_within (S (List.length ms)) db = true ->
  exists r r0,
    result_of (fst (Lca.calculate req db)) = Some r
    /\ result_of (fst (Lca.calculate (without_name req) db)) = Some r0
    /\ computed r = computed r0
    /\ AssessmentResult.warnings r
       = AssessmentResult.warnings r0 ++ [Lca.not_saved]
    /\ AssessmentResult.assessment_id r
       = if first_write_throws db then None
         else Some (Database.seq_assessments db + 1)%Z.
Proof.
  intros Hm Hne Hn Ht.
  rewrite (calculate_200 req db ms Hm Hne).
  rewrite (calculate_200 (without_name req) db ms Hm Hne).
  do 2 eexists. split; [reflexivity|]. split; [reflexivity|].
  cbn [fst computed AssessmentResult.summary AssessmentResult.scores
       AssessmentResult.material_breakdown AssessmentResult.category_breakdown
       AssessmentResult.recommendations AssessmentResult.warnings
       AssessmentResult.assessment_id without_name Lca.assessment_name
       Lca.description].
  split; [reflexivity|].
  rewrite (save_outcome _ _ _ _ _ Hn).
  rewrite stable_sort_length, length_map, Ht.
  unfold Lca.save at 1. cbn [Js.truthy_str fst snd]. rewrite app_nil_r.
  destruct (first_write_throws db); split; reflexivity.
Qed.

(** C6, the code at the failing input: a named calculation for 100 kg
    of Steel in which the insert of the assessment row succeeds and the
    insert of the material row throws.  The persistence step has failed
    and the response warns that the assessment was not saved, but the
    returned assessment id is 1, not null, and the assessment row stays
    in the table without its material. *)
Theorem assessment_id_not_null_after_row_failure :
  let out := Lca.calculate (named [steel_100])
                           (Database.seeded [false; true]) in
  throws_within 2 (Database.seeded [false; true]) = true
  /\ option_map AssessmentResult.assessment_id (result_of (fst out))
     = Some (Some 1%Z)
  /\ option_map AssessmentResult.warnings (result_of (fst out))
     = Some [Lca.not_saved]
  /\ map AssessmentRow.id (Database.lca_assessments (snd out)) = [1%Z]
  /\ Database.assessment_materials (snd out) = [].
Proof. vm_compute. repeat split. Qed.

Lemma save_rows name desc acc mb db :
  exists new,
    Database.assessment_materials (snd (Lca.save name desc acc mb db))
    = Database.assessment_materials db ++ new
    /\ Forall zero_inputs new
    /\ (Js.truthy_str name = true ->
        throws_within (S (List.length mb)) db = false ->
        List.length new = List.length mb).
Proof.
  unfold Lca.save. destruct (Js.truthy_str name) eqn:Hn.
  - unfold Database.insert_assessment, Database.next_fault, throws_within.
    destruct (Database.faults db) as [|f fs] eqn:F; [|destruct f].
    + match goal with
      | |- context [Lca.insert_materials ?i mb ?d] =>
          destruct (insert_materials_rows i mb d) as (new & E & Z & L);
          pose proof (insert_materials_outcome i mb d) as O;
          destruct (Lca.insert_materials i mb d) as [[u|] d2]
      end; cbn [fst snd] in *; exists new;
        (split; [exact E|]); (split; [exact Z|]); intros _ _.
      * destruct u. apply L. reflexivity.
      * unfold throws_within in O. cbn [Database.faults] in O.
        rewrite F, firstn_nil in O. discriminate.
    + exists []. cbn [snd Database.assessment_materials].
      rewrite app_nil_r. split; [reflexivity|]. split; [constructor|].
      intros _ H. cbn in H. discriminate.
    + match goal with
      | |- context [Lca.insert_materials ?i mb ?d] =>
          destruct (insert_materials_rows i mb d) as (new & E & Z & L);
          pose proof (insert_materials_outcome i mb d) as O;
          destruct (Lca.insert_materials i mb d) as [[u|] d2]
      end; cbn [fst snd] in *; exists new;
        (split; [exact E|]); (split; [exact Z|]); intros _ H.
      * destruct u. apply L. reflexivity.
      * unfold throws_within in O. cbn [Database.faults] in O.
        cbn [firstn existsb orb] in H. rewrite H in O. discriminate.
  - exists []. cbn [snd]. rewrite app_nil_r.
    split; [reflexivity|]. split; [constructor|]. discriminate.
Qed.

(** C9, as the code has it: every row a calculation appends to
    [assessment_materials] has [energy_consumption = 0] and
    [transport_distance = 0], whatever the caller supplied, and a named
    calculation whose writes all succeed appends one row per material.
    The transport inputs cannot in general be read back: two requests
    that give the same materials the same energy inputs and differ only
    in their transport distances leave the same database. *)
Theorem persisted_inputs_are_zero :
  (forall req db ms,
      Lca.materials req = Some ms -> ms <> [] ->
      exists new,
        Database.assessment_materials (snd (Lca.calculate req db))
        = Database.assessment_materials db ++ new
        /\ Forall zero_inputs new
        /\ (Js.truthy_str (Lca.assessment_name req) = true ->
            throws_within (S (List.length ms)) db = false ->
            List.length new = List.length ms))
  /\ (map without_distance haul_near_far = map without_distance haul_far_near
      /\ map MaterialInput.transport_distance haul_near_far
         = [Some 10; Some 30]
      /\ map MaterialInput.transport_distance haul_far_near
         = [Some 30; Some 10]
      /\ snd (Lca.calculate (named haul_near_far) (Database.seeded []))
         = snd (Lca.calculate (named haul_far_near) (Database.seeded []))
      /\ List.length
           (Database.assessment_materials
              (snd (Lca.calculate (named haul_near_far) (Database.seeded []))))
         = 2%nat).
Proof.
  split.
  - intros req db ms Hm Hne. rewrite (calculate_200 req db ms Hm Hne).
    cbn [snd].
    destruct (save_rows (Lca.assessment_name req) (Lca.description req)
                (Lca.loop db ms)
                (stable_sort Lca.by_total_impact_desc (map (enrich db) ms)) db)
      as (new & E & Z & L).
    exists new. split; [exact E|]. split; [exact Z|].
    intros Hn Ht. rewrite L; [|exact Hn|].
    + rewrite stable_sort_length, length_map. reflexivity.
    + rewrite stable_sort_length, length_map. exact Ht.
  - split; [reflexivity|]. split; [reflexivity|]. split; [reflexivity|].
    split; vm_compute; reflexivity.
Qed.

Lemma persisted_inputs_are_zero_witness :
  exists new,
    Database.assessment_materials
      (snd (Lca.calculate (named two_metals) (Database.seeded [])))
    = Database.assessment_materials (Database.seeded []) ++ new
    /\ Forall zero_inputs new
    /\ List.length new = 2%nat.
Proof.
  destruct (proj1 persisted_inputs_are_zero (named two_metals)
              (Database.seeded []) two_metals)
    as (new & E & Z & L).
  - reflexivity.
  - discriminate.
  - exists new. split; [exact E|]. split; [exact Z|].
    apply L; reflexivity.
Defined.

(** C9 as stated fails for the energy inputs.  Steel with an energy
    input of 7 and Copper with an energy input of 900 are persisted with
    [energy_consumption = 0], yet each input is read back from its row:
    the stored energy impact less the quantity times the energy factor
    of the material is 900 for the Copper row and 7 for the Steel
    row. *)
Lemma energy_inputs_are_read_back :
  let db := Database.seeded [] in
  let rows :=
    Database.assessment_materials
      (snd (Lca.calculate (named two_metals) db)) in
  map (fun m => (MaterialInput.material_type m,
                 MaterialInput.energy_consumption m)) two_metals
  = [("Steel"%string, Some 7); ("Copper"%string, Some 900)]
  /\ map MaterialRow.energy_consumption rows = [0; 0]
  /\ map (fun row => (MaterialRow.material_type row,
                      Qred (recovered_energy db row))) rows
     = [("Copper"%string, 900); ("Steel"%string, 7)].
Proof. vm_compute. repeat split. Qed.

(** ** Category percentages *)

Lemma assoc_add cb k c e q k' :
  assoc k' (Lca.add_to_category cb k c e q)
  = if String.eqb k k' then Some (bump (assoc k cb) c e q) else assoc k' cb.
Proof.
  unfold assoc. induction cb as [|[k0 d] cb IH]; cbn [Lca.add_to_category].
  - cbn. destruct (String.eqb k k'); reflexivity.
  - destruct (String.eqb k0 k) eqn:E0.
    + apply String.eqb_eq in E0. subst k0. cbn. rewrite String.eqb_refl.
      destruct (String.eqb k k'); reflexivity.
    + cbn [find fst]. destruct (String.eqb k0 k') eqn:E1.
      * apply String.eqb_eq in E1. subst k0.
        rewrite String.eqb_sym, E0. reflexivity.
      * rewrite E0. exact IH.
Qed.

Lemma keys_add cb k c e q :
  map fst (Lca.add_to_category cb k c e q)
  = if existsb (fun e => String.eqb (fst e) k) cb
    then map fst cb else map fst cb ++ [k].
Proof.
  induction cb as [|[k0 d] cb IH]; cbn [Lca.add_to_category]; [reflexivity|].
  cbn [existsb fst]. destruct (String.eqb k0 k); cbn; [reflexivity|].
  rewrite IH. destruct (existsb _ cb); reflexivity.
Qed.

Lemma keys_add_nodup cb k c e q :
  NoDup (map fst cb) -> NoDup (map fst (Lca.add_to_category cb k c e q)).
Proof.
  intro H. rewrite keys_add.
  destruct (existsb _ cb) eqn:X; [exact H|].
  apply NoDup_app; [exact H | repeat constructor; intros [] |].
  intros a Ha [E|[]]. subst a. apply in_map_iff in Ha.
  destruct Ha as ([k0 d] & E & Hin). cbn in E. subst k0.
  assert (T : existsb (fun e => String.eqb (fst e) k) cb = true).
  { apply existsb_exists. exists (k, d). split; [exact Hin|].
    apply String.eqb_refl. }
  congruence.
Qed.

Lemma assoc_in cb k d :
  NoDup (map fst cb) -> In (k, d) cb -> assoc k cb = Some d.
Proof.
  unfold assoc. induction cb as [|[k0 d0] cb IH]; intros N H; [destruct H|].
  cbn in N. inversion N as [|x xs Hn Hd]; subst. cbn [find fst].
  destruct H as [H|H].
  - injection H as -> ->. rewrite String.eqb_refl. reflexivity.
  - destruct (String.eqb k0 k) eqn:E.
    + apply String.eqb_eq in E. subst k0. exfalso. apply Hn.
      apply in_map_iff. exists (k, d). split; [reflexivity | exact H].
    + apply IH; assumption.
Qed.

Lemma assoc_some_in cb k d : assoc k cb = Some d -> In k (map fst cb).
Proof.
  unfold assoc. destruct (find _ cb) as [[k0 d0]|] eqn:F; [|discriminate].
  intros _. apply find_some in F. destruct F as [Hin E]. cbn in E.
  apply String.eqb_eq in E. subst k0.
  apply in_map_iff. exists (k, d0). split; [reflexivity | exact Hin].
Qed.

Lemma accumulate_snoc {A} (f : A -> Q) (l : list A) (x : A) :
  accumulate f (l ++ [x]) = accumulate f l + f x.
Proof. unfold accumulate. rewrite fold_left_app. reflexivity. Qed.

Lemma accumulate_sum {A} (f : A -> Q) (l : list A) :
  accumulate f l == Qsum (map f l).
Proof. unfold accumulate. rewrite fold_left_sum. ring. Qed.

Lemma grouped_step cb mb m :
  grouped cb mb ->
  grouped (Lca.add_to_category cb (MaterialImpact.category m)
             (MaterialImpact.co2_impact m) (MaterialImpact.energy_impact m)
             (MaterialImpact.quantity m))
          (mb ++ [m]).
Proof.
  intros [N G]. split; [apply keys_add_nodup, N|].
  intro k. rewrite assoc_add.
  assert (F : filter (in_category k) (mb ++ [m])
              = filter (in_category k) mb
                ++ (if String.eqb (MaterialImpact.category m) k
                    then [m] else []))
    by (rewrite filter_app; reflexivity).
  destruct (String.eqb (MaterialImpact.category m) k) eqn:E.
  - apply String.eqb_eq in E. subst k. rewrite F.
    specialize (G (MaterialImpact.category m)).
    destruct (assoc (MaterialImpact.category m) cb) as [d|]; cbn [bump].
    + destruct G as (G1 & G2 & G3 & G4 & G5). unfold aggregates.
      cbn [CategoryData.count CategoryData.co2 CategoryData.energy
           CategoryData.materials].
      rewrite length_app, !accumulate_snoc, G1, G3, G4, G5.
      cbn [List.length].
      split; [reflexivity|]. split; [lia|]. split; [reflexivity|].
      split; reflexivity.
    + rewrite G. unfold aggregates.
      cbn [CategoryData.count CategoryData.co2 CategoryData.energy
           CategoryData.materials app List.length].
      split; [reflexivity|]. split; [lia|]. split; [reflexivity|].
      split; reflexivity.
  - specialize (G k). rewrite app_nil_r in F.
    destruct (assoc k cb) as [d|]; rewrite F; exact G.
Qed.

Lemma grouped_fold db ms acc :
  grouped (Lca.categoryBreakdown acc) (Lca.materialBreakdown acc) ->
  grouped (Lca.categoryBreakdown (fold_left (Lca.step db) ms acc))
          (Lca.materialBreakdown (fold_left (Lca.step db) ms acc)).
Proof.
  revert acc. induction ms as [|m ms IH]; intros acc H; cbn [fold_left];
    [exact H|].
  apply IH. rewrite step_categories, step_breakdown. apply grouped_step, H.
Qed.

Lemma loop_grouped db ms :
  grouped (Lca.categoryBreakdown (Lca.loop db ms)) (map (enrich db) ms).
Proof.
  rewrite <- loop_breakdown. unfold Lca.loop.
  apply grouped_fold. split; [constructor|]. intro k. reflexivity.
Qed.

(** With no negative impact, what the members of a category add to its
    CO2 entry is not above what all materials add to the CO2 total. *)
Lemma members_below_total (p : MaterialImpact.t -> bool)
    (l : list MaterialImpact.t) :
  (forall m, In m l -> 0 <= MaterialImpact.co2_impact m
                       /\ 0 <= MaterialImpact.transport_impact m) ->
  0 <= accumulate MaterialImpact.co2_impact (filter p l)
  /\ accumulate MaterialImpact.co2_impact (filter p l)
     <= accumulate co2_share l.
Proof.
  intro H. rewrite !accumulate_sum.
  induction l as [|m l IH]; cbn [filter map Qsum].
  - split; apply Qle_refl.
  - destruct (H m (or_introl eq_refl)) as [Hc Ht].
    destruct IH as [I0 I1]; [intros x Hx; apply H; right; exact Hx|].
    unfold co2_share at 1.
    destruct (p m); cbn [map Qsum]; split; lra.
Qed.

Lemma round2_between (x : Q) : 0 <= x -> x <= 100 -> 0 <= Js.round2 x <= 100.
Proof.
  intros H0 H1. unfold Js.round2, Js.round.
  assert (L : (0 <= Qfloor (x * 100 + (1 # 2)))%Z).
  { change 0%Z with (Qfloor 0). apply Qfloor_resp_le. lra. }
  assert (U : (Qfloor (x * 100 + (1 # 2)) <= 10000)%Z).
  { change 10000%Z with (Qfloor (10000 + (1 # 2))).
    apply Qfloor_resp_le. lra. }
  rewrite Zle_Qle in L, U.
  change (inject_Z 0) with 0 in L. change (inject_Z 10000) with 10000 in U.
  split.
  - apply Qle_shift_div_l; [reflexivity|]. lra.
  - apply Qle_shift_div_r; [reflexivity|]. lra.
Qed.

(** C10, as the code has it: the denominator of the percentages is the
    CO2 total, the running total of CO2 impact plus a tenth of the
    transport impact of every material, while the CO2 entry of a
    category is the running total of the CO2 impacts of its members
    alone; each reported percentage is the quotient times 100, rounded
    to two decimals, and [null] when the total is 0.  When no material
    has a negative CO2 or transport impact and the total is positive, no
    entry exceeds the total and every reported percentage lies between
    0 and 100. *)
Theorem category_percentages_at_most_100 req db ms :
  Lca.materials req = Some ms -> ms <> [] ->
  exists r,
    result_of (fst (Lca.calculate req db)) = Some r
    /\ let total := Lca.totalCO2 (Lca.loop db ms) in
       let enriched := map (enrich db) ms in
       let cs := AssessmentResult.category_breakdown r in
       total
       = accumulate
           (fun m => MaterialImpact.co2_impact m
                     + MaterialImpact.transport_impact m * 0.1)
           enriched
       /\ (forall c, In c cs ->
             CategoryAggregate.co2 c
             = accumulate MaterialImpact.co2_impact
                 (filter (in_category (CategoryAggregate.category c)) enriched)
             /\ CategoryAggregate.percentage c
                = if Qeq_bool total 0 then None
                  else Some (Js.round2 (CategoryAggregate.co2 c
                                        / total * 100)))
       /\ ((forall m, In m enriched ->
               0 <= MaterialImpact.co2_impact m
               /\ 0 <= MaterialImpact.transport_impact m) ->
           0 < total ->
           forall c, In c cs ->
             CategoryAggregate.co2 c <= total
             /\ forall p, CategoryAggregate.percentage c = Some p ->
                          0 <= p <= 100).
Proof.
  intros Hm Hne. rewrite (calculate_200 req db ms Hm Hne).
  eexists. split; [reflexivity|].
  cbn [fst AssessmentResult.category_breakdown].
  set (total := Lca.totalCO2 (Lca.loop db ms)).
  set (cb := Lca.categoryBreakdown (Lca.loop db ms)).
  destruct (loop_grouped db ms) as [N G]. fold cb in N, G.
  assert (C : forall k d, In (k, d) cb ->
                CategoryData.co2 d
                = accumulate MaterialImpact.co2_impact
                    (filter (in_category k) (map (enrich db) ms))).
  { intros k d Hin. specialize (G k). rewrite (assoc_in cb k d N Hin) in G.
    apply G. }
  cbv zeta. split; [exact (proj1 (loop_totals db ms))|]. split.
  - intros c Hc. apply in_map_iff in Hc. destruct Hc as ([k d] & <- & Hin).
    cbn [Lca.category_entry CategoryAggregate.co2 CategoryAggregate.category
         CategoryAggregate.percentage].
    split; [apply (C k d Hin) | reflexivity].
  - intros Hpos Ht c Hc. apply in_map_iff in Hc.
    destruct Hc as ([k d] & <- & Hin).
    cbn [Lca.category_entry CategoryAggregate.co2 CategoryAggregate.category
         CategoryAggregate.percentage].
    destruct (members_below_total (in_category k) (map (enrich db) ms) Hpos)
      as [B0 B1].
    rewrite <- (C k d Hin) in B0, B1.
    rewrite <- (proj1 (loop_totals db ms)) in B1. fold total in B1.
    split; [exact B1|]. intros p Hp.
    destruct (Qeq_bool total 0); [discriminate Hp|].
    injection Hp as <-.
    assert (D0 : 0 <= CategoryData.co2 d / total)
      by (apply Qle_shift_div_l; lra).
    assert (D1 : CategoryData.co2 d / total <= 1)
      by (apply Qle_shift_div_r; lra).
    apply round2_between; lra.
Qed.

Lemma category_percentages_at_most_100_witness :
  exists r,
    result_of (fst (Lca.calculate (unnamed mixed_haul) (Database.seeded [])))
    = Some r
    /\ map CategoryAggregate.category (AssessmentResult.category_breakdown r)
       = ["Metals"; "Construction"]%string
    /\ forall c, In c (AssessmentResult.category_breakdown r) ->
         CategoryAggregate.co2 c
         <= Lca.totalCO2 (Lca.loop (Database.seeded []) mixed_haul)
         /\ forall p, CategoryAggregate.percentage c = Some p -> 0 <= p <= 100.
Proof.
  destruct (category_percentages_at_most_100 (unnamed mixed_haul)
              (Database.seeded []) mixed_haul)
    as (r & Hr & _ & _ & B).
  - reflexivity.
  - discriminate.
  - exists r. split; [exact Hr|]. split.
    + vm_compute in Hr. injection Hr as <-. reflexivity.
    + apply B.
      * intros m [<-|[<-|[]]]; vm_compute; split; discriminate.
      * vm_compute. reflexivity.
Defined.

(** C10 as stated fails in two ways.  With 100 kg of Steel and a
    transport distance of 0.0001 km the only material has a positive
    transport impact and the CO2 total is positive, yet the one reported
    percentage is 100, so the sum is not below 100.  With one positive
    and one larger negative transport impact the reported percentage is
    102.13. *)
Lemma percentages_reach_100 :
  (let acc := Lca.loop (Database.seeded []) short_haul in
   let out := Lca.calculate (unnamed short_haul) (Database.seeded []) in
   0 < Lca.totalCO2 acc
   /\ Exists (fun m => 0 < MaterialImpact.transport_impact m)
             (Lca.materialBreakdown acc)
   /\ exists r, result_of (fst out) = Some r
                /\ Qsum (reported (AssessmentResult.category_breakdown r))
                   == 100
                /\ ~ Qsum (reported (AssessmentResult.category_breakdown r))
                      < 100)
  /\ (let acc := Lca.loop (Database.seeded []) negative_haul in
      let out := Lca.calculate (unnamed negative_haul) (Database.seeded []) in
      0 < Lca.totalCO2 acc
      /\ Exists (fun m => 0 < MaterialImpact.transport_impact m)
                (Lca.materialBreakdown acc)
      /\ exists r, result_of (fst out) = Some r
                   /\ Qsum (reported (AssessmentResult.category_breakdown r))
                      == 102.13).
Proof.
  split; cbv zeta.
  - split; [vm_compute; reflexivity|]. split.
    + apply Exists_cons_hd. vm_compute. reflexivity.
    + vm_compute. eexists. split; [reflexivity|]. split; [reflexivity|].
      intro H. discriminate H.
  - split; [vm_compute; reflexivity|]. split.
    + apply Exists_cons_hd. vm_compute. reflexivity.
    + vm_compute. eexists. split; reflexivity.
Qed.

(** ** Fallback processing *)

Lemma falsy_num (v : option Q) :
  Js.truthy_num v = false <-> v = None \/ exists q, v = Some q /\ q == 0.
Proof.
  destruct v as [q|]; cbn.
  - rewrite negb_false_iff, Qeq_bool_iff. split.
    + intro H. right. exists q. split; [reflexivity | exact H].
    + intros [H|(q' & E & H)]; [discriminate|]. injection E as ->. exact H.
  - split; auto.
Qed.

Lemma quantity_missing_falsy (m : MaterialInput.t) :
  Ai.quantity_missing m = negb (Js.truthy_num (MaterialInput.quantity m)).
Proof.
  unfold Ai.quantity_missing. destruct (MaterialInput.quantity m) as [q|]; cbn.
  - destruct (Qeq_bool q 0); reflexivity.
  - reflexivity.
Qed.

Lemma first_estimate_hit lowerMaterial pre k v post :
  Js.includes lowerMaterial k = true ->
  (forall k' v', In (k', v') pre -> Js.includes lowerMaterial k' = false) ->
  Ai.first_estimate lowerMaterial (pre ++ (k, v) :: post) = v.
Proof.
  intros Hk. induction pre as [|[k0 v0] pre IH]; intros Hpre; cbn.
  - rewrite Hk. reflexivity.
  - rewrite (Hpre k0 v0) by (left; reflexivity).
    apply IH. intros k' v' H. apply (Hpre k' v'). right. exact H.
Qed.

Lemma first_estimate_miss lowerMaterial entries :
  (forall k v, In (k, v) entries -> Js.includes lowerMaterial k = false) ->
  Ai.first_estimate lowerMaterial entries = 10.0.
Proof.
  induction entries as [|[k0 v0] entries IH]; intros H; cbn.
  - reflexivity.
  - rewrite (H k0 v0) by (left; reflexivity).
    apply IH. intros k v Hin. apply (H k v). right. exact Hin.
Qed.

(** C7, as the code has it: in the fallback path a quantity that is
    missing or 0 becomes 1.0 and any other quantity, negative ones
    included, is kept; a missing or zero energy consumption becomes the
    value of the first keyword of the table steel 24.0, aluminum 154.0,
    plastic 76.0, glass 15.0, concrete 1.0, wood 2.5, paper 20.0 that
    the lower-cased material type contains, and 10.0 when it contains
    none; a missing or zero transport distance becomes 100; and
    [ai_imputed] is set exactly when one of the three was imputed. *)
Theorem fallback_imputation :
  (forall m : MaterialInput.t,
      let p := Ai.process m in
      Processed.quantity p
      = (if Js.truthy_num (MaterialInput.quantity m)
         then MaterialInput.quantity m else Some 1.0)
      /\ Processed.energy_consumption p
         = (if Js.truthy_num (MaterialInput.energy_consumption m)
            then MaterialInput.energy_consumption m
            else Some (Ai.estimateEnergyConsumption
                         (MaterialInput.material_type m)))
      /\ Processed.transport_distance p
         = (if Js.truthy_num (MaterialInput.transport_distance m)
            then MaterialInput.transport_distance m else Some 100)
      /\ Processed.ai_imputed p
         = negb (Js.truthy_num (MaterialInput.quantity m)
                 && Js.truthy_num (MaterialInput.energy_consumption m)
                 && Js.truthy_num (MaterialInput.transport_distance m)))
  /\ (forall v : option Q,
        Js.truthy_num v = false <-> v = None \/ exists q, v = Some q /\ q == 0)
  /\ Ai.energyEstimates
     = [ ("steel", 24.0); ("aluminum", 154.0); ("plastic", 76.0);
         ("glass", 15.0); ("concrete", 1.0); ("wood", 2.5);
         ("paper", 20.0) ]%string
  /\ (forall type pre k v post,
        Ai.energyEstimates = pre ++ (k, v) :: post ->
        Js.includes (Js.toLowerCase type) k = true ->
        (forall k' v', In (k', v') pre ->
                       Js.includes (Js.toLowerCase type) k' = false) ->
        Ai.estimateEnergyConsumption type = v)
  /\ (forall type,
        (forall k v, In (k, v) Ai.energyEstimates ->
                     Js.includes (Js.toLowerCase type) k = false) ->
        Ai.estimateEnergyConsumption type = 10.0).
Proof.
  split; [|split; [|split; [|split]]].
  - intro m. cbv zeta. unfold Ai.process.
    cbn [Processed.quantity Processed.energy_consumption
         Processed.transport_distance Processed.ai_imputed].
    rewrite quantity_missing_falsy. unfold Ai.energy_missing, Ai.transport_missing.
    destruct (Js.truthy_num (MaterialInput.quantity m));
      destruct (Js.truthy_num (MaterialInput.energy_consumption m));
      destruct (Js.truthy_num (MaterialInput.transport_distance m));
      repeat split.
  - exact falsy_num.
  - reflexivity.
  - intros type pre k v post E Hk Hpre. unfold Ai.estimateEnergyConsumption.
    rewrite E. apply first_estimate_hit; assumption.
  - intros type H. unfold Ai.estimateEnergyConsumption.
    apply first_estimate_miss. exact H.
Qed.

Lemma fallback_imputation_witness :
  Ai.estimateEnergyConsumption "Plywood" = 2.5
  /\ Ai.estimateEnergyConsumption "Unobtainium" = 10.0
  /\ Js.truthy_num (Some 0) = false.
Proof.
  split; [|split].
  - apply (proj1 (proj2 (proj2 (proj2 fallback_imputation))) "Plywood"%string
             [ ("steel", 24.0); ("aluminum", 154.0); ("plastic", 76.0);
               ("glass", 15.0); ("concrete", 1.0) ]%string
             "wood"%string 2.5 [ ("paper"%string, 20.0) ]).
    + reflexivity.
    + reflexivity.
    + intros k' v' H. cbn [In] in H.
      repeat (destruct H as [H|H]; [injection H as <- <-; reflexivity|]).
      destruct H.
  - apply (proj2 (proj2 (proj2 (proj2 fallback_imputation))) "Unobtainium"%string).
    intros k v H. unfold Ai.energyEstimates in H. cbn [In] in H.
    repeat (destruct H as [H|H]; [injection H as <- <-; reflexivity|]).
    destruct H.
  - apply (proj1 (proj2 fallback_imputation)). right. exists 0.
    split; reflexivity.
Defined.

(** C7 as stated fails for a negative quantity: the test is
    [!material.quantity || material.quantity === 0], so -5 is kept and,
    the other two fields being present, [ai_imputed] is not set. *)
Lemma negative_quantity_is_kept :
  map Processed.quantity (Ai.basicDataProcessing [negative_quantity])
  = [Some (-5)]
  /\ map Processed.ai_imputed (Ai.basicDataProcessing [negative_quantity])
     = [false]
  /\ map Processed.quantity (Ai.basicDataProcessing [bare "Steel"])
     = [Some 1.0].
Proof. repeat split; reflexivity. Qed.

(** ** Emission-factor lookup *)

Lemma string_leb_trans (s1 s2 s3 : string) :
  String.leb s1 s2 = true -> String.leb s2 s3 = true ->
  String.leb s1 s3 = true.
Proof.
  unfold String.leb. revert s2 s3.
  induction s1 as [|c1 s1 IH]; intros [|c2 s2] [|c3 s3]; cbn;
    try reflexivity; try discriminate.
  unfold Ascii.compare.
  destruct (N.compare_spec (N_of_ascii c1) (N_of_ascii c2)) as [E12|L12|G12];
    destruct (N.compare_spec (N_of_ascii c2) (N_of_ascii c3)) as [E23|L23|G23];
    try discriminate; intros H12 H23.
  - rewrite E12, E23, N.compare_refl. exact (IH s2 s3 H12 H23).
  - rewrite E12. apply N.compare_lt_iff in L23. rewrite L23. reflexivity.
  - rewrite <- E23. apply N.compare_lt_iff in L12. rewrite L12. reflexivity.
  - assert (L : (N_of_ascii c1 < N_of_ascii c3)%N) by lia.
    apply N.compare_lt_iff in L. rewrite L. reflexivity.
Qed.

Lemma lower_ascii_idempotent (c : ascii) :
  Js.lower_ascii (Js.lower_ascii c) = Js.lower_ascii c.
Proof.
  destruct c as [[] [] [] [] [] [] [] []]; reflexivity.
Qed.

Lemma lower_ascii_wildcard (c : ascii) :
  Ascii.eqb (Js.lower_ascii c) "%" = Ascii.eqb c "%"
  /\ Ascii.eqb (Js.lower_ascii c) "_" = Ascii.eqb c "_".
Proof.
  destruct c as [[] [] [] [] [] [] [] []]; split; reflexivity.
Qed.

Lemma toLowerCase_app (a b : string) :
  Js.toLowerCase (a ++ b) = (Js.toLowerCase a ++ Js.toLowerCase b)%string.
Proof.
  induction a as [|c a IH]; cbn; [reflexivity | rewrite IH; reflexivity].
Qed.

Lemma no_wildcard_lower (s : string) :
  no_wildcard (Js.toLowerCase s) = no_wildcard s.
Proof.
  induction s as [|c s IH]; cbn; [reflexivity|].
  destruct (lower_ascii_wildcard c) as [-> ->]. rewrite IH. reflexivity.
Qed.

Lemma LIKE_percent_end (t : string) : Database.LIKE "%" t = true.
Proof.
  induction t as [|c t IH]; [reflexivity|].
  cbn in *. exact IH.
Qed.

Lemma LIKE_percent (p t : string) :
  Database.LIKE (String "%" p) t = any_suffix (Database.LIKE p) t.
Proof.
  induction t as [|c t IH]; [reflexivity|].
  cbn in *. rewrite IH. reflexivity.
Qed.

Lemma includes_any_suffix (s k : string) :
  Js.includes s k = any_suffix (String.prefix k) s.
Proof.
  induction s as [|c s IH]; cbn; [reflexivity|]. rewrite IH. reflexivity.
Qed.

Lemma any_suffix_ext (f g : string -> bool) (t : string) :
  (forall u, f u = g u) -> any_suffix f t = any_suffix g t.
Proof.
  intro H. induction t as [|c t IH]; cbn; rewrite H; [reflexivity|].
  rewrite IH. reflexivity.
Qed.

(** A pattern of lower-case literal characters followed by [%] matches
    the lower-cased texts it is a prefix of. *)
Lemma LIKE_literal (q t : string) :
  no_wildcard q = true ->
  Database.LIKE (Js.toLowerCase q ++ "%") (Js.toLowerCase t)
  = String.prefix (Js.toLowerCase q) (Js.toLowerCase t).
Proof.
  revert t. induction q as [|c q IH]; intros t H.
  - cbn [Js.toLowerCase append]. rewrite LIKE_percent_end.
    destruct (Js.toLowerCase t); reflexivity.
  - cbn [no_wildcard] in H. apply andb_true_iff in H. destruct H as [Hc Hq].
    apply negb_true_iff, orb_false_iff in Hc. destruct Hc as [H1 H2].
    cbn [Js.toLowerCase append Database.LIKE].
    destruct (lower_ascii_wildcard c) as [-> ->]. rewrite H1, H2.
    destruct t as [|d t]; [reflexivity|].
    cbn [Js.toLowerCase String.prefix]. rewrite !lower_ascii_idempotent.
    rewrite (IH t Hq).
    destruct (ascii_dec (Js.lower_ascii c) (Js.lower_ascii d)) as [E|N].
    + rewrite E, Ascii.eqb_refl. reflexivity.
    + apply Ascii.eqb_neq in N. rewrite N. reflexivity.
Qed.

(** For an input without [%] and [_], the pattern of the partial-match
    query matches exactly the entries whose lower-cased type contains
    the lower-cased input. *)
Lemma LIKE_contains (input entry : string) :
  no_wildcard input = true ->
  Database.LIKE (Database.LOWER ("%" ++ input ++ "%"))
                (Database.LOWER entry)
  = Js.includes (Js.toLowerCase entry) (Js.toLowerCase input).
Proof.
  intro H. unfold Database.LOWER.
  change ("%" ++ input ++ "%")%string with (String "%" (input ++ "%")).
  cbn [Js.toLowerCase]. change (Js.lower_ascii "%") with "%"%char.
  rewrite toLowerCase_app. change (Js.toLowerCase "%") with "%"%string.
  rewrite LIKE_percent, includes_any_suffix.
  induction entry as [|d e IH].
  - cbn [Js.toLowerCase any_suffix]. rewrite !orb_false_r.
    apply (LIKE_literal input EmptyString H).
  - cbn [Js.toLowerCase any_suffix]. rewrite IH. f_equal.
    apply (LIKE_literal input (String d e) H).
Qed.

Lemma filter_nil_existsb {A} (p : A -> bool) (l : list A) :
  filter p l = [] -> existsb p l = false.
Proof.
  induction l as [|x l IH]; cbn; [reflexivity|].
  destruct (p x); [discriminate | exact IH].
Qed.

Lemma get_factor_like_spec db input :
  no_wildcard input = true ->
  match Database.get_factor_like db ("%" ++ input ++ "%") with
  | Some r =>
      In r (Database.emission_factors db)
      /\ contains_input input r = true
      /\ forall r', In r' (Database.emission_factors db) ->
                    contains_input input r' = true ->
                    String.leb (EmissionFactor.material_type r)
                               (EmissionFactor.material_type r') = true
  | None => existsb (contains_input input) (Database.emission_factors db)
            = false
  end.
Proof.
  intro H. unfold Database.get_factor_like.
  rewrite (filter_ext _ (contains_input input))
    by (intro r; apply LIKE_contains, H).
  set (before := fun a b : EmissionFactor.t =>
                   String.leb (EmissionFactor.material_type a)
                              (EmissionFactor.material_type b)).
  set (matches := filter (contains_input input) (Database.emission_factors db)).
  assert (Htot : forall x y, before x y = true \/ before y x = true)
    by (intros x y; apply String.leb_total).
  assert (Htr : forall x y z, before x y = true -> before y z = true ->
                              before x z = true)
    by (intros x y z; apply string_leb_trans).
  pose proof (stable_sort_head before Htot Htr matches) as Hh.
  pose proof (stable_sort_perm before matches) as Hp.
  destruct (stable_sort before matches) as [|h t]; cbn [hd_error].
  - apply filter_nil_existsb. exact Hh.
  - assert (Hin : In h matches).
    { eapply Permutation_in; [apply Permutation_sym, Hp | left; reflexivity]. }
    apply filter_In in Hin. destruct Hin as [Hin Hc].
    split; [exact Hin|]. split; [exact Hc|].
    intros r' Hr' Hc'. apply (Hh r'). apply filter_In. split; assumption.
Qed.





(** * Further properties of the code *)

(** ** Seeding of the emission factors *)

Lemma seed_fold_appends ds t :
  exists added, fold_left seed_step ds t = t ++ added /\ incl added ds.
Proof.
  revert t. induction ds as [|f ds IH]; intro t; cbn [fold_left].
  - exists []. rewrite app_nil_r. split; [reflexivity | apply incl_nil_l].
  - destruct (IH (seed_step t f)) as (added & E & I). rewrite E.
    unfold seed_step. destruct (existsb (same_factor f) t).
    + exists added. split; [reflexivity | apply incl_tl, I].
    + exists (f :: added). rewrite <- app_assoc. split; [reflexivity|].
      apply incl_cons; [left; reflexivity | apply incl_tl, I].
Qed.

Lemma same_factor_refl f : same_factor f f = true.
Proof. unfold same_factor. rewrite !String.eqb_refl. reflexivity. Qed.

Lemma seed_fold_covers ds t f :
  In f ds -> existsb (same_factor f) (fold_left seed_step ds t) = true.
Proof.
  revert t. induction ds as [|d ds IH]; intros t H; [destruct H|].
  cbn [fold_left]. destruct H as [<-|H]; [|apply IH, H].
  destruct (seed_fold_appends ds (seed_step t d)) as (added & E & _).
  rewrite E, existsb_app. apply orb_true_iff. left.
  unfold seed_step. destruct (existsb (same_factor d) t) eqn:X; [exact X|].
  rewrite existsb_app. cbn. rewrite same_factor_refl, orb_true_r. reflexivity.
Qed.

Lemma seed_fold_fixed ds t :
  (forall f, In f ds -> existsb (same_factor f) t = true) ->
  fold_left seed_step ds t = t.
Proof.
  induction ds as [|d ds IH]; intro H; cbn [fold_left]; [reflexivity|].
  replace (seed_step t d) with t
    by (unfold seed_step; rewrite (H d) by (left; reflexivity); reflexivity).
  apply IH. intros f Hf. apply H. right. exact Hf.
Qed.

(** X1: seeding an already seeded table changes nothing, whatever rows
    the table held before the first seeding. *)
Theorem seeding_is_idempotent (table : list EmissionFactor.t) :
  Database.insertDefaultEmissionFactors
    (Database.insertDefaultEmissionFactors table)
  = Database.insertDefaultEmissionFactors table.
Proof.
  change (fold_left seed_step Database.defaultFactors
            (fold_left seed_step Database.defaultFactors table)
          = fold_left seed_step Database.defaultFactors table).
  apply seed_fold_fixed. intros f Hf. apply seed_fold_covers, Hf.
Qed.

(** X2: seeding keeps every row of the table in place, appends seed
    rows only, and afterwards every seed row is represented by a row
    of its material type and category; a row the table already has for
    a seeded material and category keeps its own factors. *)
Theorem seeding_keeps_existing_rows (table : list EmissionFactor.t) :
  exists added,
    Database.insertDefaultEmissionFactors table = table ++ added
    /\ incl added Database.defaultFactors
    /\ (forall f, In f Database.defaultFactors ->
                  existsb (same_factor f)
                          (Database.insertDefaultEmissionFactors table) = true)
    /\ (forall f, In f added -> existsb (same_factor f) table = false).
Proof.
  change (Database.insertDefaultEmissionFactors table)
    with (fold_left seed_step Database.defaultFactors table).
  assert (G : forall ds t,
             exists added, fold_left seed_step ds t = t ++ added
                           /\ incl added ds
                           /\ forall f, In f added ->
                                        existsb (same_factor f) t = false).
  { induction ds as [|d ds IH]; intro t; cbn [fold_left].
    - exists []. rewrite app_nil_r. repeat split; [apply incl_nil_l|].
      intros f [].
    - destruct (IH (seed_step t d)) as (added & E & I & N). rewrite E.
      unfold seed_step in N |- *.
      destruct (existsb (same_factor d) t) eqn:X.
      + exists added. split; [reflexivity|].
        split; [apply incl_tl, I | exact N].
      + exists (d :: added). rewrite <- app_assoc.
        split; [reflexivity|]. split.
        * apply incl_cons; [left; reflexivity | apply incl_tl, I].
        * intros f [<-|Hf]; [exact X|].
          specialize (N f Hf). rewrite existsb_app in N.
          apply orb_false_iff in N. apply N. }
  destruct (G Database.defaultFactors table) as (added & E & I & N).
  exists added. split; [exact E|]. split; [exact I|]. split; [|exact N].
  intros f Hf. apply seed_fold_covers, Hf.
Qed.

(** ** Letter case in the lookups *)

(** X3: two spellings of a material type that differ only in the case
    of ASCII letters get the same emission factors, in [POST /calculate]
    and in [enrichMaterialData]. *)
Theorem lookup_ignores_case (db : Database.t) (a b : string) :
  Js.toLowerCase a = Js.toLowerCase b ->
  fst (Lca.lookup db a) = fst (Lca.lookup db b)
  /\ fst (fst (Data.lookup db a)) = fst (fst (Data.lookup db b)).
Proof.
  intro H. split.
  - unfold Lca.lookup, Database.get_factor_exact, Database.LOWER.
    rewrite H. destruct (find _ _); reflexivity.
  - unfold Data.lookup, Database.get_factor_exact, Database.get_factor_like,
      Database.LOWER.
    change ("%" ++ a ++ "%")%string with (String "%" (a ++ "%")).
    change ("%" ++ b ++ "%")%string with (String "%" (b ++ "%")).
    cbn [Js.toLowerCase]. rewrite !toLowerCase_app, H.
    destruct (find _ _); [reflexivity|].
    destruct (hd_error _); reflexivity.
Qed.

Lemma lookup_ignores_case_witness :
  fst (Lca.lookup (Database.seeded []) "STEEL")
  = fst (Lca.lookup (Database.seeded []) "steel")
  /\ fst (fst (Data.lookup (Database.seeded []) "STEEL"))
     = fst (fst (Data.lookup (Database.seeded []) "steel")).
Proof.
  apply (lookup_ignores_case (Database.seeded []) "STEEL" "steel").
  reflexivity.
Defined.

(** ** What a calculation does to the database *)

Lemma insert_materials_effect aid mb db :
  exists k,
    (k <= List.length mb)%nat
    /\ Database.emission_factors (snd (Lca.insert_materials aid mb db))
       = Database.emission_factors db
    /\ Database.lca_assessments (snd (Lca.insert_materials aid mb db))
       = Database.lca_assessments db
    /\ Database.assessment_materials (snd (Lca.insert_materials aid mb db))
       = Database.assessment_materials db
         ++ material_rows aid (Database.seq_materials db) (firstn k mb)
    /\ Database.seq_assessments (snd (Lca.insert_materials aid mb db))
       = Database.seq_assessments db
    /\ Database.seq_materials (snd (Lca.insert_materials aid mb db))
       = (Database.seq_materials db + Z.of_nat k)%Z
    /\ (fst (Lca.insert_materials aid mb db) = Database.Returned tt ->
        k = List.length mb).
Proof.
  revert db. induction mb as [|m mb IH]; intro db.
  - exists 0%nat. cbn. rewrite app_nil_r, Z.add_0_r. repeat split. lia.
  - cbn [Lca.insert_materials]. unfold Database.bind, Database.insert_material,
      Database.next_fault.
    destruct (Database.faults db) as [|f fs] eqn:F; [|destruct f].
    + match goal with
      | |- context [Lca.insert_materials aid mb ?d] =>
          destruct (IH d) as (k & Hk & E1 & E2 & E3 & E4 & E5 & R)
      end.
      exists (S k). rewrite E1, E2, E3, E4, E5.
      cbn [Database.emission_factors Database.lca_assessments
           Database.assessment_materials Database.seq_assessments
           Database.seq_materials firstn material_rows List.length].
      rewrite <- app_assoc. cbn [app].
      repeat split; try lia. intro H. f_equal. apply R, H.
    + exists 0%nat. cbn. rewrite app_nil_r, Z.add_0_r. repeat split; try lia.
      discriminate.
    + match goal with
      | |- context [Lca.insert_materials aid mb ?d] =>
          destruct (IH d) as (k & Hk & E1 & E2 & E3 & E4 & E5 & R)
      end.
      exists (S k). rewrite E1, E2, E3, E4, E5.
      cbn [Database.emission_factors Database.lca_assessments
           Database.assessment_materials Database.seq_assessments
           Database.seq_materials firstn material_rows List.length].
      rewrite <- app_assoc. cbn [app].
      repeat split; try lia. intro H. f_equal. apply R, H.
Qed.

Lemma save_effect name desc acc mb db :
  exists a k,
    (k <= List.length mb)%nat
    /\ Database.emission_factors (snd (Lca.save name desc acc mb db))
       = Database.emission_factors db
    /\ Database.lca_assessments (snd (Lca.save name desc acc mb db))
       = Database.lca_assessments db ++ a
    /\ (a = []
        \/ a = [AssessmentRow.mk (Database.seq_assessments db + 1)
                  (Js.str_or name EmptyString) (Js.str_or desc EmptyString)
                  (Lca.totalCO2 acc) (Lca.totalEnergy acc)
                  (Lca.totalMaterials acc)])
    /\ Database.seq_assessments (snd (Lca.save name desc acc mb db))
       = (Database.seq_assessments db + Z.of_nat (List.length a))%Z
    /\ Database.assessment_materials (snd (Lca.save name desc acc mb db))
       = Database.assessment_materials db
         ++ material_rows (Database.seq_assessments db + 1)
              (Database.seq_materials db) (firstn k mb)
    /\ Database.seq_materials (snd (Lca.save name desc acc mb db))
       = (Database.seq_materials db + Z.of_nat k)%Z
    /\ (a = [] -> k = 0%nat)
    /\ (Js.truthy_str name = false -> Lca.save name desc acc mb db
                                      = ((None, []), db))
    /\ (Js.truthy_str name = true ->
        throws_within (S (List.length mb)) db = false ->
        a <> [] /\ k = List.length mb).
Proof.
  unfold Lca.save. destruct (Js.truthy_str name) eqn:Hn.
  - unfold Database.insert_assessment, Database.next_fault, throws_within.
    destruct (Database.faults db) as [|f fs] eqn:F; [|destruct f].
    + match goal with
      | |- context [Lca.insert_materials ?i mb ?d] =>
          destruct (insert_materials_effect i mb d)
            as (k & Hk & E1 & E2 & E3 & E4 & E5 & R);
          pose proof (insert_materials_outcome i mb d) as O;
          destruct (Lca.insert_materials i mb d) as [[u|] d2]
      end; cbn [fst snd] in *; eexists [_]; exists k;
        rewrite E1, E2, E3, E4, E5;
        cbn [Database.emission_factors Database.lca_assessments
             Database.assessment_materials Database.seq_assessments
             Database.seq_materials List.length];
        (split; [exact Hk|]); (split; [reflexivity|]);
        (split; [reflexivity|]); (split; [right; reflexivity|]);
        (split; [lia|]); (split; [reflexivity|]); (split; [reflexivity|]);
        (split; [discriminate|]); (split; [discriminate|]); intros _ _.
      * destruct u. split; [discriminate | apply R; reflexivity].
      * unfold throws_within in O. cbn [Database.faults] in O.
        rewrite F, firstn_nil in O. discriminate.
    + exists [], 0%nat. cbn [snd Database.emission_factors
        Database.lca_assessments Database.assessment_materials
        Database.seq_assessments Database.seq_materials List.length firstn
        material_rows].
      rewrite !app_nil_r, !Z.add_0_r.
      split; [lia|]. split; [reflexivity|]. split; [reflexivity|].
      split; [left; reflexivity|]. split; [lia|]. split; [reflexivity|].
      split; [reflexivity|]. split; [reflexivity|]. split; [discriminate|].
      intros _ X. cbn in X. discriminate X.
    + match goal with
      | |- context [Lca.insert_materials ?i mb ?d] =>
          destruct (insert_materials_effect i mb d)
            as (k & Hk & E1 & E2 & E3 & E4 & E5 & R);
          pose proof (insert_materials_outcome i mb d) as O;
          destruct (Lca.insert_materials i mb d) as [[u|] d2]
      end; cbn [fst snd] in *; eexists [_]; exists k;
        rewrite E1, E2, E3, E4, E5;
        cbn [Database.emission_factors Database.lca_assessments
             Database.assessment_materials Database.seq_assessments
             Database.seq_materials List.length];
        (split; [exact Hk|]); (split; [reflexivity|]);
        (split; [reflexivity|]); (split; [right; reflexivity|]);
        (split; [lia|]); (split; [reflexivity|]); (split; [reflexivity|]);
        (split; [discriminate|]); (split; [discriminate|]); intros _ H.
      * destruct u. split; [discriminate | apply R; reflexivity].
      * unfold throws_within in O. cbn [Database.faults] in O.
        cbn [firstn existsb orb] in H. rewrite H in O. discriminate.
  - exists [], 0%nat. cbn [snd List.length firstn material_rows].
    rewrite !app_nil_r, !Z.add_0_r.
    split; [lia|]. split; [reflexivity|]. split; [reflexivity|].
    split; [left; reflexivity|]. split; [lia|]. split; [reflexivity|].
    split; [reflexivity|]. split; [reflexivity|]. split; [reflexivity|].
    discriminate.
Qed.

Lemma no_throw_first n db :
  throws_within (S n) db = false -> first_write_throws db = false.
Proof.
  unfold throws_within, first_write_throws.
  destruct (Database.faults db) as [|f fs]; [reflexivity|].
  cbn. intro H. apply orb_false_iff in H. apply H.
Qed.

(** X4: a request whose [materials] is missing or empty is answered
    with status 400 and leaves the database as it is; status 200 is
    given to a non-empty array only, and reports the number of
    materials of the array. *)
Theorem calculate_status (req : Lca.Request) (db : Database.t) :
  ((Lca.materials req = None \/ Lca.materials req = Some []) ->
   Lca.calculate req db = (Lca.Status400 "Materials array is required", db))
  /\ (forall r,
        fst (Lca.calculate req db) = Lca.Status200 r ->
        exists m ms,
          Lca.materials req = Some (m :: ms)
          /\ Summary.material_count (AssessmentResult.summary r)
             = S (List.length ms)).
Proof.
  destruct (Lca.materials req) as [[|m ms]|] eqn:Hm.
  - split.
    + intros _. unfold Lca.calculate. rewrite Hm. reflexivity.
    + intros r H. unfold Lca.calculate in H. rewrite Hm in H. discriminate H.
  - split.
    + intros [H|H]; discriminate H.
    + intros r H.
      rewrite (calculate_200 req db (m :: ms) Hm) in H by discriminate.
      cbn [fst] in H. injection H as <-. exists m, ms. split; reflexivity.
  - split.
    + intros _. unfold Lca.calculate. rewrite Hm. reflexivity.
    + intros r H. unfold Lca.calculate in H. rewrite Hm in H. discriminate H.
Qed.

Lemma calculate_database req db :
  snd (Lca.calculate req db) = db
  \/ exists ms,
      Lca.materials req = Some ms /\ ms <> []
      /\ snd (Lca.calculate req db)
         = snd (Lca.save (Lca.assessment_name req) (Lca.description req)
                  (Lca.loop db ms)
                  (stable_sort Lca.by_total_impact_desc (map (enrich db) ms))
                  db).
Proof.
  destruct (Lca.materials req) as [[|m ms]|] eqn:Hm.
  - left. unfold Lca.calculate. rewrite Hm. reflexivity.
  - right. exists (m :: ms). split; [reflexivity|]. split; [discriminate|].
    rewrite (calculate_200 req db (m :: ms) Hm) by discriminate. reflexivity.
  - left. unfold Lca.calculate. rewrite Hm. reflexivity.
Qed.

(** X5: a calculation only ever appends to the database: the emission
    factors are untouched, the rows of the two assessment tables stay
    in place with at most one assessment row added, material rows are
    added only together with an assessment row, and a calculation
    without a name writes nothing at all. *)
Theorem calculation_only_appends (req : Lca.Request) (db : Database.t) :
  let db' := snd (Lca.calculate req db) in
  Database.emission_factors db' = Database.emission_factors db
  /\ (exists a m,
        Database.lca_assessments db' = Database.lca_assessments db ++ a
        /\ Database.assessment_materials db'
           = Database.assessment_materials db ++ m
        /\ (List.length a <= 1)%nat
        /\ (a = [] -> m = []))
  /\ (Js.truthy_str (Lca.assessment_name req) = false -> db' = db).
Proof.
  cbv zeta. destruct (calculate_database req db) as [E|(ms & Hm & Hne & E)];
    rewrite E.
  - split; [reflexivity|]. split; [|reflexivity].
    exists [], []. rewrite !app_nil_r. repeat split. cbn. lia.
  - destruct (save_effect (Lca.assessment_name req) (Lca.description req)
                (Lca.loop db ms)
                (stable_sort Lca.by_total_impact_desc (map (enrich db) ms)) db)
      as (a & k & Hk & E1 & E2 & Ha & E3 & E4 & E5 & Hz & Hf & _).
    split; [exact E1|]. split.
    + exists a. eexists. split; [exact E2|]. split; [exact E4|]. split.
      * destruct Ha as [->| ->]; cbn; lia.
      * intro H. rewrite (Hz H). reflexivity.
    + intro H. rewrite (Hf H). reflexivity.
Qed.

(** X6: when a named calculation performs all its writes, the response
    carries the id of the new assessment row, which stores the name,
    the description and the totals before rounding; the material rows
    written are those of the response's [material_breakdown], in its
    order, all under that id; and no persistence warning is added. *)
Theorem named_calculation_is_persisted req db ms :
  Lca.materials req = Some ms -> ms <> [] ->
  Js.truthy_str (Lca.assessment_name req) = true ->
  throws_within (S (List.length ms)) db = false ->
  exists r db',
    Lca.calculate req db = (Lca.Status200 r, db')
    /\ AssessmentResult.assessment_id r
       = Some (Database.seq_assessments db + 1)%Z
    /\ AssessmentResult.warnings r = Lca.warnings (Lca.loop db ms)
    /\ Database.lca_assessments db'
       = Database.lca_assessments db ++ [assessment_row req db ms]
    /\ Database.assessment_materials db'
       = Database.assessment_materials db
         ++ material_rows (Database.seq_assessments db + 1)
              (Database.seq_materials db)
              (AssessmentResult.material_breakdown r).
Proof.
  intros Hm Hne Hn Ht. rewrite (calculate_200 req db ms Hm Hne).
  do 2 eexists. split; [reflexivity|].
  cbn [AssessmentResult.assessment_id AssessmentResult.warnings
       AssessmentResult.material_breakdown].
  set (mb := stable_sort Lca.by_total_impact_desc (map (enrich db) ms)).
  assert (L : List.length mb = List.length ms)
    by (unfold mb; rewrite stable_sort_length, length_map; reflexivity).
  rewrite (save_outcome _ _ _ _ _ Hn), L, Ht, (no_throw_first _ _ Ht).
  destruct (save_effect (Lca.assessment_name req) (Lca.description req)
              (Lca.loop db ms) mb db)
    as (a & k & Hk & E1 & E2 & Ha & E3 & E4 & E5 & Hz & Hf & Hs).
  rewrite L in Hs. destruct (Hs Hn Ht) as [Hane Hkl].
  destruct Ha as [->|Ha]; [contradiction|]. subst a.
  cbn [fst snd]. rewrite app_nil_r.
  split; [reflexivity|]. split; [reflexivity|]. split; [exact E2|].
  rewrite E4, Hkl, <- L, firstn_all. reflexivity.
Qed.

Lemma named_calculation_is_persisted_witness :
  exists r db',
    Lca.calculate (named [steel_100]) (Database.seeded [])
    = (Lca.Status200 r, db')
    /\ AssessmentResult.assessment_id r
       = Some (Database.seq_assessments (Database.seeded []) + 1)%Z
    /\ AssessmentResult.warnings r
       = Lca.warnings (Lca.loop (Database.seeded []) [steel_100])
    /\ Database.lca_assessments db'
       = Database.lca_assessments (Database.seeded [])
         ++ [assessment_row (named [steel_100]) (Database.seeded [])
               [steel_100]]
    /\ Database.assessment_materials db'
       = Database.assessment_materials (Database.seeded [])
         ++ material_rows (Database.seq_assessments (Database.seeded []) + 1)
              (Database.seq_materials (Database.seeded []))
              (AssessmentResult.material_breakdown r).
Proof.
  apply (named_calculation_is_persisted (named [steel_100])
           (Database.seeded []) [steel_100]).
  - reflexivity.
  - discriminate.
  - reflexivity.
  - vm_compute. reflexivity.
Defined.

(** ** Reading and deleting assessments *)

Lemma material_rows_spec aid start mb :
  Forall (fun r => MaterialRow.assessment_id r = aid
                   /\ (start < MaterialRow.id r
                       <= start + Z.of_nat (List.length mb))%Z)
         (material_rows aid start mb).
Proof.
  revert start. induction mb as [|m mb IH]; intro start; cbn [material_rows].
  - constructor.
  - constructor.
    + cbn [MaterialRow.assessment_id MaterialRow.id List.length]. lia.
    + eapply Forall_impl; [|apply (IH (start + 1)%Z)].
      cbn [List.length]. intros r [E B]. split; [exact E | lia].
Qed.

Lemma material_rows_nodup aid start mb :
  NoDup (map MaterialRow.id (material_rows aid start mb)).
Proof.
  revert start.
  induction mb as [|m mb IH]; intro start; cbn [material_rows map].
  - constructor.
  - constructor; [|apply IH]. cbn [MaterialRow.id]. intro H.
    apply in_map_iff in H. destruct H as (r & E & Hr).
    pose proof (material_rows_spec aid (start + 1) mb) as S.
    rewrite Forall_forall in S. specialize (S r Hr). lia.
Qed.

Lemma find_none_app {A} (p : A -> bool) (l : list A) (y : A) :
  (forall x, In x l -> p x = false) ->
  find p (l ++ [y]) = if p y then Some y else None.
Proof.
  induction l as [|x l IH]; intro H; cbn; [reflexivity|].
  rewrite (H x) by (left; reflexivity). apply IH.
  intros z Hz. apply H. right. exact Hz.
Qed.

Lemma filter_none {A} (p : A -> bool) (l : list A) :
  (forall x, In x l -> p x = false) -> filter p l = [].
Proof.
  induction l as [|x l IH]; intro H; cbn; [reflexivity|].
  rewrite (H x) by (left; reflexivity). apply IH.
  intros z Hz. apply H. right. exact Hz.
Qed.

Lemma filter_all {A} (p : A -> bool) (l : list A) :
  (forall x, In x l -> p x = true) -> filter p l = l.
Proof.
  induction l as [|x l IH]; intro H; cbn; [reflexivity|].
  rewrite (H x) by (left; reflexivity). f_equal. apply IH.
  intros z Hz. apply H. right. exact Hz.
Qed.

(** X7: on a well-formed database, the id a fully persisted named
    calculation returns reads back, through [GET /assessments/:id],
    the assessment row it wrote and exactly its material rows, one per
    entry of the response's [material_breakdown] and in its order. *)
Theorem calculate_then_get req db ms :
  well_formed db ->
  Lca.materials req = Some ms -> ms <> [] ->
  Js.truthy_str (Lca.assessment_name req) = true ->
  throws_within (S (List.length ms)) db = false ->
  exists r db' id,
    Lca.calculate req db = (Lca.Status200 r, db')
    /\ AssessmentResult.assessment_id r = Some id
    /\ Assessments.get id db'
       = Assessments.Get200 (assessment_row req db ms)
           (material_rows id (Database.seq_materials db)
              (AssessmentResult.material_breakdown r)).
Proof.
  intros (_ & Wa & _ & _ & Wm) Hm Hne Hn Ht.
  rewrite (calculate_200 req db ms Hm Hne).
  do 3 eexists. split; [reflexivity|].
  cbn [AssessmentResult.assessment_id AssessmentResult.material_breakdown].
  set (mb := stable_sort Lca.by_total_impact_desc (map (enrich db) ms)).
  assert (L : List.length mb = List.length ms)
    by (unfold mb; rewrite stable_sort_length, length_map; reflexivity).
  rewrite (save_outcome _ _ _ _ _ Hn), L, Ht, (no_throw_first _ _ Ht).
  split; [reflexivity|].
  destruct (save_effect (Lca.assessment_name req) (Lca.description req)
              (Lca.loop db ms) mb db)
    as (a & k & Hk & E1 & E2 & Ha & E3 & E4 & E5 & Hz & Hf & Hs).
  rewrite L in Hs. destruct (Hs Hn Ht) as [Hane Hkl].
  destruct Ha as [->|Ha]; [contradiction|]. subst a.
  unfold Assessments.get. cbn [snd]. rewrite E2, E4, Hkl, <- L, firstn_all.
  rewrite find_none_app.
  - cbn [AssessmentRow.id]. rewrite Z.eqb_refl. f_equal.
    rewrite filter_app, filter_none, filter_all; [reflexivity| |].
    + intros r Hr.
      pose proof (material_rows_spec (Database.seq_assessments db + 1)
                    (Database.seq_materials db) mb) as S.
      rewrite Forall_forall in S. destruct (S r Hr) as [-> _].
      apply Z.eqb_refl.
    + intros r Hr. rewrite Forall_forall in Wm. specialize (Wm r Hr).
      apply Z.eqb_neq. lia.
  - intros r Hr. rewrite Forall_forall in Wa. specialize (Wa r Hr).
    apply Z.eqb_neq. lia.
Qed.

Lemma seeded_well_formed script : well_formed (Database.seeded script).
Proof. repeat split; constructor. Qed.

Lemma calculate_then_get_witness :
  exists r db' id,
    Lca.calculate (named [steel_100]) (Database.seeded [])
    = (Lca.Status200 r, db')
    /\ AssessmentResult.assessment_id r = Some id
    /\ Assessments.get id db'
       = Assessments.Get200
           (assessment_row (named [steel_100]) (Database.seeded [])
              [steel_100])
           (material_rows id (Database.seq_materials (Database.seeded []))
              (AssessmentResult.material_breakdown r)).
Proof.
  apply (calculate_then_get (named [steel_100]) (Database.seeded [])
           [steel_100]).
  - apply seeded_well_formed.
  - reflexivity.
  - discriminate.
  - reflexivity.
  - vm_compute. reflexivity.
Defined.

Lemma nodup_map_filter {Row Key} (key : Row -> Key) (keep : Row -> bool)
    (rows : list Row) :
  NoDup (map key rows) -> NoDup (map key (filter keep rows)).
Proof.
  intro H. induction rows as [|x rows IH]; cbn; [constructor|].
  cbn in H. inversion H as [|y ys Hn Hd]; subst.
  destruct (keep x); [|apply IH, Hd]. cbn. constructor; [|apply IH, Hd].
  intro Hin. apply Hn. apply in_map_iff in Hin.
  destruct Hin as (z & E & Hz). apply in_map_iff. exists z.
  split; [exact E|]. apply filter_In in Hz. apply Hz.
Qed.

Lemma forall_filter {A} (P : A -> Prop) (p : A -> bool) (l : list A) :
  Forall P l -> Forall P (filter p l).
Proof.
  intro H. apply Forall_forall. intros x Hx. apply filter_In in Hx.
  rewrite Forall_forall in H. apply H, Hx.
Qed.

Lemma delete_effect id db :
  let db' := snd (Assessments.delete id db) in
  Database.emission_factors db' = Database.emission_factors db
  /\ Database.seq_assessments db' = Database.seq_assessments db
  /\ Database.seq_materials db' = Database.seq_materials db
  /\ Database.assessment_materials db'
     = (if first_write_throws db then Database.assessment_materials db
        else filter (fun r => negb (Z.eqb (MaterialRow.assessment_id r) id))
                    (Database.assessment_materials db))
  /\ Database.lca_assessments db'
     = (if throws_within 2 db then Database.lca_assessments db
        else filter (fun r => negb (Z.eqb (AssessmentRow.id r) id))
                    (Database.lca_assessments db))
  /\ fst (Assessments.delete id db)
     = (if throws_within 2 db
        then Assessments.Delete500 "Error deleting assessment"
        else Assessments.Delete200 "Assessment deleted successfully").
Proof.
  cbv zeta. unfold Assessments.delete, Database.bind,
    Assessments.delete_materials, Assessments.delete_assessment,
    Database.next_fault, first_write_throws, throws_within.
  destruct (Database.faults db) as [|f1 fs] eqn:F.
  - cbn. rewrite F. cbn. repeat split.
  - destruct f1; cbn; [repeat split|].
    destruct fs as [|f2 fs]; cbn; [repeat split|].
    destruct f2; cbn; repeat split.
Qed.

(** X8: calculations and deletions keep the database well-formed:
    the ids of each table stay pairwise distinct and below the
    AUTOINCREMENT counter, and every material row refers to an
    assessment id that was handed out, whichever writes throw. *)
Theorem well_formed_is_kept (db : Database.t) :
  well_formed db ->
  (forall req, well_formed (snd (Lca.calculate req db)))
  /\ (forall id, well_formed (snd (Assessments.delete id db))).
Proof.
  intros W. split.
  - intro req.
    destruct (calculate_database req db) as [E|(ms & Hm & Hne & E)];
      rewrite E; [exact W|].
    set (mb := stable_sort Lca.by_total_impact_desc (map (enrich db) ms)).
    destruct (save_effect (Lca.assessment_name req) (Lca.description req)
                (Lca.loop db ms) mb db)
      as (a & k & Hk & E1 & E2 & Ha & E3 & E4 & E5 & Hz & _ & _).
    destruct W as (N1 & B1 & N2 & B2 & B3).
    pose proof (material_rows_spec (Database.seq_assessments db + 1)
                  (Database.seq_materials db) (firstn k mb)) as S.
    assert (Lk : List.length (firstn k mb) = k)
      by (apply firstn_length_le, Hk).
    rewrite Lk in S. rewrite Forall_forall in S, B1, B2, B3.
    unfold well_formed. rewrite E2, E3, E4, E5.
    split; [|split; [|split; [|split]]].
    + rewrite map_app. apply NoDup_app; [exact N1| |].
      * destruct Ha as [->| ->]; cbn; repeat constructor. intros [].
      * intros i Hi Hi'. apply in_map_iff in Hi.
        destruct Hi as (r & <- & Hr). specialize (B1 r Hr).
        destruct Ha as [->| ->]; cbn in Hi'; [exact Hi'|].
        destruct Hi' as [Hi'|[]]. lia.
    + apply Forall_app. split.
      * apply Forall_forall. intros r Hr. specialize (B1 r Hr). lia.
      * destruct Ha as [->| ->]; repeat constructor.
        cbn [AssessmentRow.id List.length]. lia.
    + rewrite map_app. apply NoDup_app;
        [exact N2 | apply material_rows_nodup |].
      intros i Hi Hi'. apply in_map_iff in Hi, Hi'.
      destruct Hi as (r & <- & Hr). destruct Hi' as (r' & E' & Hr').
      specialize (B2 r Hr). specialize (S r' Hr'). lia.
    + apply Forall_app. split; apply Forall_forall; intros r Hr.
      * specialize (B2 r Hr). lia.
      * specialize (S r Hr). lia.
    + apply Forall_app. split; apply Forall_forall; intros r Hr.
      * specialize (B3 r Hr). lia.
      * destruct (S r Hr) as [-> _].
        destruct Ha as [->| ->]; cbn [List.length]; [|lia].
        rewrite (Hz eq_refl) in Hr. destruct Hr.
  - intro id.
    destruct (delete_effect id db) as (_ & E1 & E2 & E3 & E4 & _).
    destruct W as (N1 & B1 & N2 & B2 & B3).
    unfold well_formed. rewrite E1, E2, E3, E4.
    destruct (first_write_throws db), (throws_within 2 db);
      repeat split;
      first [assumption | apply nodup_map_filter; assumption
             | apply forall_filter; assumption].
Qed.

Lemma well_formed_is_kept_witness :
  well_formed
    (snd (Lca.calculate (named [steel_100]) (Database.seeded [false; true])))
  /\ well_formed (snd (Assessments.delete 1 (Database.seeded []))).
Proof.
  split.
  - apply (proj1 (well_formed_is_kept (Database.seeded [false; true])
                    (seeded_well_formed [false; true]))).
  - apply (proj2 (well_formed_is_kept (Database.seeded [])
                    (seeded_well_formed []))).
Defined.

Lemma find_filter_other {A} (p q : A -> bool) (l : list A) :
  (forall x, p x = true -> q x = true) ->
  find p (filter q l) = find p l.
Proof.
  intro H. induction l as [|x l IH]; cbn; [reflexivity|].
  destruct (q x) eqn:Q; cbn.
  - rewrite IH. reflexivity.
  - destruct (p x) eqn:P; [|exact IH]. rewrite (H x P) in Q. discriminate.
Qed.

Lemma filter_filter_other {A} (p q : A -> bool) (l : list A) :
  (forall x, p x = true -> q x = true) ->
  filter p (filter q l) = filter p l.
Proof.
  intro H. induction l as [|x l IH]; cbn; [reflexivity|].
  destruct (q x) eqn:Q; cbn.
  - rewrite IH. reflexivity.
  - destruct (p x) eqn:P; [|exact IH]. rewrite (H x P) in Q. discriminate.
Qed.

(** X9: when both writes of [DELETE /assessments/:id] succeed the
    answer is status 200, the id is no longer found, with or without
    having existed before, and every other assessment reads back as
    before, with the same material rows. *)
Theorem delete_then_get (id : Z) (db : Database.t) :
  throws_within 2 db = false ->
  let out := Assessments.delete id db in
  fst out = Assessments.Delete200 "Assessment deleted successfully"
  /\ Assessments.get id (snd out)
     = Assessments.Get404 "Assessment not found"
  /\ forall other, other <> id ->
       Assessments.get other (snd out) = Assessments.get other db.
Proof.
  intro Ht. cbv zeta.
  destruct (delete_effect id db) as (_ & _ & _ & E3 & E4 & E5).
  rewrite Ht in E4, E5. rewrite (no_throw_first _ _ Ht) in E3.
  split; [exact E5|]. unfold Assessments.get. rewrite E3, E4. split.
  - destruct (find _ _) as [a|] eqn:F; [|reflexivity].
    apply find_some in F. destruct F as [Hin Hid].
    apply filter_In in Hin. destruct Hin as [_ Hn].
    rewrite Hid in Hn. discriminate.
  - intros other Ho.
    rewrite find_filter_other, filter_filter_other; [reflexivity| |].
    + intros r Hr. apply Z.eqb_eq in Hr. apply negb_true_iff, Z.eqb_neq.
      congruence.
    + intros r Hr. apply Z.eqb_eq in Hr. apply negb_true_iff, Z.eqb_neq.
      congruence.
Qed.

Lemma delete_then_get_witness :
  let out := Assessments.delete 1 (Database.seeded []) in
  fst out = Assessments.Delete200 "Assessment deleted successfully"
  /\ Assessments.get 1 (snd out) = Assessments.Get404 "Assessment not found"
  /\ forall other, other <> 1%Z ->
       Assessments.get other (snd out)
       = Assessments.get other (Database.seeded []).
Proof.
  apply (delete_then_get 1 (Database.seeded [])). reflexivity.
Defined.

(** X10: when the delete of the material rows succeeds and the delete
    of the assessment row throws, the answer is status 500 and the
    assessment stays in the database without any material row: reading
    it back gives the assessment with an empty material list.  When the
    first delete throws, both tables are left as they were. *)
Theorem delete_failure_leaves_assessment (id : Z) (db : Database.t) :
  throws_within 2 db = true ->
  let out := Assessments.delete id db in
  fst out = Assessments.Delete500 "Error deleting assessment"
  /\ Database.lca_assessments (snd out) = Database.lca_assessments db
  /\ (first_write_throws db = true ->
      Database.assessment_materials (snd out)
      = Database.assessment_materials db)
  /\ (first_write_throws db = false ->
      forall a ms,
        Assessments.get id db = Assessments.Get200 a ms ->
        Assessments.get id (snd out) = Assessments.Get200 a []).
Proof.
  intro Ht. cbv zeta.
  destruct (delete_effect id db) as (_ & _ & _ & E3 & E4 & E5).
  rewrite Ht in E4, E5. split; [exact E5|]. split; [exact E4|]. split.
  - intro Hf. rewrite Hf in E3. exact E3.
  - intros Hf a ms G. rewrite Hf in E3. unfold Assessments.get in *.
    rewrite E3, E4. destruct (find _ _) as [a'|]; [|discriminate].
    injection G as -> _. f_equal. apply filter_none.
    intros r Hr. apply filter_In in Hr. destruct Hr as [_ Hn].
    apply negb_true_iff in Hn. exact Hn.
Qed.

Lemma delete_failure_leaves_assessment_witness :
  let db := snd (Lca.calculate (named [steel_100])
                   (Database.seeded [false; false; false; true])) in
  fst (Assessments.delete 1 db)
  = Assessments.Delete500 "Error deleting assessment"
  /\ exists a, Assessments.get 1 (snd (Assessments.delete 1 db))
               = Assessments.Get200 a [].
Proof.
  cbv zeta.
  destruct (delete_failure_leaves_assessment 1
              (snd (Lca.calculate (named [steel_100])
                      (Database.seeded [false; false; false; true]))))
    as (E & _ & _ & G).
  - vm_compute. reflexivity.
  - split; [exact E|]. eexists. eapply G.
    + vm_compute. reflexivity.
    + vm_compute. reflexivity.
Defined.

(** ** Monotonicity of scores and grades *)

(** X11: a higher overall score never gets a worse grade. *)
Theorem grade_is_monotone (s1 s2 : Q) :
  s1 <= s2 ->
  (grade_rank (Lca.getEnvironmentalGrade s1)
   <= grade_rank (Lca.getEnvironmentalGrade s2))%nat.
Proof.
  intro H. unfold Lca.getEnvironmentalGrade.
  repeat match goal with
    | |- context [Js.ge ?a ?b] =>
        let E := fresh "E" in
        destruct (Js.ge a b) eqn:E;
        [apply ge_iff in E | apply ge_false_iff in E]
    end;
  cbn; try lia; exfalso; lra.
Qed.

Lemma grade_is_monotone_witness :
  (grade_rank (Lca.getEnvironmentalGrade 59)
   <= grade_rank (Lca.getEnvironmentalGrade 90))%nat.
Proof. apply (grade_is_monotone 59 90). lra. Defined.

Lemma max_mono (a b b' : Q) : b <= b' -> Js.max a b <= Js.max a b'.
Proof.
  intro H. unfold Js.max.
  destruct (Qle_bool a b) eqn:E1, (Qle_bool a b') eqn:E2;
    try apply Qle_bool_iff in E1; try apply Qle_bool_iff in E2;
    try apply Qle_bool_false_lt in E1; try apply Qle_bool_false_lt in E2;
    lra.
Qed.

Lemma div_mono (x y c : Q) : 0 < c -> x <= y -> x / c <= y / c.
Proof.
  intros Hc H. unfold Qdiv. apply Qmult_le_compat_r; [exact H|].
  apply Qlt_le_weak, Qinv_lt_0_compat, Hc.
Qed.

Lemma round_mono (x y : Q) : x <= y -> (Js.round x <= Js.round y)%Z.
Proof. intro H. unfold Js.round. apply Qfloor_resp_le. lra. Qed.

(** X12: larger totals never give better scores: if none of the three
    totals decreases, none of the four reported scores increases and
    the grade does not improve. *)
Theorem scores_are_antitone (co2 energy materials co2' energy' materials' : Q) :
  co2 <= co2' -> energy <= energy' -> materials <= materials' ->
  let s := Lca.calculateEnvironmentalScores co2 energy materials in
  let s' := Lca.calculateEnvironmentalScores co2' energy' materials' in
  (Scores.co2 s' <= Scores.co2 s)%Z
  /\ (Scores.energy s' <= Scores.energy s)%Z
  /\ (Scores.materials s' <= Scores.materials s)%Z
  /\ (Scores.overall s' <= Scores.overall s)%Z
  /\ (grade_rank (Scores.grade s') <= grade_rank (Scores.grade s))%nat.
Proof.
  intros Hc He Hm. cbv zeta. unfold Lca.calculateEnvironmentalScores.
  cbn [Scores.co2 Scores.energy Scores.materials Scores.overall Scores.grade].
  assert (C : Lca.co2Score co2' <= Lca.co2Score co2).
  { unfold Lca.co2Score. apply max_mono.
    pose proof (div_mono co2 co2' 10 ltac:(lra) Hc). lra. }
  assert (E : Lca.energyScore energy' <= Lca.energyScore energy).
  { unfold Lca.energyScore. apply max_mono.
    pose proof (div_mono energy energy' 100 ltac:(lra) He). lra. }
  assert (M : Lca.materialScore materials' <= Lca.materialScore materials).
  { unfold Lca.materialScore. apply max_mono.
    pose proof (div_mono materials materials' 50 ltac:(lra) Hm). lra. }
  assert (O : Lca.overallScore co2' energy' materials'
              <= Lca.overallScore co2 energy materials).
  { unfold Lca.overallScore. apply div_mono; lra. }
  split; [apply round_mono, C|]. split; [apply round_mono, E|].
  split; [apply round_mono, M|]. split; [apply round_mono, O|].
  revert O.
  generalize (Lca.overallScore co2' energy' materials') as s1.
  generalize (Lca.overallScore co2 energy materials) as s2.
  intros s2 s1 H. unfold Lca.getEnvironmentalGrade.
  repeat match goal with
    | |- context [Js.ge ?a ?b] =>
        let E := fresh "E" in
        destruct (Js.ge a b) eqn:E;
        [apply ge_iff in E | apply ge_false_iff in E]
    end;
  cbn; try lia; exfalso; lra.
Qed.

Lemma scores_are_antitone_witness :
  (Scores.overall (Lca.calculateEnvironmentalScores 500 2000 300)
   <= Scores.overall (Lca.calculateEnvironmentalScores 100 2000 300))%Z.
Proof.
  apply (scores_are_antitone 100 2000 300 500 2000 300); lra.
Defined.

(** ** Warnings for unknown materials *)

Lemma find_none_existsb {A} (p : A -> bool) (l : list A) :
  find p l = None <-> existsb p l = false.
Proof.
  induction l as [|x l IH]; cbn; [tauto|].
  destruct (p x); cbn; [split; discriminate | exact IH].
Qed.

Lemma step_warnings db acc m :
  Lca.warnings (Lca.step db acc m)
  = Lca.warnings acc ++ (if is_unknown db m then [unknown_warning m] else []).
Proof.
  unfold Lca.step, Lca.lookup, Database.get_factor_exact, is_unknown,
    unknown_warning.
  change (fun r => String.eqb
                     (Database.LOWER (EmissionFactor.material_type r))
                     (Database.LOWER (MaterialInput.material_type m)))
    with (exact_match (MaterialInput.material_type m)).
  destruct (find _ _) eqn:F.
  - destruct (existsb _ _) eqn:X; [reflexivity|].
    apply find_none_existsb in X. congruence.
  - apply find_none_existsb in F. rewrite F. reflexivity.
Qed.

Lemma fold_warnings db ms acc :
  Lca.warnings (fold_left (Lca.step db) ms acc)
  = Lca.warnings acc ++ map unknown_warning (filter (is_unknown db) ms).
Proof.
  revert acc. induction ms as [|m ms IH]; intro acc; cbn [fold_left filter].
  - cbn. rewrite app_nil_r. reflexivity.
  - rewrite IH, step_warnings, <- app_assoc.
    destruct (is_unknown db m); reflexivity.
Qed.

(** X13: the warnings of a calculation are one "Unknown material"
    warning for each material whose type has no case-insensitive equal
    in the factor table, in input order, followed by nothing else or by
    the one persistence warning; each such material is entered under
    the category Unknown with a CO2 impact equal to its quantity. *)
Theorem unknown_materials_are_warned req db ms :
  Lca.materials req = Some ms -> ms <> [] ->
  exists r tail,
    result_of (fst (Lca.calculate req db)) = Some r
    /\ AssessmentResult.warnings r
       = map unknown_warning (filter (is_unknown db) ms) ++ tail
    /\ (tail = [] \/ tail = [Lca.not_saved])
    /\ (Js.truthy_str (Lca.assessment_name req) = false -> tail = [])
    /\ forall m, In m ms -> is_unknown db m = true ->
         MaterialImpact.category (enrich db m) = "Unknown"%string
         /\ MaterialImpact.co2_impact (enrich db m)
            == Js.parseFloat_or_0 (MaterialInput.quantity m).
Proof.
  intros Hm Hne. rewrite (calculate_200 req db ms Hm Hne).
  do 2 eexists. split; [reflexivity|].
  cbn [AssessmentResult.warnings]. unfold Lca.loop. rewrite fold_warnings.
  cbn [Lca.warnings Lca.start app]. split; [reflexivity|].
  split; [|split].
  - unfold Lca.save. destruct (Js.truthy_str _); [|left; reflexivity].
    destruct (Database.insert_assessment _ _ _ _ _ _) as [[id|] d1];
      [|right; reflexivity].
    destruct (Lca.insert_materials _ _ _) as [[u|] d2];
      [left | right]; reflexivity.
  - intro Hn. unfold Lca.save. rewrite Hn. reflexivity.
  - intros m _ Hu. unfold is_unknown in Hu. apply negb_true_iff in Hu.
    apply find_none_existsb in Hu.
    unfold enrich, Lca.lookup, Database.get_factor_exact.
    change (fun r => String.eqb
                       (Database.LOWER (EmissionFactor.material_type r))
                       (Database.LOWER (MaterialInput.material_type m)))
      with (exact_match (MaterialInput.material_type m)).
    rewrite Hu. cbn. split; [reflexivity | ring].
Qed.

Lemma unknown_materials_are_warned_witness :
  exists r tail,
    result_of (fst (Lca.calculate
                      (unnamed [material "Unobtainium" 10 0 0])
                      (Database.seeded []))) = Some r
    /\ AssessmentResult.warnings r
       = map unknown_warning
           (filter (is_unknown (Database.seeded []))
                   [material "Unobtainium" 10 0 0]) ++ tail
    /\ tail = [].
Proof.
  destruct (unknown_materials_are_warned
              (unnamed [material "Unobtainium" 10 0 0])
              (Database.seeded []) [material "Unobtainium" 10 0 0])
    as (r & tail & Hr & W & _ & T & _).
  - reflexivity.
  - discriminate.
  - exists r, tail. split; [exact Hr|]. split; [exact W|].
    apply T. reflexivity.
Defined.

(** ** The category rollup *)

(** X14: the category breakdown groups the materials: the reported
    categories are pairwise distinct, every material's category is
    reported, and the entry of a category counts exactly the materials
    of that category and carries the running totals of their CO2
    impacts, energy impacts and quantities, accumulated in input
    order. *)
Theorem category_breakdown_groups req db ms :
  Lca.materials req = Some ms -> ms <> [] ->
  exists r,
    result_of (fst (Lca.calculate req db)) = Some r
    /\ let enriched := map (enrich db) ms in
       let cs := AssessmentResult.category_breakdown r in
       Permutation enriched (AssessmentResult.material_breakdown r)
       /\ NoDup (map CategoryAggregate.category cs)
       /\ (forall m, In m (AssessmentResult.material_breakdown r) ->
             In (MaterialImpact.category m)
                (map CategoryAggregate.category cs))
       /\ forall c, In c cs ->
            aggregates
              (CategoryData.mk (CategoryAggregate.co2 c)
                 (CategoryAggregate.energy c) (CategoryAggregate.materials c)
                 (CategoryAggregate.count c))
              (filter (in_category (CategoryAggregate.category c)) enriched).
Proof.
  intros Hm Hne. rewrite (calculate_200 req db ms Hm Hne).
  eexists. split; [reflexivity|].
  cbn [AssessmentResult.material_breakdown AssessmentResult.category_breakdown].
  set (total := Lca.totalCO2 (Lca.loop db ms)).
  set (cb := Lca.categoryBreakdown (Lca.loop db ms)).
  destruct (loop_grouped db ms) as [N G]. fold cb in N, G.
  assert (K : map CategoryAggregate.category (map (Lca.category_entry total) cb)
              = map fst cb).
  { rewrite map_map. apply map_ext. intros [k d]. reflexivity. }
  pose proof (stable_sort_perm Lca.by_total_impact_desc (map (enrich db) ms))
    as P.
  cbv zeta. rewrite K. split; [exact P|]. split; [exact N|]. split.
  - intros m Hin.
    assert (Hin' : In m (map (enrich db) ms))
      by (eapply Permutation_in; [apply Permutation_sym, P | exact Hin]).
    specialize (G (MaterialImpact.category m)).
    destruct (assoc (MaterialImpact.category m) cb) as [d|] eqn:A.
    + eapply assoc_some_in, A.
    + assert (X : In m (filter (in_category (MaterialImpact.category m))
                               (map (enrich db) ms))).
      { apply filter_In. split; [exact Hin' | apply String.eqb_refl]. }
      rewrite G in X. destruct X.
  - intros c Hc. apply in_map_iff in Hc. destruct Hc as ([k d] & <- & Hin).
    cbn [Lca.category_entry CategoryAggregate.co2 CategoryAggregate.energy
         CategoryAggregate.materials CategoryAggregate.count
         CategoryAggregate.category].
    specialize (G k). rewrite (assoc_in cb k d N Hin) in G.
    destruct d. exact G.
Qed.

Lemma category_breakdown_groups_witness :
  exists r,
    result_of (fst (Lca.calculate (unnamed inputs_a) (Database.seeded [])))
    = Some r
    /\ NoDup (map CategoryAggregate.category
                  (AssessmentResult.category_breakdown r))
    /\ map CategoryAggregate.count (AssessmentResult.category_breakdown r)
       = [3%nat].
Proof.
  destruct (category_breakdown_groups (unnamed inputs_a) (Database.seeded [])
              inputs_a) as (r & Hr & _ & N & _).
  - reflexivity.
  - discriminate.
  - exists r. split; [exact Hr|]. split; [exact N|].
    vm_compute in Hr. injection Hr as <-. reflexivity.
Defined.

(** ** Which material the recommendations name *)

Lemma sorted_head_is_first_max {A} (key : A -> Q) (l : list A) h t :
  stable_sort (descending key) l = h :: t ->
  exists pre post,
    l = pre ++ h :: post
    /\ (forall y, In y pre -> key y < key h)
    /\ (forall y, In y post -> key y <= key h).
Proof.
  revert h t. induction l as [|x xs IH]; intros h t H; [discriminate|].
  cbn [stable_sort] in H.
  destruct (stable_sort (descending key) xs) as [|h' t'] eqn:S.
  - cbn in H. injection H as <- <-.
    assert (X : xs = []).
    { pose proof (stable_sort_length (descending key) xs) as L.
      rewrite S in L. destruct xs; [reflexivity | discriminate]. }
    subst xs. exists [], []. split; [reflexivity|]. split; intros y [].
  - destruct (IH h' t' eq_refl) as (pre & post & E & Hpre & Hpost).
    cbn [insert] in H. destruct (descending key x h') eqn:D.
    + injection H as <- <-. unfold descending in D. apply Qle_bool_iff in D.
      exists [], xs. split; [reflexivity|]. split; [intros y []|].
      intros y Hy. rewrite E in Hy. apply in_app_or in Hy.
      destruct Hy as [Hy|[<-|Hy]].
      * specialize (Hpre y Hy). lra.
      * lra.
      * specialize (Hpost y Hy). lra.
    + injection H as <- <-. unfold descending in D.
      apply Qle_bool_false_lt in D.
      exists (x :: pre), post. split; [rewrite E; reflexivity|].
      split; [|exact Hpost].
      intros y [<-|Hy]; [lra | apply Hpre, Hy].
Qed.

(** X15: when some material has a total impact above 100, the first
    recommendation is the [high_impact] one and it names the material
    with the highest total impact, the earliest in input order when
    several share it. *)
Theorem high_impact_names_first_maximum
    (mb : list MaterialImpact.t) (cb : list (string * CategoryData.t)) :
  high_impact_fires mb = true ->
  exists pre h post,
    mb = pre ++ h :: post
    /\ (forall y, In y pre ->
          MaterialImpact.total_impact y < MaterialImpact.total_impact h)
    /\ (forall y, In y post ->
          MaterialImpact.total_impact y <= MaterialImpact.total_impact h)
    /\ option_map
         (fun rec => (Recommendation.type rec, Recommendation.title rec))
         (hd_error (fst (Lca.generateRecommendations mb cb)))
       = Some ("high_impact",
               "Optimize " ++ MaterialImpact.material_type h ++ " usage")%string.
Proof.
  intro F. unfold high_impact_fires in F.
  rewrite <- (head_exceeds MaterialImpact.total_impact 100 mb) in F.
  change (descending MaterialImpact.total_impact)
    with Lca.by_total_impact_desc in F.
  unfold Lca.generateRecommendations. cbv zeta. cbn [fst].
  destruct (stable_sort Lca.by_total_impact_desc mb) as [|h t] eqn:S;
    [discriminate|].
  destruct (sorted_head_is_first_max MaterialImpact.total_impact mb h t S)
    as (pre & post & E & Hpre & Hpost).
  exists pre, h, post. split; [exact E|]. split; [exact Hpre|].
  split; [exact Hpost|]. rewrite F. reflexivity.
Qed.

Lemma high_impact_names_first_maximum_witness :
  exists pre h post,
    [enrich (Database.seeded []) concrete_1;
     enrich (Database.seeded []) steel_100] = pre ++ h :: post
    /\ (forall y, In y pre ->
          MaterialImpact.total_impact y < MaterialImpact.total_impact h)
    /\ (forall y, In y post ->
          MaterialImpact.total_impact y <= MaterialImpact.total_impact h)
    /\ option_map
         (fun rec => (Recommendation.type rec, Recommendation.title rec))
         (hd_error (fst (Lca.generateRecommendations
                           [enrich (Database.seeded []) concrete_1;
                            enrich (Database.seeded []) steel_100] [])))
       = Some ("high_impact",
               "Optimize " ++ MaterialImpact.material_type h ++ " usage")%string.
Proof.
  apply (high_impact_names_first_maximum
           [enrich (Database.seeded []) concrete_1;
            enrich (Database.seeded []) steel_100] []).
  vm_compute. reflexivity.
Defined.

Lemma fold_higher_is_last_max (rest : list MaterialImpact.t) first :
  exists pre post,
    first :: rest = pre ++ fold_left AiRoutes.higher rest first :: post
    /\ (forall y, In y pre ->
          MaterialImpact.total_impact y
          <= MaterialImpact.total_impact
               (fold_left AiRoutes.higher rest first))
    /\ (forall y, In y post ->
          MaterialImpact.total_impact y
          < MaterialImpact.total_impact
              (fold_left AiRoutes.higher rest first)).
Proof.
  induction rest as [|x rest IH] using rev_ind.
  - exists [], []. split; [reflexivity|]. split; intros y [].
  - destruct IH as (pre & post & E & Hpre & Hpost).
    rewrite fold_left_app. cbn [fold_left].
    set (h := fold_left AiRoutes.higher rest first) in *.
    assert (C : AiRoutes.higher h x = h
                /\ MaterialImpact.total_impact x < MaterialImpact.total_impact h
                \/ AiRoutes.higher h x = x
                   /\ MaterialImpact.total_impact h
                      <= MaterialImpact.total_impact x).
    { unfold AiRoutes.higher.
      destruct (Js.gt (MaterialImpact.total_impact h)
                      (MaterialImpact.total_impact x)) eqn:G.
      - left. split; [reflexivity | apply gt_iff, G].
      - right. split; [reflexivity|]. unfold Js.gt in G.
        apply negb_false_iff, Qle_bool_iff in G. exact G. }
    destruct C as [[-> G]|[-> G]].
    + exists pre, (post ++ [x]).
      split; [|split; [exact Hpre|]].
      * rewrite app_comm_cons, E, <- app_assoc. reflexivity.
      * intros y Hy. apply in_app_or in Hy.
        destruct Hy as [Hy|[<-|[]]]; [apply Hpost, Hy | exact G].
    + exists (first :: rest), []. split; [|split; [|intros y []]].
      * rewrite app_comm_cons. reflexivity.
      * intros y Hy. rewrite E in Hy. apply in_app_or in Hy.
        destruct Hy as [Hy|[<-|Hy]].
        -- specialize (Hpre y Hy). lra.
        -- exact G.
        -- specialize (Hpost y Hy). lra.
Qed.

(** X16: for results with a summary and a non-empty material breakdown
    the rule-based recommendations of the AI route contain one
    [material_substitution] entry; it names a material with the highest
    total impact, the latest in the breakdown when several share it,
    unlike the recommendations of the calculation. *)
Theorem material_substitution_names_last_maximum
    (res : LcaResults.t) (s : Summary.t) (mb : list MaterialImpact.t) :
  LcaResults.summary res = Some s ->
  LcaResults.material_breakdown res = Some mb -> mb <> [] ->
  exists pre h post,
    mb = pre ++ h :: post
    /\ (forall y, In y pre ->
          MaterialImpact.total_impact y <= MaterialImpact.total_impact h)
    /\ (forall y, In y post ->
          MaterialImpact.total_impact y < MaterialImpact.total_impact h)
    /\ map BasicRecommendation.title
         (filter (fun rec => String.eqb (BasicRecommendation.type rec)
                                        "material_substitution")
                 (AiRoutes.generateBasicRecommendations res))
       = [("Optimize " ++ MaterialImpact.material_type h ++ " Usage")%string].
Proof.
  intros Hs Hmb Hne. destruct mb as [|first rest]; [contradiction|].
  destruct (fold_higher_is_last_max rest first)
    as (pre & post & E & Hpre & Hpost).
  exists pre, (fold_left AiRoutes.higher rest first), post.
  split; [exact E|]. split; [exact Hpre|]. split; [exact Hpost|].
  unfold AiRoutes.generateBasicRecommendations. rewrite Hs, Hmb. cbv zeta.
  destruct (AiRoutes.exceeds (LcaResults.total_co2_kg res) 100);
    destruct (AiRoutes.exceeds (LcaResults.total_energy_mj res) 1000);
    reflexivity.
Qed.

Lemma material_substitution_names_last_maximum_witness :
  let a := enrich (Database.seeded []) steel_100 in
  let res := LcaResults.mk (Some (Summary.mk 0 0 0 2)) None None
                           (Some [a; a]) in
  exists pre h post,
    [a; a] = pre ++ h :: post
    /\ (forall y, In y pre ->
          MaterialImpact.total_impact y <= MaterialImpact.total_impact h)
    /\ (forall y, In y post ->
          MaterialImpact.total_impact y < MaterialImpact.total_impact h)
    /\ map BasicRecommendation.title
         (filter (fun rec => String.eqb (BasicRecommendation.type rec)
                                        "material_substitution")
                 (AiRoutes.generateBasicRecommendations res))
       = [("Optimize " ++ MaterialImpact.material_type h ++ " Usage")%string].
Proof.
  cbv zeta.
  apply (material_substitution_names_last_maximum _ (Summary.mk 0 0 0 2)).
  - reflexivity.
  - reflexivity.
  - discriminate.
Defined.

(** X17: when the response of a calculation is sent on as
    [lca_results] and the AI processor does not answer, the
    recommendations are exactly one [material_substitution] and one
    [general_sustainability] entry, whatever the totals: the carbon and
    energy rules read the totals at the top level of the results, where
    the response does not have them; the answer is not marked as a
    fallback and reports the confidence 0.85. *)
Theorem fallback_recommendations_of_a_response req db ms :
  Lca.materials req = Some ms -> ms <> [] ->
  exists r,
    result_of (fst (Lca.calculate req db)) = Some r
    /\ map BasicRecommendation.type
         (AiRoutes.generateBasicRecommendations (AiRoutes.of_result r))
       = ["material_substitution"; "general_sustainability"]%string
    /\ AiRoutes.recommendations (Some (AiRoutes.of_result r)) None
       = AiRoutes.Recommendations200
           (AiRoutes.generateBasicRecommendations (AiRoutes.of_result r))
           0.85 false.
Proof.
  intros Hm Hne. rewrite (calculate_200 req db ms Hm Hne).
  eexists. split; [reflexivity|]. split; [|reflexivity].
  unfold AiRoutes.generateBasicRecommendations, AiRoutes.of_result.
  cbn [LcaResults.summary LcaResults.total_co2_kg LcaResults.total_energy_mj
       LcaResults.material_breakdown AssessmentResult.summary
       AssessmentResult.material_breakdown AiRoutes.exceeds].
  pose proof (stable_sort_length Lca.by_total_impact_desc
                (map (enrich db) ms)) as L.
  destruct (stable_sort Lca.by_total_impact_desc (map (enrich db) ms))
    as [|first rest].
  - rewrite length_map in L. destruct ms; [contradiction | discriminate].
  - reflexivity.
Qed.

Lemma fallback_recommendations_of_a_response_witness :
  exists r,
    result_of (fst (Lca.calculate (unnamed [wood_1000]) (Database.seeded [])))
    = Some r
    /\ map BasicRecommendation.type
         (AiRoutes.generateBasicRecommendations (AiRoutes.of_result r))
       = ["material_substitution"; "general_sustainability"]%string.
Proof.
  destruct (fallback_recommendations_of_a_response (unnamed [wood_1000])
              (Database.seeded []) [wood_1000]) as (r & Hr & T & _).
  - reflexivity.
  - discriminate.
  - exists r. split; [exact Hr | exact T].
Defined.

(** ** The fallback processing, continued *)

Lemma estimate_positive (type : string) :
  0 < Ai.estimateEnergyConsumption type.
Proof.
  unfold Ai.estimateEnergyConsumption, Ai.energyEstimates.
  cbn [Ai.first_estimate].
  repeat match goal with
    | |- context [Js.includes ?a ?b] => destruct (Js.includes a b)
    end; reflexivity.
Qed.

Lemma truthy_positive (q : Q) : 0 < q -> Js.truthy_num (Some q) = true.
Proof.
  intro H. cbn. apply negb_true_iff.
  destruct (Qeq_bool q 0) eqn:E; [|reflexivity].
  apply Qeq_bool_iff in E. lra.
Qed.

(** X18: after the fallback processing no numeric field of a material
    is missing or zero, and processing the result once more changes
    none of the three values nor the category. *)
Theorem processing_fills_every_field (m : MaterialInput.t) :
  let p := Ai.process m in
  Js.truthy_num (Processed.quantity p) = true
  /\ Js.truthy_num (Processed.energy_consumption p) = true
  /\ Js.truthy_num (Processed.transport_distance p) = true
  /\ Processed.quantity (Ai.process (to_input p)) = Processed.quantity p
  /\ Processed.energy_consumption (Ai.process (to_input p))
     = Processed.energy_consumption p
  /\ Processed.transport_distance (Ai.process (to_input p))
     = Processed.transport_distance p
  /\ Processed.category (Ai.process (to_input p)) = Processed.category p.
Proof.
  cbv zeta.
  assert (Q1 : Js.truthy_num (Processed.quantity (Ai.process m)) = true).
  { unfold Ai.process. cbn [Processed.quantity].
    rewrite quantity_missing_falsy.
    destruct (Js.truthy_num (MaterialInput.quantity m)) eqn:T;
      [exact T | reflexivity]. }
  assert (Q2 : Js.truthy_num (Processed.energy_consumption (Ai.process m))
               = true).
  { unfold Ai.process, Ai.energy_missing. cbn [Processed.energy_consumption].
    destruct (Js.truthy_num (MaterialInput.energy_consumption m)) eqn:T;
      [exact T | apply truthy_positive, estimate_positive]. }
  assert (Q3 : Js.truthy_num (Processed.transport_distance (Ai.process m))
               = true).
  { unfold Ai.process, Ai.transport_missing. cbn [Processed.transport_distance].
    destruct (Js.truthy_num (MaterialInput.transport_distance m)) eqn:T;
      [exact T | reflexivity]. }
  split; [exact Q1|]. split; [exact Q2|]. split; [exact Q3|].
  set (p := Ai.process m) in *.
  unfold Ai.process at 1 2 3 4.
  cbn [Processed.quantity Processed.energy_consumption
       Processed.transport_distance Processed.category].
  rewrite quantity_missing_falsy. unfold Ai.energy_missing, Ai.transport_missing.
  unfold to_input. cbn [MaterialInput.quantity MaterialInput.energy_consumption
    MaterialInput.transport_distance MaterialInput.material_type].
  rewrite Q1, Q2, Q3. repeat split.
Qed.


(** On an object without advisory fields the processing of whole
    objects is the processing of the five fields. *)
Lemma process_fresh (m : MaterialInput.t) :
  AiObject.process (fresh m) = Some (Ai.process m).
Proof.
  destruct m as [type q u e t].
  unfold AiObject.process, Ai.process, fresh, Incoming.fields.
  cbn [Incoming.material_type Incoming.quantity Incoming.unit
       Incoming.energy_consumption Incoming.transport_distance
       Incoming.ai_imputed Incoming.imputation_note Incoming.ai_categorized
       Incoming.outlier_flag Incoming.outlier_reason
       MaterialInput.material_type MaterialInput.quantity MaterialInput.unit
       MaterialInput.energy_consumption MaterialInput.transport_distance].
  destruct (Ai.quantity_missing _), (Ai.energy_missing _),
    (Ai.transport_missing _), (String.eqb _ "Unknown"),
    (Js.truthy_num q && Js.gt (Js.parseFloat_or_0 q) 10000)%bool;
    reflexivity.
Qed.

Lemma process_typed (m : Incoming.t) :
  typed m = false -> AiObject.process m = None.
Proof.
  unfold typed, AiObject.process.
  destruct (Incoming.material_type m); [discriminate | reflexivity].
Qed.

(** What the processing of one object leaves in the type, the category
    and the three marks. *)
Lemma process_marks (m : Incoming.t) (p : Processed.t) :
  AiObject.process m = Some p ->
  Processed.material_type p = MaterialInput.material_type (five_fields m)
  /\ Processed.category p
     = Ai.categorizeMaterial (MaterialInput.material_type (five_fields m))
  /\ Processed.ai_imputed p = imputed_after m
  /\ Processed.ai_categorized p = categorized_after m
  /\ Processed.outlier_flag p = flagged_after m
  /\ Processed.outlier_reason p
     = (if is_outlier (five_fields m)
        then Some "Unusually high quantity detected"%string
        else Incoming.outlier_reason m)
  /\ (is_outlier (five_fields m) = true ->
      Processed.quantity p = Incoming.quantity m).
Proof.
  unfold AiObject.process, imputed_after, categorized_after, flagged_after,
    is_uncategorized, five_fields.
  destruct (Incoming.material_type m) as [type|]; [|discriminate].
  intro E. injection E as <-.
  cbn [Processed.material_type Processed.category Processed.ai_imputed
       Processed.ai_categorized Processed.outlier_flag
       Processed.outlier_reason Processed.quantity].
  set (five := Incoming.fields m type).
  assert (O : (Js.truthy_num (Incoming.quantity m)
               && Js.gt (Js.parseFloat_or_0 (Incoming.quantity m)) 10000)%bool
              = is_outlier five).
  { unfold is_outlier, five, Incoming.fields. cbn [MaterialInput.quantity].
    destruct (Incoming.quantity m) as [q|]; [|reflexivity].
    cbn [Js.truthy_num Js.parseFloat_or_0].
    destruct (Js.gt q 10000) eqn:G; [|apply andb_false_r].
    rewrite andb_true_r. apply negb_true_iff.
    destruct (Qeq_bool q 0) eqn:E; [|reflexivity].
    apply Qeq_bool_iff in E. apply gt_iff in G. lra. }
  rewrite O.
  split; [reflexivity|]. split; [reflexivity|]. split; [|split].
  - unfold has_missing_field. rewrite quantity_missing_falsy.
    unfold Ai.energy_missing, Ai.transport_missing.
    destruct (Js.truthy_num (MaterialInput.quantity five)),
      (Js.truthy_num (MaterialInput.energy_consumption five)),
      (Js.truthy_num (MaterialInput.transport_distance five)),
      (Incoming.ai_imputed m); reflexivity.
  - cbn [MaterialInput.material_type Incoming.fields five].
    destruct (String.eqb (Ai.categorizeMaterial type) "Unknown"),
      (Incoming.ai_categorized m); reflexivity.
  - destruct (is_outlier five), (Incoming.outlier_flag m);
      (split; [reflexivity|]); (split; [reflexivity|]);
      try discriminate.
    + intros _. rewrite quantity_missing_falsy.
      apply andb_true_iff in O. destruct O as [T _].
      cbn [five Incoming.fields MaterialInput.quantity].
      rewrite T. reflexivity.
    + intros _. rewrite quantity_missing_falsy.
      apply andb_true_iff in O. destruct O as [T _].
      cbn [five Incoming.fields MaterialInput.quantity].
      rewrite T. reflexivity.
Qed.

Lemma basicDataProcessing_spec (materials : list Incoming.t) :
  if forallb typed materials
  then exists data,
      AiObject.basicDataProcessing materials = Some data
      /\ Forall2 (fun m p => AiObject.process m = Some p) materials data
  else AiObject.basicDataProcessing materials = None.
Proof.
  induction materials as [|m ms IH]; cbn [forallb AiObject.basicDataProcessing].
  - exists []. split; [reflexivity | constructor].
  - destruct (typed m) eqn:T; cbn [andb].
    + destruct (AiObject.process m) as [p|] eqn:P.
      * destruct (forallb typed ms).
        -- destruct IH as (data & E & F). rewrite E. eexists.
           split; [reflexivity|]. constructor; [exact P | exact F].
        -- rewrite IH. reflexivity.
      * unfold typed in T. unfold AiObject.process in P.
        destruct (Incoming.material_type m); discriminate.
    + rewrite (process_typed m T). reflexivity.
Qed.

Lemma basicDataProcessing_pointwise materials data :
  AiObject.basicDataProcessing materials = Some data ->
  Forall2 (fun m p => AiObject.process m = Some p) materials data.
Proof.
  intro E. pose proof (basicDataProcessing_spec materials) as S.
  destruct (forallb typed materials).
  - destruct S as (data' & E' & F). congruence.
  - congruence.
Qed.

Lemma forall2_map {A B C} (R : A -> B -> Prop) (f : A -> C) (g : B -> C)
    (l : list A) (l' : list B) :
  Forall2 R l l' -> (forall a b, R a b -> g b = f a) -> map g l' = map f l.
Proof.
  intros F H. induction F as [|a b l l' Hab F IH]; cbn; [reflexivity|].
  rewrite (H a b Hab), IH. reflexivity.
Qed.

Lemma forall2_count {A B} (R : A -> B -> Prop) (p : A -> bool) (q : B -> bool)
    (l : list A) (l' : list B) :
  Forall2 R l l' -> (forall a b, R a b -> q b = p a) ->
  List.length (filter q l') = List.length (filter p l).
Proof.
  intros F H. induction F as [|a b l l' Hab F IH]; cbn; [reflexivity|].
  rewrite (H a b Hab). destruct (p a); cbn; rewrite IH; reflexivity.
Qed.

(** X20: the fallback sets the outlier flag on a record whose quantity
    is above 10000 and never clears it: a processed record is flagged
    exactly when its quantity is above 10000 or it arrived flagged, and
    carries the reason of the rule or else the reason it arrived with.
    Flagging never alters or drops a record: the quantity is kept, and
    the processed list has the materials of the input in the same
    order. *)
Theorem outliers_are_flagged_not_altered
    (materials : list Incoming.t) (data : list Processed.t) :
  AiObject.basicDataProcessing materials = Some data ->
  map Processed.material_type data
  = map (fun m => MaterialInput.material_type (five_fields m)) materials
  /\ map Processed.outlier_flag data = map flagged_after materials
  /\ Forall2
       (fun m p =>
          Processed.outlier_reason p
          = (if is_outlier (five_fields m)
             then Some "Unusually high quantity detected"%string
             else Incoming.outlier_reason m)
          /\ (is_outlier (five_fields m) = true ->
              Processed.quantity p = Incoming.quantity m))
       materials data.
Proof.
  intro E. apply basicDataProcessing_pointwise in E.
  split; [|split].
  - apply (forall2_map _ _ _ _ _ E). intros m p H.
    apply (process_marks m p H).
  - apply (forall2_map _ _ _ _ _ E). intros m p H.
    apply (process_marks m p H).
  - induction E as [|m p ms ps H E IH]; constructor; [|exact IH].
    destruct (process_marks m p H) as (_ & _ & _ & _ & _ & R & Q).
    split; assumption.
Qed.

Lemma outliers_are_flagged_not_altered_witness :
  exists data,
    AiObject.basicDataProcessing [edited_outlier] = Some data
    /\ is_outlier (five_fields edited_outlier) = false
    /\ map Processed.outlier_flag data = [true].
Proof.
  assert (H : exists data,
             AiObject.basicDataProcessing [edited_outlier] = Some data)
    by (eexists; vm_compute; reflexivity).
  destruct H as [data H]. exists data.
  split; [exact H|]. split; [vm_compute; reflexivity|].
  rewrite (proj1 (proj2 (outliers_are_flagged_not_altered
                           [edited_outlier] data H))).
  reflexivity.
Defined.

(** X21: the rule-based categorization answers with one of seven
    categories only, so never with Ceramics or Electronics, which the
    seeded factor table uses; the category of a processed record is the
    one the rules give its type, whatever category it arrived with, and
    the record is marked [ai_categorized] exactly when that category is
    Unknown or the record arrived marked. *)
Theorem categorization_range (materialType : string) :
  In (Ai.categorizeMaterial materialType)
     ["Metals"; "Plastics"; "Construction"; "Glass"; "Paper"; "Textiles";
      "Unknown"]%string
  /\ Ai.categorizeMaterial materialType <> "Ceramics"%string
  /\ Ai.categorizeMaterial materialType <> "Electronics"%string
  /\ forall m p,
       AiObject.process m = Some p ->
       Incoming.material_type m = Some materialType ->
       Processed.category p = Ai.categorizeMaterial materialType
       /\ (Processed.ai_categorized p = true
           <-> Processed.category p = "Unknown"%string
               \/ Incoming.ai_categorized m = true).
Proof.
  assert (R : In (Ai.categorizeMaterial materialType)
                 ["Metals"; "Plastics"; "Construction"; "Glass"; "Paper";
                  "Textiles"; "Unknown"]%string).
  { unfold Ai.categorizeMaterial. cbv zeta.
    repeat match goal with
      | |- context [if ?c then _ else _] => destruct c
      end; cbn; tauto. }
  split; [exact R|]. split; [|split].
  - intro E. rewrite E in R. cbn in R.
    repeat (destruct R as [R|R]; [discriminate R|]). exact R.
  - intro E. rewrite E in R. cbn in R.
    repeat (destruct R as [R|R]; [discriminate R|]). exact R.
  - intros m p H T.
    destruct (process_marks m p H) as (_ & C & _ & A & _).
    unfold categorized_after, is_uncategorized, five_fields in *.
    rewrite T in *. cbn [Incoming.fields MaterialInput.material_type] in *.
    split; [exact C|]. rewrite A, C, orb_true_iff, String.eqb_eq. tauto.
Qed.

(** X22: when the AI processor does not answer, [POST /process]
    answers a non-empty list of objects that all have a string
    [material_type] with status 200 and the message of the normal path,
    as many processed as original records, and a summary that counts
    the records marked after processing: those with a missing or zero
    numeric field or marked [ai_imputed] on arrival, as
    [categories_assigned] those the rules could not categorize or
    marked [ai_categorized] on arrival, and those above 10000 or
    flagged on arrival.  When some object has no string
    [material_type], the processing throws in the handler and again in
    its [catch], and the request is left unanswered. *)
Theorem process_fallback_summary (materials : list Incoming.t) :
  materials <> [] ->
  if forallb typed materials
  then exists data,
      AiObject.basicDataProcessing materials = Some data
      /\ AiRoutes.process (Some materials) AiRoutes.Unavailable
         = AiRoutes.Process200 "Data processed successfully"
             (List.length materials) (List.length materials) data
             (AiRoutes.mkSummary
                (List.length (filter imputed_after materials))
                (List.length (filter categorized_after materials))
                (List.length (filter flagged_after materials)))
  else AiRoutes.process (Some materials) AiRoutes.Unavailable
       = AiRoutes.ProcessUnanswered.
Proof.
  intro Hne. pose proof (basicDataProcessing_spec materials) as S.
  unfold AiRoutes.process, AiRoutes.processDataWithAI.
  destruct materials as [|m ms]; [contradiction|].
  destruct (forallb typed (m :: ms)).
  - destruct S as (data & E & F). exists data. split; [exact E|].
    rewrite E.
    rewrite (forall2_count _ imputed_after Processed.ai_imputed _ _ F)
      by (intros a b H; apply (process_marks a b H)).
    rewrite (forall2_count _ categorized_after Processed.ai_categorized _ _ F)
      by (intros a b H; apply (process_marks a b H)).
    rewrite (forall2_count _ flagged_after Processed.outlier_flag _ _ F)
      by (intros a b H; apply (process_marks a b H)).
    rewrite <- (Forall2_length F). reflexivity.
  - rewrite S. reflexivity.
Qed.

Lemma process_fallback_summary_witness :
  (exists data,
      AiRoutes.process (Some [edited_outlier; fresh (bare "Unobtainium")])
                       AiRoutes.Unavailable
      = AiRoutes.Process200 "Data processed successfully" 2 2 data
          (AiRoutes.mkSummary 1 1 1))
  /\ AiRoutes.process (Some [edited_outlier; untyped]) AiRoutes.Unavailable
     = AiRoutes.ProcessUnanswered.
Proof.
  split.
  - destruct (process_fallback_summary
                [edited_outlier; fresh (bare "Unobtainium")])
      as (data & _ & E); [discriminate|].
    exists data. exact E.
  - apply (process_fallback_summary [edited_outlier; untyped]). discriminate.
Defined.

(** ** The manual entry route *)

Lemma validate_all_spec parseFloat_text (materials : list (option RawObject.t)) :
  if forallb acceptable materials
  then exists vs,
      ManualJson.validate_all parseFloat_text materials = inr vs
      /\ List.length vs = List.length materials
      /\ map MaterialInput.material_type vs
         = map (fun m => ManualJson.trim (given_type m)) materials
      /\ map MaterialInput.quantity vs
         = map (fun m => ManualJson.parseFloat parseFloat_text
                           (given_quantity m))
               materials
  else exists failure,
      ManualJson.validate_all parseFloat_text materials = inl failure
      /\ failure <> ManualJson.MaterialsRequired
      /\ (forallb plain materials = true ->
          failure = ManualJson.FieldsRequired).
Proof.
  induction materials as [|m ms IH];
    cbn [forallb ManualJson.validate_all].
  - exists []. repeat split.
  - destruct (acceptable m) eqn:A; cbn [andb].
    + unfold acceptable in A. destruct m as [o|]; [|discriminate].
      apply andb_true_iff in A. destruct A as [At Aq].
      unfold ManualJson.validate at 1 2.
      destruct (RawObject.material_type o) as [[| | |[|c type]|]|] eqn:T;
        try discriminate.
      cbn [Json.truthy negb orb]. rewrite Aq. cbn [negb].
      destruct (forallb acceptable ms).
      * destruct IH as (vs & E & L & Ty & Qu). rewrite E. eexists.
        split; [reflexivity|].
        cbn [List.length map MaterialInput.material_type
             MaterialInput.quantity given_type given_quantity].
        rewrite L, Ty, Qu, T. repeat split.
      * destruct IH as (failure & E & N & P). rewrite E.
        exists failure. split; [reflexivity|]. split; [exact N|].
        intro H. apply andb_true_iff in H. apply P, H.
    + destruct (ManualJson.validate parseFloat_text m) as [| |v] eqn:V.
      * eexists. split; [reflexivity|]. split; [discriminate | reflexivity].
      * eexists. split; [reflexivity|]. split; [discriminate|].
        intro H. apply andb_true_iff in H. destruct H as [H _].
        exfalso. unfold ManualJson.validate, plain in *.
        destruct m as [o|]; [|discriminate].
        destruct (RawObject.material_type o) as [[| | |[|c type]|]|];
          cbn [Json.truthy negb orb andb] in *; try discriminate;
          match type of V with
          | (if ?test then _ else _) = _ => destruct test
          end; discriminate.
      * exfalso. unfold ManualJson.validate, acceptable in *.
        destruct m as [o|]; [|discriminate].
        destruct (RawObject.material_type o) as [[| | |[|c type]|]|];
          cbn [Json.truthy negb orb andb] in *; try discriminate;
          match type of V with
          | (if ?test then _ else _) = _ => destruct test eqn:X
          end; try discriminate.
        rewrite A in X. discriminate.
Qed.

(** X23: [POST /manual] accepts a non-empty array exactly when every
    element is an object whose [material_type] is a non-empty string
    and whose [quantity] is truthy as it arrives: a number other than
    0, a negative one included, a non-empty string, the string "0"
    included, [true], an array or an object.  It then reports one record
    per element, in input order, with the types trimmed and the
    quantities parsed.  One element that fails the test rejects the
    whole array with status 400, and with the error of the route when
    no element is [null] or has a type that is neither a string nor
    [null]. *)
Theorem manual_accepts_all_or_nothing
    (parseFloat_text : string -> option Q)
    (materials : list (option RawObject.t)) (db : Database.t) :
  materials <> [] ->
  if forallb acceptable materials
  then exists data,
      ManualJson.manual parseFloat_text (Some materials) db
      = ManualJson.Status200 "Data processed successfully" data
          (List.length materials)
      /\ map (fun e => MaterialInput.material_type (EnrichedMaterial.material e))
             data
         = map (fun m => ManualJson.trim (given_type m)) materials
      /\ map (fun e => MaterialInput.quantity (EnrichedMaterial.material e))
             data
         = map (fun m => ManualJson.parseFloat parseFloat_text
                           (given_quantity m))
               materials
  else exists failure,
      ManualJson.manual parseFloat_text (Some materials) db
      = ManualJson.Status400 failure
      /\ failure <> ManualJson.MaterialsRequired
      /\ (forallb plain materials = true ->
          failure = ManualJson.FieldsRequired).
Proof.
  intro Hne. pose proof (validate_all_spec parseFloat_text materials) as V.
  unfold ManualJson.manual. destruct materials as [|m ms]; [contradiction|].
  destruct (forallb acceptable (m :: ms)).
  - destruct V as (vs & E & L & T & Q). rewrite E. cbv zeta.
    unfold Data.enrichMaterialData. rewrite length_map, L.
    eexists. split; [reflexivity|]. rewrite !map_map, <- T, <- Q.
    split; apply map_ext; intro v;
      destruct (Data.lookup db (MaterialInput.material_type v)) as [[f e] w];
      reflexivity.
  - destruct V as (failure & E & N & P). rewrite E.
    exists failure. split; [reflexivity|]. split; [exact N | exact P].
Qed.

Lemma manual_accepts_all_or_nothing_witness :
  (exists data,
      ManualJson.manual reads_zero
        (Some [entry (Json.Text (nbsp ++ "Steel " ++ nbsp)) (Json.Text "0")])
        (Database.seeded [])
      = ManualJson.Status200 "Data processed successfully" data 1
      /\ map (fun e => MaterialInput.material_type (EnrichedMaterial.material e))
             data
         = ["Steel"%string]
      /\ map (fun e => MaterialInput.quantity (EnrichedMaterial.material e))
             data
         = [Some 0])
  /\ ManualJson.manual reads_zero
       (Some [entry (Json.Text "Steel") (Json.Number 100);
              entry (Json.Text "Wood") (Json.Number 0)])
       (Database.seeded [])
     = ManualJson.Status400 ManualJson.FieldsRequired.
Proof.
  split.
  - apply (manual_accepts_all_or_nothing reads_zero
             [entry (Json.Text (nbsp ++ "Steel " ++ nbsp)) (Json.Text "0")]
             (Database.seeded [])).
    discriminate.
  - destruct (manual_accepts_all_or_nothing reads_zero
                [entry (Json.Text "Steel") (Json.Number 100);
                 entry (Json.Text "Wood") (Json.Number 0)]
                (Database.seeded []))
      as (failure & E & _ & P); [discriminate|].
    rewrite E, (P eq_refl). reflexivity.
Defined.

Lemma trim_whitespace (s : string) :
  all_whitespace s = true -> Manual.trim s = EmptyString.
Proof.
  unfold Manual.trim. induction s as [|c s IH]; cbn; [reflexivity|].
  intro H. apply andb_true_iff in H. destruct H as [Hc Hs].
  rewrite Hc. apply IH, Hs.
Qed.

Lemma includes_empty (s : string) : Js.includes s EmptyString = true.
Proof. destruct s; reflexivity. Qed.

Lemma lookup_blank db :
  Database.emission_factors db <> [] ->
  exists r, Data.lookup db EmptyString = (r, false, None)
            /\ In r (Database.emission_factors db).
Proof.
  intro Hne. unfold Data.lookup, Database.get_factor_exact.
  destruct (find _ _) as [r|] eqn:F.
  - exists r. split; [reflexivity|]. apply find_some in F. apply F.
  - pose proof (get_factor_like_spec db EmptyString eq_refl) as L.
    destruct (Database.get_factor_like db ("%" ++ EmptyString ++ "%"))
      as [r|].
    + exists r. split; [reflexivity | apply L].
    + destruct (Database.emission_factors db) as [|r0 rs];
        [contradiction|].
      cbn [existsb] in L. unfold contains_input at 1 in L.
      cbn [Js.toLowerCase] in L. rewrite includes_empty in L. discriminate.
Qed.

(** X24: a material type that consists of white space only passes the
    validation of [POST /manual], is trimmed to the empty string and,
    whenever the factor table is not empty, is given the factors and
    category of a table row, without the [estimated] mark or a warning:
    the empty pattern of the partial match fits every row. *)
Theorem blank_type_gets_table_factors
    (db : Database.t) (type : string) (quantity : Q)
    (unit : option string) (energy transport : option Q) :
  all_whitespace type = true -> type <> EmptyString ->
  ~ quantity == 0 ->
  Database.emission_factors db <> [] ->
  exists e r,
    Manual.manual
      (Some [RawMaterial.mk (Some type) (Some quantity) unit energy transport])
      db
    = Manual.Status200 "Data processed successfully" [e] 1
    /\ In r (Database.emission_factors db)
    /\ MaterialInput.material_type (EnrichedMaterial.material e) = EmptyString
    /\ EnrichedMaterial.category e = EmissionFactor.category r
    /\ EnrichedMaterial.estimated e = false
    /\ EnrichedMaterial.warning e = None.
Proof.
  intros Hw Hne Hq Ht. destruct (lookup_blank db Ht) as (r & L & Hin).
  unfold Manual.manual. cbn [Manual.validate_all]. unfold Manual.validate.
  cbn [RawMaterial.material_type RawMaterial.quantity RawMaterial.unit
       RawMaterial.energy_consumption RawMaterial.transport_distance].
  assert (T1 : Js.truthy_str (Some type) = true)
    by (destruct type; [contradiction | reflexivity]).
  assert (T2 : Js.truthy_num (Some quantity) = true).
  { cbn. apply negb_true_iff. destruct (Qeq_bool quantity 0) eqn:E;
      [|reflexivity]. apply Qeq_bool_iff in E. contradiction. }
  rewrite T1, T2. cbn [negb orb]. cbv zeta.
  unfold Js.str_or at 1. rewrite T1, (trim_whitespace type Hw).
  unfold Data.enrichMaterialData. cbn [map MaterialInput.material_type].
  rewrite L. do 2 eexists. split; [reflexivity|].
  split; [exact Hin|]. repeat split.
Qed.

Lemma blank_type_gets_table_factors_witness :
  exists e r,
    Manual.manual
      (Some [RawMaterial.mk (Some " "%string) (Some 5) None None None])
      (Database.seeded [])
    = Manual.Status200 "Data processed successfully" [e] 1
    /\ In r (Database.emission_factors (Database.seeded []))
    /\ MaterialInput.material_type (EnrichedMaterial.material e) = EmptyString
    /\ EnrichedMaterial.category e = EmissionFactor.category r
    /\ EnrichedMaterial.estimated e = false
    /\ EnrichedMaterial.warning e = None.
Proof.
  apply (blank_type_gets_table_factors (Database.seeded []) " "%string 5
           None None None).
  - reflexivity.
  - discriminate.
  - intro H. discriminate H.
  - discriminate.
Defined.

(** ** Seeded materials are known *)

(** X25: once the table has been seeded, whatever it held before, a
    material named like one of the seed rows, in any letter case, is
    never treated as unknown by [POST /calculate]: the lookup returns a
    table row of that name and no warning. *)
Theorem seeded_types_are_known
    (db : Database.t) (table : list EmissionFactor.t)
    (f : EmissionFactor.t) (input : string) :
  Database.emission_factors db
  = Database.insertDefaultEmissionFactors table ->
  In f Database.defaultFactors ->
  Js.toLowerCase input = Js.toLowerCase (EmissionFactor.material_type f) ->
  exists r,
    Lca.lookup db input = (r, None)
    /\ In r (Database.emission_factors db)
    /\ Js.toLowerCase (EmissionFactor.material_type r) = Js.toLowerCase input.
Proof.
  intros E Hf Hi.
  assert (X : existsb (exact_match input) (Database.emission_factors db)
              = true).
  { rewrite E.
    change (Database.insertDefaultEmissionFactors table)
      with (fold_left seed_step Database.defaultFactors table).
    pose proof (seed_fold_covers Database.defaultFactors table f Hf) as C.
    apply existsb_exists in C. destruct C as (r & Hr & S).
    apply existsb_exists. exists r. split; [exact Hr|].
    unfold same_factor in S. apply andb_true_iff in S. destruct S as [S _].
    apply String.eqb_eq in S. unfold exact_match. rewrite S, Hi.
    apply String.eqb_refl. }
  unfold Lca.lookup, Database.get_factor_exact.
  change (fun r => String.eqb
                     (Database.LOWER (EmissionFactor.material_type r))
                     (Database.LOWER input))
    with (exact_match input).
  destruct (find (exact_match input) (Database.emission_factors db))
    as [r|] eqn:F.
  - exists r. split; [reflexivity|]. apply find_some in F.
    destruct F as [Hin M]. split; [exact Hin|].
    unfold exact_match in M. apply String.eqb_eq in M. exact M.
  - apply find_none_existsb in F. congruence.
Qed.

Lemma seeded_types_are_known_witness :
  exists r,
    Lca.lookup (Database.seeded []) "pet plastic" = (r, None)
    /\ In r (Database.emission_factors (Database.seeded []))
    /\ Js.toLowerCase (EmissionFactor.material_type r)
       = Js.toLowerCase "pet plastic".
Proof.
  apply (seeded_types_are_known (Database.seeded []) []
           (EmissionFactor.mk "PET Plastic" "Plastics" 2.25 76.0 0.05 "kg"
              "PlasticsEurope") "pet plastic").
  - reflexivity.
  - cbn. tauto.
  - reflexivity.
Defined.

(** ** Wildcards in the partial match *)




